(** * train-sklearn: callbacks and result aggregation

    A shallow embedding of the two Python modules

      - [ray_sklearn/skorch_approach/callbacks/skorch.py]
        (the skorch callbacks run inside a Ray Train worker), and
      - [examples/benchmark/train_linear.py]
        (the [AggregateLogCallback] of the benchmark driver),

    together with the properties of them that the design notes state, and
    further properties read off the code: its failures and edge cases,
    what each method leaves untouched, and how the methods compose.

    Python objects that are mutated in place (the callback object, the net
    and its history, io buffers, the Ray checkpoint store, the sink, the
    file system) live in an explicit state; a method is a function from
    that state to an outcome (a returned value or a raised exception) and
    the state it leaves behind. *)

From Stdlib Require Import ZArith List Bool Lia Permutation.
From Stdlib Require Import Sorting.Sorted Sorting.Mergesort Structures.Orders.
From Stdlib Require Import Floats.SpecFloat.
From stdpp Require Import base option list gmap strings pretty fin_maps sorting.

Set Warnings "-register-all".

Local Open Scope string_scope.
Local Open Scope list_scope.

(** ** Python values, exceptions and outcomes *)

Module Py.

(** IEEE 754 binary64, the representation of a Python [float]. *)
Definition float : Type := spec_float.
Definition prec : Z := 53.
Definition emax : Z := 1024.
Definition float_add : float → float → float := SFadd prec emax.
Definition float_sub : float → float → float := SFsub prec emax.

(** The values that flow through result dictionaries and history rows. *)
Inductive pyval : Type :=
| PNone
| PBool (b : bool)
| PInt (z : Z)
| PFloat (x : float)
| PStr (s : string)
| PTuple (items : list pyval)
| PList (items : list pyval).

(** [isinstance(value, numbers.Number)]: [bool] is a subclass of [int]. *)
Definition is_number (value : pyval) : bool :=
  match value with
  | PBool _ | PInt _ | PFloat _ => true
  | _ => false
  end.

(** An instance of [Exception]: the name of its class, the names of the
    classes it derives from below [Exception], and its message. *)
Record pyexc : Type :=
  Exc { exc_type : string; exc_bases : list string; exc_msg : string }.

(** [isinstance(e, cls)], as an [except cls] clause tests it. *)
Definition isinstance (e : pyexc) (cls : string) : bool :=
  String.eqb cls "Exception"
  || bool_decide (cls ∈ exc_type e :: exc_bases e).

Definition AttributeError (name : string) : pyexc :=
  Exc "AttributeError" [] ("object has no attribute '" +:+ name +:+ "'").
Definition KeyError (key : string) : pyexc :=
  Exc "KeyError" ["LookupError"] key.
Definition IndexError (msg : string) : pyexc :=
  Exc "IndexError" ["LookupError"] msg.
Definition TypeError (msg : string) : pyexc := Exc "TypeError" [] msg.
Definition ValueError (msg : string) : pyexc := Exc "ValueError" [] msg.
Definition RuntimeError (msg : string) : pyexc := Exc "RuntimeError" [] msg.

Inductive result (A : Type) : Type :=
| Ok (a : A)
| Raise (e : pyexc).
Arguments Ok {A} a.
Arguments Raise {A} e.

#[global] Instance result_ret : MRet result := λ A a, Ok a.
#[global] Instance result_bind : MBind result := λ A B k r,
  match r with
  | Ok a => k a
  | Raise e => Raise e
  end.

(** A method call: the outcome, and the state the call leaves behind. A
    raised exception keeps the mutations made before it. *)
Definition M (S A : Type) : Type := S → result A * S.

#[global] Instance M_ret {S} : MRet (M S) := λ A a st, (Ok a, st).
#[global] Instance M_bind {S} : MBind (M S) := λ A B k m st,
  match m st with
  | (Ok a, st') => k a st'
  | (Raise e, st') => (Raise e, st')
  end.

Definition raise {S A} (e : pyexc) : M S A := λ st, (Raise e, st).
Definition lift {S A} (r : result A) : M S A := λ st, (r, st).

(** [try: body except cls: handler] *)
Definition try_except {S A} (body : M S A) (cls : string)
    (handler : pyexc → M S A) : M S A := λ st,
  match body st with
  | (Ok a, st') => (Ok a, st')
  | (Raise e, st') =>
      if isinstance e cls then handler e st' else (Raise e, st')
  end.

(** A call that works on the first component of a pair of states and
    leaves the second alone. *)
Definition on_fst {S X A} (m : M S A) : M (S * X) A := λ '(st, x),
  let '(r, st') := m st in (r, (st', x)).

(** [for x in items: acc = body(acc, x)], in any state. *)
Fixpoint for_in {S A B} (items : list A) (body : B → A → M S B) (acc : B)
    : M S B :=
  match items with
  | [] => mret acc
  | x :: items => acc ← body acc x; for_in items body acc
  end.

Definition is_ok {A} (r : result A) : bool :=
  match r with Ok _ => true | Raise _ => false end.

(** [s.startswith(p)] and [s.endswith(p)]. *)
Definition startswith (s p : string) : bool := String.prefix p s.

Definition endswith (s p : string) : bool :=
  let n := String.length s in
  let m := String.length p in
  (m <=? n)%nat && String.eqb (String.substring (n - m) m s) p.

(** [sorted(keys)] on strings: the order is the lexicographic order on
    code points, [String.leb]. *)
Module StringOrder <: TotalLeBool.
Definition t := string.
Definition leb := String.leb.
Lemma leb_total (x y : t) : leb x y = true ∨ leb y x = true.
Proof. apply String.leb_total. Qed.
End StringOrder.

Module StringSort := Sort StringOrder.

Definition sorted (keys : list string) : list string := StringSort.sort keys.

(** A [dict] with string keys, in insertion order. *)
Definition dict (V : Type) : Type := list (string * V).

Fixpoint dict_get {V} (key : string) (d : dict V) : option V :=
  match d with
  | [] => None
  | (k, v) :: d => if String.eqb k key then Some v else dict_get key d
  end.

(** [d[key] = v] *)
Fixpoint dict_set {V} (key : string) (v : V) (d : dict V) : dict V :=
  match d with
  | [] => [(key, v)]
  | (k, v') :: d =>
      if String.eqb k key then (k, v) :: d else (k, v') :: dict_set key v d
  end.

Definition dict_keys {V} (d : dict V) : list string := map fst d.

(** A keyword flag that is [None], [True] or [False]; [d.get(key)] and
    the truth value [if v:] tests. *)
Definition flag : Type := option bool.

Definition flag_get (key : string) (d : dict flag) : flag :=
  match dict_get key d with
  | Some v => v
  | None => None
  end.

Definition truthy (v : flag) : bool :=
  match v with
  | Some true => true
  | _ => false
  end.

End Py.
Import Py.


(** ** The objects the callbacks work on *)

Module Obj.

(** An [io.StringIO] or [io.BytesIO] object and what [getvalue()] returns.
    The contents of both are kept as a string of 8-bit characters. *)
Inductive io_kind : Type := StringIO | BytesIO.

Record io_object : Type := { io_class : io_kind; getvalue : string }.

(** skorch's [History]: a list of epoch rows, each with its own fields and
    the list of its batch rows. *)
Record epoch_row : Type :=
  { row : gmap string pyval; batches : list (gmap string pyval) }.

(** The [NeuralNet] as far as the callbacks use it. [save_params] is what
    [net.save_params] serialises into the target passed under the keyword
    [f_name], or the exception it raises; [load_params_calls] keeps the
    keyword arguments (addresses of io objects) of each [net.load_params]
    call; [pickled] is what [pickle.dump(net, f)] writes. *)
Record NeuralNet : Type :=
  { history : list epoch_row;
    verbose : bool;
    save_params : string → result string;
    load_params_calls : list (gmap string nat);
    pickled : string }.

(** A checkpoint dictionary of Ray Train, typed as [save_model] writes
    it: the entry under 'epoch', the entry under '_keys' (a tuple of
    keys), and every other entry (the contents of an io object). An
    entry that is absent is [None]. *)
Record checkpoint : Type :=
  { ck_epoch : option pyval;
    ck_keys : option (list string);
    ck_data : gmap string string }.

(** The text handed to [self._sink], by the format string used and its
    arguments. *)
Inductive sink_text : Type :=
| CheckpointFound
| LoadedCheckpoint (keys : list string) (epoch : pyval)
| UnableToSave (log_name : string) (f : option nat) (e : pyexc).

(** What lies outside the callback and the net: the io objects by address,
    the calls of [self._sink(text, verbose)], Ray Train's checkpoint (the
    dictionary [train.load_checkpoint()] returns, which is the session's
    own and so changes when entries are popped from it, and the ones
    handed to [train.save_checkpoint]) and world rank, the file system,
    and the readings of [time.time()]. *)
Record env : Type :=
  { heap : list io_object;
    sink_calls : list (sink_text * bool);
    loaded_checkpoint : option checkpoint;
    saved_checkpoints : list checkpoint;
    world_rank : Z;
    dirs : gset string;
    files : gmap string string;
    makedirs_fails : bool;
    clock : nat → float;
    ticks : nat }.

Record state (C : Type) : Type := { self : C; net : NeuralNet; world : env }.
Arguments self {C} _.
Arguments net {C} _.
Arguments world {C} _.

Definition with_heap (h : list io_object) (w : env) : env :=
  {| heap := h; sink_calls := sink_calls w;
     loaded_checkpoint := loaded_checkpoint w;
     saved_checkpoints := saved_checkpoints w; world_rank := world_rank w;
     dirs := dirs w; files := files w; makedirs_fails := makedirs_fails w;
     clock := clock w; ticks := ticks w |}.

Definition with_sink_calls (l : list (sink_text * bool)) (w : env) : env :=
  {| heap := heap w; sink_calls := l;
     loaded_checkpoint := loaded_checkpoint w;
     saved_checkpoints := saved_checkpoints w; world_rank := world_rank w;
     dirs := dirs w; files := files w; makedirs_fails := makedirs_fails w;
     clock := clock w; ticks := ticks w |}.

Definition with_saved_checkpoints (l : list checkpoint) (w : env) : env :=
  {| heap := heap w; sink_calls := sink_calls w;
     loaded_checkpoint := loaded_checkpoint w;
     saved_checkpoints := l; world_rank := world_rank w;
     dirs := dirs w; files := files w; makedirs_fails := makedirs_fails w;
     clock := clock w; ticks := ticks w |}.

Definition with_loaded_checkpoint (c : option checkpoint) (w : env) : env :=
  {| heap := heap w; sink_calls := sink_calls w;
     loaded_checkpoint := c;
     saved_checkpoints := saved_checkpoints w; world_rank := world_rank w;
     dirs := dirs w; files := files w; makedirs_fails := makedirs_fails w;
     clock := clock w; ticks := ticks w |}.

Definition with_dirs (d : gset string) (w : env) : env :=
  {| heap := heap w; sink_calls := sink_calls w;
     loaded_checkpoint := loaded_checkpoint w;
     saved_checkpoints := saved_checkpoints w; world_rank := world_rank w;
     dirs := d; files := files w; makedirs_fails := makedirs_fails w;
     clock := clock w; ticks := ticks w |}.

Definition with_files (f : gmap string string) (w : env) : env :=
  {| heap := heap w; sink_calls := sink_calls w;
     loaded_checkpoint := loaded_checkpoint w;
     saved_checkpoints := saved_checkpoints w; world_rank := world_rank w;
     dirs := dirs w; files := f; makedirs_fails := makedirs_fails w;
     clock := clock w; ticks := ticks w |}.

Definition with_ticks (n : nat) (w : env) : env :=
  {| heap := heap w; sink_calls := sink_calls w;
     loaded_checkpoint := loaded_checkpoint w;
     saved_checkpoints := saved_checkpoints w; world_rank := world_rank w;
     dirs := dirs w; files := files w; makedirs_fails := makedirs_fails w;
     clock := clock w; ticks := n |}.

Definition with_history (h : list epoch_row) (n : NeuralNet) : NeuralNet :=
  {| history := h; verbose := verbose n; save_params := save_params n;
     load_params_calls := load_params_calls n; pickled := pickled n |}.

Definition with_load_params_calls (l : list (gmap string nat))
    (n : NeuralNet) : NeuralNet :=
  {| history := history n; verbose := verbose n;
     save_params := save_params n; load_params_calls := l;
     pickled := pickled n |}.

Section Access.
Context {C : Type}.

Definition gets {A} (f : state C → A) : M (state C) A := λ st, (Ok (f st), st).

Definition modify_self (f : C → C) : M (state C) () := λ st,
  (Ok (), {| self := f (self st); net := net st; world := world st |}).

Definition modify_net (f : NeuralNet → NeuralNet) : M (state C) () := λ st,
  (Ok (), {| self := self st; net := f (net st); world := world st |}).

Definition modify_world (f : env → env) : M (state C) () := λ st,
  (Ok (), {| self := self st; net := net st; world := f (world st) |}).

(** [for x in items: acc = body(acc, x)] *)
Fixpoint for_each {A B} (items : list A) (body : B → A → M (state C) B)
    (acc : B) : M (state C) B :=
  match items with
  | [] => mret acc
  | x :: items => acc ← body acc x; for_each items body acc
  end.

End Access.

End Obj.
Import Obj.

(** ** skorch: the library functions the callbacks rely on *)

Module skorch.

(** [skorch.callbacks.logging.filter_log_keys(keys, keys_ignored)], a
    generator over [keys]: it yields a key unless
    [key == 'epoch' or key in keys_ignored or key.endswith('_best') or
    key.endswith('_batch_count') or key.startswith('event_')]. *)
Definition filter_log_keys (keys : list string) (keys_ignored : gset string)
  : list string :=
  List.filter
    (λ key, negb (String.eqb key "epoch"
                  || bool_decide (key ∈ keys_ignored)
                  || endswith key "_best"
                  || endswith key "_batch_count"
                  || startswith key "event_"))
    keys.

(** [History.record_batch(attr, value)]:
    [self[-1]['batches'][-1][attr] = value]. *)
Definition record_batch (attr : string) (value : pyval)
    (history : list epoch_row) : result (list epoch_row) :=
  match last history with
  | None => Raise (IndexError "list index out of range")
  | Some epoch =>
      match last (batches epoch) with
      | None => Raise (IndexError "list index out of range")
      | Some batch =>
          let batches' :=
            <[pred (length (batches epoch)) := <[attr := value]> batch]>
              (batches epoch) in
          Ok (<[pred (length history) :=
                  {| row := row epoch; batches := batches' |}]> history)
      end
  end.

(** The batch row [record_batch] writes to, [self[-1]['batches'][-1]], and
    a history with that row replaced. *)
Definition current_batch (history : list epoch_row)
    : option (gmap string pyval) :=
  epoch ← last history; last (batches epoch).

Definition set_current_batch (batch : gmap string pyval)
    (history : list epoch_row) : list epoch_row :=
  match last history with
  | Some epoch =>
      <[pred (length history) :=
          {| row := row epoch;
             batches := <[pred (length (batches epoch)) := batch]> (batches epoch) |}]>
        history
  | None => history
  end.

(** [net.history.record_batch(attr, value)] on the net of the state. *)
Definition net_record_batch {C} (attr : string) (value : pyval)
    : M (state C) () :=
  h ← gets (λ st, history (net st));
  h ← lift (record_batch attr value h);
  modify_net (with_history h).

(** [History.record(attr, value)]: [self[-1][attr] = value]; on a history
    without an epoch it raises [ValueError]. *)
Definition record (attr : string) (value : pyval)
    (history : list epoch_row) : result (list epoch_row) :=
  match last history with
  | None =>
      Raise (ValueError "Call new_epoch before recording for the first time.")
  | Some epoch =>
      Ok (<[pred (length history) :=
              {| row := <[attr := value]> (row epoch);
                 batches := batches epoch |}]> history)
  end.

(** [net.history.record(attr, value)] on the net of the state. *)
Definition net_record {C} (attr : string) (value : pyval) : M (state C) () :=
  h ← gets (λ st, history (net st));
  h ← lift (record attr value h);
  modify_net (with_history h).

(** What an epoch row holds under a key: a value, or, under 'batches',
    its batch rows. [items] is the row as the dictionary it is in
    Python. *)
Inductive row_value : Type :=
| Value (v : pyval)
| BatchRows (b : list (gmap string pyval)).

Definition items (epoch : epoch_row) : gmap string row_value :=
  <["batches" := BatchRows (batches epoch)]> (Value <$> row epoch).

(** [skorch.utils._check_f_arguments(caller_name, **kwargs)]: the
    targets of modules, renamed from 'f_<name>' to '<name>_' ('f_params'
    to 'module_'), and the other targets; a target that is [None] is left
    out. *)
Definition _check_f_arguments (caller_name : string) (kwargs : dict flag)
    : result (dict flag * dict flag) :=
  if truthy (flag_get "f_params" kwargs) && truthy (flag_get "f_module" kwargs)
  then Raise (TypeError (caller_name +:+
         " called with both f_params and f_module, please choose one"))
  else
    fold_left
      (λ (acc : result (dict flag * dict flag)) '(key, val),
         '(kwargs_module, kwargs_other) ← acc;
         if negb (startswith key "f_")
         then Raise (TypeError (caller_name +:+
                " got an unexpected argument '" +:+ key +:+
                "', did you mean 'f_" +:+ key +:+ "'?"))
         else
           match val with
           | None => Ok (kwargs_module, kwargs_other)
           | Some _ =>
               if String.eqb key "f_history" || String.eqb key "f_pickle"
               then Ok (kwargs_module, dict_set key val kwargs_other)
               else
                 let key :=
                   if String.eqb key "f_params" then "module_"
                   else String.substring 2 (String.length key - 2) key +:+ "_" in
                 Ok (dict_set key val kwargs_module, kwargs_other)
           end)
      kwargs (Ok ([], [])).

(** [Checkpoint._sink(text, verbose)], the method every message of
    [TrainCheckpoint] goes through; the call is kept with its arguments. *)
Definition _sink {C} (text : sink_text) (verbose : bool) : M (state C) () :=
  modify_world (λ w, with_sink_calls (sink_calls w ++ [(text, verbose)]) w).

End skorch.

(** ** The Ray Train session *)

Module session.

(** Whether the code runs inside a session of Ray Train, and the keyword
    arguments of the calls of [train.report] so far. *)
Record t : Type :=
  { active : bool;
    reports : list (gmap string skorch.row_value) }.

(** [ray_sklearn.skorch_approach.utils.is_in_train_session()] *)
Definition is_in_train_session {S} : M (S * t) bool := λ '(st, s),
  (Ok (active s), (st, s)).

(** [train.report] with the keyword arguments [kwargs] *)
Definition report {S} (kwargs : gmap string skorch.row_value) : M (S * t) () :=
  λ '(st, s),
    (Ok (), (st, {| active := active s; reports := reports s ++ [kwargs] |})).

End session.

(** ** [TrainReportCallback] *)

Module TrainReportCallback.

(** The callback once [initialize] has run in a train session:
    [keys_ignored_] is the set built from the constructor argument. *)
Record t : Type := { keys_ignored_ : gset string }.

(** [_sorted_keys(self, keys)], lines 370-401. The two [for] loops append
    to [sorted_keys] in place. *)
Definition _sorted_keys (self : t) (keys : list string) : list string :=
  let sorted_keys := [] in
  let sorted_keys :=
    if bool_decide ("epoch" ∈ keys)
       && bool_decide ("epoch" ∉ keys_ignored_ self)
    then sorted_keys ++ ["epoch"] else sorted_keys in
  let sorted_keys :=
    fold_left
      (λ sorted_keys key,
         if negb (String.eqb key "dur_s")
         then sorted_keys ++ [key] else sorted_keys)
      (skorch.filter_log_keys (sorted keys) (keys_ignored_ self))
      sorted_keys in
  let sorted_keys :=
    fold_left
      (λ sorted_keys key,
         if startswith key "event_"
            && bool_decide (key ∉ keys_ignored_ self)
         then sorted_keys ++ [key] else sorted_keys)
      (sorted keys)
      sorted_keys in
  let sorted_keys :=
    if bool_decide ("dur_s" ∈ keys)
       && bool_decide ("dur_s" ∉ keys_ignored_ self)
    then sorted_keys ++ ["dur_s"] else sorted_keys in
  sorted_keys.

(** The four segments of the result, as the description of the method
    words them. *)
Definition epoch_first (self : t) (keys : list string) : list string :=
  if bool_decide ("epoch" ∈ keys) && bool_decide ("epoch" ∉ keys_ignored_ self)
  then ["epoch"] else [].

Definition dur_s_last (self : t) (keys : list string) : list string :=
  if bool_decide ("dur_s" ∈ keys) && bool_decide ("dur_s" ∉ keys_ignored_ self)
  then ["dur_s"] else [].

(** A key that is not ignored, does not end in '_best', does not start
    with 'event_' and is not 'dur_s'. *)
Definition plain_key (self : t) (key : string) : bool :=
  bool_decide (key ∉ keys_ignored_ self)
  && negb (endswith key "_best")
  && negb (startswith key "event_")
  && negb (String.eqb key "dur_s").

(** A plain key other than 'epoch' that does not end in '_batch_count':
    the keys of the alphabetical segment. *)
Definition middle_key (self : t) (key : string) : bool :=
  negb (String.eqb key "epoch")
  && negb (endswith key "_batch_count")
  && plain_key self key.

(** A key that is not ignored and starts with 'event_'. *)
Definition event_key (self : t) (key : string) : bool :=
  startswith key "event_" && bool_decide (key ∉ keys_ignored_ self).

(** The result as the description words it: 'epoch', the plain keys in
    alphabetical order, the event keys in alphabetical order, 'dur_s'. *)
Definition sorted_keys_described (self : t) (keys : list string)
  : list string :=
  epoch_first self keys
  ++ List.filter (plain_key self) (sorted keys)
  ++ List.filter (event_key self) (sorted keys)
  ++ dur_s_last self keys.

Definition alphabetical (l : list string) : Prop :=
  StronglySorted (λ a b, String.leb a b = true) l.

(** A key [_sorted_keys] keeps: one that is not ignored, and that ends
    neither in '_best' nor in '_batch_count' unless it starts with
    'event_'. *)
Definition kept_key (self : t) (key : string) : bool :=
  bool_decide (key ∉ keys_ignored_ self)
  && (negb (endswith key "_best") && negb (endswith key "_batch_count")
      || startswith key "event_").

(** The constructor argument [keys_ignored]: [None], a string, or a list
    of strings. *)
Inductive keys_ignored_arg : Type :=
| KeysNone
| KeysStr (key : string)
| KeysList (keys : list string).

(** The callback object: the constructor argument, lines 352-356, and the
    attributes [initialize] sets, [None] while they are unset;
    [initialized] holds [keys_ignored_]. *)
Record object : Type :=
  { keys_ignored : keys_ignored_arg;
    first_iteration_ : option bool;
    initialized : option t }.

Definition __init__ (keys_ignored : keys_ignored_arg) : object :=
  {| keys_ignored := keys_ignored; first_iteration_ := None;
     initialized := None |}.

Definition set_first_iteration_ (b : bool) (self : object) : object :=
  {| keys_ignored := keys_ignored self; first_iteration_ := Some b;
     initialized := initialized self |}.

Definition set_keys_ignored_ (keys : gset string) (self : object) : object :=
  {| keys_ignored := keys_ignored self;
     first_iteration_ := first_iteration_ self;
     initialized := Some {| keys_ignored_ := keys |} |}.

(** [initialize(self)], lines 358-368. It returns [None] outside a
    session and [self] inside; [keys_ignored or []] is the list itself, or
    the empty list for [None]. *)
Definition initialize : M (state object * session.t) (option object) :=
  in_session ← session.is_in_train_session;
  if negb in_session then mret None else
  on_fst (modify_self (set_first_iteration_ true));;
  keys_ignored ← on_fst (gets (λ st, keys_ignored (self st)));
  let keys_ignored :=
    match keys_ignored with
    | KeysStr key => KeysList [key]
    | _ => keys_ignored
    end in
  let keys_or_empty :=
    match keys_ignored with
    | KeysList keys => keys
    | _ => []
    end in
  on_fst (modify_self (set_keys_ignored_ (list_to_set keys_or_empty)));;
  self ← on_fst (gets self);
  mret (Some self).

(** [self._sorted_keys(keys)] on the object: reading [self.keys_ignored_]
    raises [AttributeError] while it is unset. *)
Definition sorted_keys_of_self (keys : list string)
    : M (state object * session.t) (list string) :=
  self ← on_fst (gets self);
  match initialized self with
  | Some attrs => mret (_sorted_keys attrs keys)
  | None => raise (AttributeError "keys_ignored_")
  end.

(** [on_epoch_end(self, net, **kwargs)], lines 403-411. The comprehension
    calls [self._sorted_keys(hist.keys())] for every item of [hist]. *)
Definition on_epoch_end : M (state object * session.t) pyval :=
  in_session ← session.is_in_train_session;
  if negb in_session then mret PNone else
  history ← on_fst (gets (λ st, history (net st)));
  match last history with
  | None => raise (IndexError "list index out of range")
  | Some hist =>
      let hist := map_to_list (skorch.items hist) in
      kwargs ←
        for_in hist
          (λ (kwargs : gmap string skorch.row_value) '(k, v),
             sorted_keys ← sorted_keys_of_self hist.*1;
             if bool_decide (k ∈ sorted_keys)
             then mret (<[k := v]> kwargs) else mret kwargs)
          ∅;
      session.report kwargs;;
      mret PNone
  end.

End TrainReportCallback.



(** ** The modules [time], [os] and [ray.train] *)

Module time.

(** [time.time()]: the next reading of the clock. *)
Definition time {C} : M (state C) float :=
  w ← gets world;
  modify_world (with_ticks (S (ticks w)));;
  mret (clock w (ticks w)).

End time.

Module io.

(** [io.StringIO(value)] and [io.BytesIO(value)]: a new object, at an
    address no object had before. *)
Definition new {C} (kind : io_kind) (value : string) : M (state C) nat :=
  w ← gets world;
  modify_world (with_heap (heap w ++ [{| io_class := kind; getvalue := value |}]));;
  mret (length (heap w)).

(** [f.write(content)] on an object whose position is its start. *)
Definition write_at_start (content : string) (o : io_object) : io_object :=
  {| io_class := io_class o;
     getvalue :=
       content +:+
       String.substring (String.length content)
         (String.length (getvalue o) - String.length content) (getvalue o) |}.

(** [f.getvalue()] *)
Definition value_of (w : env) (f : nat) : string :=
  match heap w !! f with
  | Some o => getvalue o
  | None => ""
  end.

End io.

Module builtins.

(** The first argument of [open]: a path, or (by mistake) an io object. *)
Inductive file_arg : Type := Path (path : string) | IoObject (f : nat).

(** [open(file, 'wb')]: creates or truncates the file at a path; an io
    object is no path: [TypeError]. The file opened is named by its
    path. *)
Definition open_wb {C} (file : file_arg) : M (state C) string :=
  match file with
  | Path path =>
      modify_world (λ w, with_files (<[path := ""]> (files w)) w);;
      mret path
  | IoObject _ =>
      raise (TypeError
        "expected str, bytes or os.PathLike object, not BytesIO")
  end.

(** [pickle.dump(net, f)] on a file opened by [open_wb]. *)
Definition pickle_dump {C} (f : string) : M (state C) () :=
  n ← gets net;
  modify_world (λ w, with_files (<[f := pickled n]> (files w)) w).

End builtins.

Module os.

(** [os.path.isdir(path)] *)
Definition path_isdir {C} (path : string) : M (state C) bool :=
  gets (λ st, bool_decide (path ∈ dirs (world st))).

(** [os.makedirs(name, exist_ok=True)] *)
Definition makedirs {C} (name : string) : M (state C) () :=
  w ← gets world;
  if makedirs_fails w
  then raise (Exc "PermissionError" ["OSError"] name)
  else modify_world (with_dirs ({[name]} ∪ dirs w)).

(** [os.path.join(a, b)] for a relative [b] *)
Definition path_join (a b : string) : string := a +:+ "/" +:+ b.

(** [with open(path) as f: data = f.read()] *)
Definition read_file {C} (path : string) : M (state C) string :=
  w ← gets world;
  match files w !! path with
  | Some data => mret data
  | None => raise (Exc "FileNotFoundError" ["OSError"] path)
  end.

End os.

Module train.

(** [train.world_rank()] *)
Definition world_rank {C} : M (state C) Z := gets (λ st, Obj.world_rank (world st)).

(** [train.load_checkpoint()] *)
Definition load_checkpoint {C} : M (state C) (option checkpoint) :=
  gets (λ st, loaded_checkpoint (world st)).

(** [checkpoint.pop(key)] on the dictionary [train.load_checkpoint()]
    returned: the dictionary is the session's own, so what is left of it
    is what the next [train.load_checkpoint()] returns. *)
Definition popped {C} (rest : checkpoint) : M (state C) () :=
  modify_world (with_loaded_checkpoint (Some rest)).

(** [train.save_checkpoint] with the keyword arguments [kwargs]: the
    checkpoint is handed over, and is from then on the one
    [train.load_checkpoint()] returns on this worker. *)
Definition save_checkpoint {C} (kwargs : checkpoint) : M (state C) () :=
  modify_world (λ w,
    with_loaded_checkpoint (Some kwargs)
      (with_saved_checkpoints (saved_checkpoints w ++ [kwargs]) w)).

End train.

(** ** [RayTrainCallback] *)

Module RayTrainCallback.

(** The eight hooks of the base class, lines 22-45: each body is a
    docstring. [C] is the class of the callback object, [self] and [net]
    are in the state; the data arguments [X], [y] and [kwargs] are used by
    no callback of the module and are left out. *)
Section Hooks.
Context {C : Type}.

Definition on_forward_pass_begin : M (state C) pyval := mret PNone.
Definition on_forward_pass_end : M (state C) pyval := mret PNone.
Definition on_backward_pass_begin : M (state C) pyval := mret PNone.
Definition on_backward_pass_end : M (state C) pyval := mret PNone.
Definition on_X_to_device_begin : M (state C) pyval := mret PNone.
Definition on_X_to_device_end : M (state C) pyval := mret PNone.
Definition on_y_to_device_begin : M (state C) pyval := mret PNone.
Definition on_y_to_device_end : M (state C) pyval := mret PNone.

End Hooks.

End RayTrainCallback.

(** ** [EpochTimerS] *)

Module EpochTimerS.

(** The class of lines 48-55, a subclass of skorch's [EpochTimer], whose
    constructor sets [epoch_start_time_] to [None] and whose
    [on_epoch_begin] sets it to the reading of the clock. *)
Record t : Type := { epoch_start_time_ : option float }.

Definition __init__ : t := {| epoch_start_time_ := None |}.

(** [EpochTimer.on_epoch_begin] of skorch, inherited. *)
Definition on_epoch_begin : M (state t) pyval :=
  now ← time.time;
  modify_self (λ _, {| epoch_start_time_ := Some now |});;
  mret PNone.

(** [on_epoch_end(self, net, **kwargs)], lines 54-55. *)
Definition on_epoch_end : M (state t) pyval :=
  now ← time.time;
  start ← gets (λ st, epoch_start_time_ (self st));
  match start with
  | None =>
      raise (TypeError
        "unsupported operand type(s) for -: 'float' and 'NoneType'")
  | Some start =>
      skorch.net_record "dur_s" (PFloat (float_sub now start));;
      mret PNone
  end.

End EpochTimerS.

(** ** [PerformanceLogger] *)

Module PerformanceLogger.

(** The class of lines 58-91. The attributes the hooks set; [None] while
    an attribute is unset. Each hook reads [time.time()] once. *)
Record t : Type :=
  { forward_pass_time_ : option float;
    backward_pass_time_ : option float;
    X_to_device_time_ : option float;
    y_to_device_time_ : option float }.

Definition __init__ : t :=
  {| forward_pass_time_ := None; backward_pass_time_ := None;
     X_to_device_time_ := None; y_to_device_time_ := None |}.

Definition set_forward_pass_time_ (v : float) (self : t) : t :=
  {| forward_pass_time_ := Some v;
     backward_pass_time_ := backward_pass_time_ self;
     X_to_device_time_ := X_to_device_time_ self;
     y_to_device_time_ := y_to_device_time_ self |}.

Definition set_backward_pass_time_ (v : float) (self : t) : t :=
  {| forward_pass_time_ := forward_pass_time_ self;
     backward_pass_time_ := Some v;
     X_to_device_time_ := X_to_device_time_ self;
     y_to_device_time_ := y_to_device_time_ self |}.

Definition set_X_to_device_time_ (v : float) (self : t) : t :=
  {| forward_pass_time_ := forward_pass_time_ self;
     backward_pass_time_ := backward_pass_time_ self;
     X_to_device_time_ := Some v;
     y_to_device_time_ := y_to_device_time_ self |}.

Definition set_y_to_device_time_ (v : float) (self : t) : t :=
  {| forward_pass_time_ := forward_pass_time_ self;
     backward_pass_time_ := backward_pass_time_ self;
     X_to_device_time_ := X_to_device_time_ self;
     y_to_device_time_ := Some v |}.

(** Reading an attribute of [self]; [AttributeError] while it is unset. *)
Definition getattr {A} (name : string) (field : t → option A)
    : M (state t) A :=
  v ← gets (λ st, field (self st));
  match v with
  | Some a => mret a
  | None => raise (AttributeError name)
  end.

Definition on_forward_pass_begin : M (state t) pyval :=
  now ← time.time;
  modify_self (set_forward_pass_time_ now);;
  mret PNone.

Definition on_forward_pass_end : M (state t) pyval :=
  now ← time.time;
  start ← getattr "forward_pass_time_" forward_pass_time_;
  modify_self (set_forward_pass_time_ (float_sub now start));;
  mret PNone.

Definition on_backward_pass_begin : M (state t) pyval :=
  now ← time.time;
  modify_self (set_backward_pass_time_ now);;
  mret PNone.

Definition on_backward_pass_end : M (state t) pyval :=
  now ← time.time;
  start ← getattr "backward_pass_time_" backward_pass_time_;
  modify_self (set_backward_pass_time_ (float_sub now start));;
  mret PNone.

Definition on_X_to_device_begin : M (state t) pyval :=
  now ← time.time;
  modify_self (set_X_to_device_time_ now);;
  mret PNone.

Definition on_X_to_device_end : M (state t) pyval :=
  now ← time.time;
  start ← getattr "X_to_device_time_" X_to_device_time_;
  modify_self (set_X_to_device_time_ (float_sub now start));;
  mret PNone.

Definition on_y_to_device_begin : M (state t) pyval :=
  now ← time.time;
  modify_self (set_y_to_device_time_ now);;
  mret PNone.

Definition on_y_to_device_end : M (state t) pyval :=
  now ← time.time;
  start ← getattr "y_to_device_time_" y_to_device_time_;
  modify_self (set_y_to_device_time_ (float_sub now start));;
  mret PNone.

Definition on_batch_end : M (state t) pyval :=
  x ← getattr "X_to_device_time_" X_to_device_time_;
  y ← getattr "y_to_device_time_" y_to_device_time_;
  skorch.net_record_batch "to_device_dur_s" (PFloat (float_add x y));;
  f ← getattr "forward_pass_time_" forward_pass_time_;
  skorch.net_record_batch "forward_pass_dur_s" (PFloat f);;
  b ← getattr "backward_pass_time_" backward_pass_time_;
  skorch.net_record_batch "backward_pass_dur_s" (PFloat b);;
  mret PNone.

(** The eight hooks by name, and [net.notify(name)] as it reaches the
    callback. *)
Inductive hook : Type :=
| forward_pass_begin | forward_pass_end
| backward_pass_begin | backward_pass_end
| X_to_device_begin | X_to_device_end
| y_to_device_begin | y_to_device_end.

#[global] Instance hook_eq_dec : EqDecision hook.
Proof. solve_decision. Defined.

Definition notify (h : hook) : M (state t) pyval :=
  match h with
  | forward_pass_begin => on_forward_pass_begin
  | forward_pass_end => on_forward_pass_end
  | backward_pass_begin => on_backward_pass_begin
  | backward_pass_end => on_backward_pass_end
  | X_to_device_begin => on_X_to_device_begin
  | X_to_device_end => on_X_to_device_end
  | y_to_device_begin => on_y_to_device_begin
  | y_to_device_end => on_y_to_device_end
  end.

(** What the attribute a pair of hooks [b], [e] writes holds after the
    hooks [hooks], the first of them reading tick [n] of the clock [c];
    [None] when an end hook finds the attribute unset. *)
Fixpoint field_after (b e : hook) (c : nat → float) (hooks : list hook)
    (n : nat) (v : option float) : option (option float) :=
  match hooks with
  | [] => Some v
  | h :: hooks =>
      if decide (h = b) then field_after b e c hooks (S n) (Some (c n))
      else if decide (h = e) then
        match v with
        | Some start => field_after b e c hooks (S n) (Some (float_sub (c n) start))
        | None => None
        end
      else field_after b e c hooks (S n) v
  end.

(** One batch as the callback sees it: the hooks in the order the net
    notifies them, then [on_batch_end]. *)
Definition run_batch (hooks : list hook) : M (state t) pyval :=
  for_each hooks (λ _ h, notify h) PNone;;
  on_batch_end.

End PerformanceLogger.

(** ** [torch.profiler.record_function] *)

Module torch.

(** What happens to the [record_function] objects, in order: [Enter id
    name] for [record_function(name).__enter__()], which makes the object
    [id] and opens its range, and [Exit id] for
    [__exit__(None, None, None)] on that object. The objects are
    numbered as they are made. *)
Inductive range_event : Type :=
| Enter (id : nat) (name : string)
| Exit (id : nat).

Definition is_enter (e : range_event) : bool :=
  match e with
  | Enter _ _ => true
  | Exit _ => false
  end.

(** [record_function(name).__enter__()]; [__enter__] returns the
    object. *)
Definition record_function_enter {S} (name : string)
    : M (S * list range_event) nat := λ '(st, log),
  let id := length (List.filter is_enter log) in
  (Ok id, (st, log ++ [Enter id name])).

(** [f.__exit__(None, None, None)] *)
Definition __exit__ {S} (f : nat) : M (S * list range_event) () :=
  λ '(st, log), (Ok (), (st, log ++ [Exit f])).

End torch.

(** ** [PytorchProfilerLogger] *)

Module PytorchProfilerLogger.

(** A [torch.profiler.profile] object as the trace handler uses it: what
    [export_chrome_trace(path)] writes to [path], or the exception it
    raises, and what [events()] returns. *)
Record profile : Type :=
  { export_chrome_trace : result string;
    events : list string }.

Definition trace : Type := string * string * list string.

(** The attributes [_trace_handler] reads; [None] while unset. *)
Record t : Type :=
  { epoch_ : option Z;
    profiler_traces_ : option (list trace) }.

Definition set_profiler_traces_ (l : list trace) (self : t) : t :=
  {| epoch_ := epoch_ self; profiler_traces_ := Some l |}.

Definition getattr {A} (name : string) (field : t → option A)
    : M (state t) A :=
  v ← gets (λ st, field (self st));
  match v with
  | Some a => mret a
  | None => raise (AttributeError name)
  end.

(** [p.export_chrome_trace(path)] *)
Definition p_export_chrome_trace (p : profile) (path : string)
    : M (state t) () :=
  data ← lift (export_chrome_trace p);
  modify_world (λ w, with_files (<[path := data]> (files w)) w).

Definition dir_name : string := "pytorch_profiler_trace".

Definition trace_filename (rank epoch : Z) : string :=
  "worker_" +:+ pretty rank +:+ "_" +:+ pretty epoch +:+ ".pt.trace.json".

(** [_trace_handler(self, p)], lines 99-116. *)
Definition _trace_handler (p : profile) : M (state t) pyval :=
  isdir ← os.path_isdir dir_name;
  (if negb isdir
   then try_except (os.makedirs dir_name) "Exception"
          (λ _, raise (RuntimeError ("Can't create directory: " +:+ dir_name)))
   else mret ());;
  rank ← train.world_rank;
  epoch ← getattr "epoch_" epoch_;
  let filename := trace_filename rank epoch in
  let path := os.path_join dir_name filename in
  try_except
    (p_export_chrome_trace p path;;
     data ← os.read_file path;
     traces ← getattr "profiler_traces_" profiler_traces_;
     modify_self (set_profiler_traces_ (traces ++ [(filename, data, events p)]));;
     mret PNone)
    "RuntimeError"
    (λ _, mret PNone).

(** The callback with the ranges it keeps: the attributes above, and
    [record_functions_], the dictionary [on_train_begin] sets to [{}],
    [None] while it is unset. *)
Record logger : Type :=
  { handler_attrs : t;
    record_functions_ : option (gmap string nat) }.

Definition set_record_functions_ (d : gmap string nat) (self : logger)
    : logger :=
  {| handler_attrs := handler_attrs self; record_functions_ := Some d |}.

Definition set_handler_attrs (a : t) (self : logger) : logger :=
  {| handler_attrs := a; record_functions_ := record_functions_ self |}.

(** Reading [self.record_functions_]. *)
Definition get_record_functions_
    : M (state logger * list torch.range_event) (gmap string nat) :=
  self ← on_fst (gets self);
  match record_functions_ self with
  | Some d => mret d
  | None => raise (AttributeError "record_functions_")
  end.

(** The hooks of lines 139-182. In a begin hook the right-hand side of
    the assignment, which enters the range, is evaluated before
    [self.record_functions_] is read. *)
Definition on_forward_pass_begin
    : M (state logger * list torch.range_event) pyval :=
  let record_name := "forward_pass" in
  f ← torch.record_function_enter record_name;
  d ← get_record_functions_;
  on_fst (modify_self (set_record_functions_ (<[record_name := f]> d)));;
  mret PNone.

Definition on_forward_pass_end
    : M (state logger * list torch.range_event) pyval :=
  let record_name := "forward_pass" in
  d ← get_record_functions_;
  match d !! record_name with
  | None => raise (KeyError record_name)
  | Some f => torch.__exit__ f;; mret PNone
  end.

Definition on_backward_pass_begin
    : M (state logger * list torch.range_event) pyval :=
  let record_name := "backward_pass" in
  f ← torch.record_function_enter record_name;
  d ← get_record_functions_;
  on_fst (modify_self (set_record_functions_ (<[record_name := f]> d)));;
  mret PNone.

Definition on_backward_pass_end
    : M (state logger * list torch.range_event) pyval :=
  let record_name := "backward_pass" in
  d ← get_record_functions_;
  match d !! record_name with
  | None => raise (KeyError record_name)
  | Some f => torch.__exit__ f;; mret PNone
  end.

Definition on_X_to_device_begin
    : M (state logger * list torch.range_event) pyval :=
  let record_name := "X_to_device" in
  f ← torch.record_function_enter record_name;
  d ← get_record_functions_;
  on_fst (modify_self (set_record_functions_ (<[record_name := f]> d)));;
  mret PNone.

Definition on_X_to_device_end
    : M (state logger * list torch.range_event) pyval :=
  let record_name := "X_to_device" in
  d ← get_record_functions_;
  match d !! record_name with
  | None => raise (KeyError record_name)
  | Some f => torch.__exit__ f;; mret PNone
  end.

Definition on_y_to_device_begin
    : M (state logger * list torch.range_event) pyval :=
  let record_name := "y_to_device" in
  f ← torch.record_function_enter record_name;
  d ← get_record_functions_;
  on_fst (modify_self (set_record_functions_ (<[record_name := f]> d)));;
  mret PNone.

Definition on_y_to_device_end
    : M (state logger * list torch.range_event) pyval :=
  let record_name := "y_to_device" in
  d ← get_record_functions_;
  match d !! record_name with
  | None => raise (KeyError record_name)
  | Some f => torch.__exit__ f;; mret PNone
  end.

Definition on_batch_begin
    : M (state logger * list torch.range_event) pyval :=
  let record_name := "batch" in
  f ← torch.record_function_enter record_name;
  d ← get_record_functions_;
  on_fst (modify_self (set_record_functions_ (<[record_name := f]> d)));;
  mret PNone.

Definition on_batch_end
    : M (state logger * list torch.range_event) pyval :=
  let record_name := "batch" in
  d ← get_record_functions_;
  match d !! record_name with
  | None => raise (KeyError record_name)
  | Some f => torch.__exit__ f;; mret PNone
  end.

(** [on_epoch_begin], lines 184-192. *)
Definition on_epoch_begin
    : M (state logger * list torch.range_event) pyval :=
  on_fst (modify_self (λ self,
    set_handler_attrs (set_profiler_traces_ [] (handler_attrs self)) self));;
  let record_name := "epoch" in
  f ← torch.record_function_enter record_name;
  d ← get_record_functions_;
  on_fst (modify_self (set_record_functions_ (<[record_name := f]> d)));;
  mret PNone.

(** The five ranges that a pair of hooks opens and closes, and
    [net.notify] as it reaches the callback: [(true, r)] is the begin
    hook of [r], [(false, r)] its end hook. *)
Inductive range : Type :=
| forward_pass | backward_pass | X_to_device | y_to_device | batch.

#[global] Instance range_eq_dec : EqDecision range.
Proof. solve_decision. Defined.

Definition record_name (r : range) : string :=
  match r with
  | forward_pass => "forward_pass"
  | backward_pass => "backward_pass"
  | X_to_device => "X_to_device"
  | y_to_device => "y_to_device"
  | batch => "batch"
  end.

Definition notify (h : bool * range)
    : M (state logger * list torch.range_event) pyval :=
  match h with
  | (true, forward_pass) => on_forward_pass_begin
  | (false, forward_pass) => on_forward_pass_end
  | (true, backward_pass) => on_backward_pass_begin
  | (false, backward_pass) => on_backward_pass_end
  | (true, X_to_device) => on_X_to_device_begin
  | (false, X_to_device) => on_X_to_device_end
  | (true, y_to_device) => on_y_to_device_begin
  | (false, y_to_device) => on_y_to_device_end
  | (true, batch) => on_batch_begin
  | (false, batch) => on_batch_end
  end.

End PytorchProfilerLogger.

(** ** [TrainCheckpoint] *)

Module TrainCheckpoint.

(** The constructor arguments, lines 213-236. [monitor] and [event_name]
    are used by the inherited [on_epoch_end] only and are left out, as are
    the custom targets passed as further keyword arguments; [sink] is the
    sink of the state. A target is [None], [True] or [False]. *)
Record t : Type :=
  { f_params : flag;
    f_optimizer : flag;
    f_criterion : flag;
    f_history : flag;
    f_pickle : flag;
    save_checkpoints : bool;
    load_checkpoint : bool }.

Definition __init__ : t :=
  {| f_params := Some true; f_optimizer := Some true;
     f_criterion := Some true; f_history := Some true;
     f_pickle := Some false;
     save_checkpoints := true; load_checkpoint := true |}.

(** [default_monitor(net)], lines 208-209. *)
Definition default_monitor (n : NeuralNet) : bool := true.

(** [initialize], [on_train_end] and [_validate_filenames], lines 238-239,
    267-268 and 333-334: they do nothing. [on_epoch_end], lines 270-273,
    returns at once unless [save_checkpoints], and is otherwise skorch's,
    which calls [save_model] when the monitor says so. *)
Definition initialize : M (state t) t := gets self.
Definition on_train_end : M (state t) pyval := mret PNone.
Definition _validate_filenames : M (state t) pyval := mret PNone.

(** [Checkpoint._f_kwargs()] of skorch: the attributes named 'f_...' in
    the order of [dir(self)], 'f_history_' left out. *)
Definition _f_kwargs (self : t) : dict flag :=
  [("f_criterion", f_criterion self);
   ("f_history", f_history self);
   ("f_optimizer", f_optimizer self);
   ("f_params", f_params self);
   ("f_pickle", f_pickle self)].

(** [_get_io(self, f_key, value=None)], lines 345-348. *)
Definition _get_io (f_key : string) (value : option string)
    : M (state t) nat :=
  if String.eqb f_key "f_history"
  then io.new StringIO (default "" value)
  else io.new BytesIO (default "" value).

(** The property [f_history_], lines 336-343. *)
Definition f_history_ : M (state t) (option nat) :=
  self ← gets self;
  match f_history self with
  | None => mret None
  | Some _ => f ← _get_io "f_history" None; mret (Some f)
  end.

(** [net.save_params] called with the one keyword [f_name] and the target
    [f]: the net writes into the target, or raises. A target that is
    [None] is skipped by skorch. *)
Definition net_save_params (f_name : string) (f : option nat)
    : M (state t) () :=
  match f with
  | None => mret ()
  | Some addr =>
      n ← gets net;
      content ← lift (save_params n f_name);
      modify_world (λ w, with_heap (alter (io.write_at_start content) addr (heap w)) w)
  end.

(** [_save_params(self, f, net, f_name, log_name)], lines 323-331. The
    [except] branch ends without a [return]: the call returns [None]. *)
Definition _save_params (f : option nat) (f_name log_name : string)
    : M (state t) (option nat) :=
  try_except
    (net_save_params f_name f;;
     mret f)
    "Exception"
    (λ e,
       v ← gets (λ st, verbose (net st));
       skorch._sink (UnableToSave log_name f e) v;;
       mret None).

(** [key[:-1]] *)
Definition drop_last_char (key : string) : string :=
  String.substring 0 (String.length key - 1) key.

(** [net.history[-1]["epoch"]] *)
Definition last_epoch : M (state t) pyval :=
  h ← gets (λ st, history (net st));
  match last h with
  | None => raise (IndexError "list index out of range")
  | Some r =>
      match row r !! "epoch" with
      | None => raise (KeyError "epoch")
      | Some epoch => mret epoch
      end
  end.

(** [{k: v.getvalue() for k, v in params.items() if v}] *)
Definition getvalues (w : env) (params : dict (option nat))
    : gmap string string :=
  fold_left
    (λ (data : gmap string string) '(k, v),
       match v with
       | Some f => <[k := io.value_of w f]> data
       | None => data
       end)
    params ∅.

(** The body of the loop over [kwargs_module.items()], lines 293-300. *)
Definition save_module (params : dict (option nat)) (item : string * flag)
    : M (state t) (dict (option nat)) :=
  let '(key, val) := item in
  match val with
  | None => mret params
  | Some _ =>
      f ← _get_io ("f_" +:+ key) None;
      let key := drop_last_char key in
      r ← _save_params (Some f) ("f_" +:+ key) (key +:+ " state");
      mret (dict_set ("f_" +:+ key) r params)
  end.

(** [save_model(self, net)], lines 275-321. *)
Definition save_model : M (state t) pyval :=
  self ← gets self;
  '(kwargs_module, kwargs_other) ←
    lift (skorch._check_f_arguments "TrainCheckpoint" (_f_kwargs self));
  params ← for_each kwargs_module save_module [];
  params ←
    (if truthy (flag_get "f_history" kwargs_other)
     then
       f ← f_history_;
       r ← _save_params f "f_history" "history";
       mret (dict_set "f_history" r params)
     else mret params);
  params ←
    (if truthy (flag_get "f_pickle" kwargs_other)
     then
       f_pickle ← _get_io "f_pickle" None;
       f ← builtins.open_wb (builtins.IoObject f_pickle);
       builtins.pickle_dump f;;
       mret (dict_set "f_pickle" (Some f_pickle) params)
     else mret params);
  epoch ← last_epoch;
  let keys_to_load :=
    List.filter (λ key, negb (String.eqb key "f_pickle")) (dict_keys params) in
  w ← gets world;
  train.save_checkpoint
    {| ck_epoch := Some epoch;
       ck_keys := Some keys_to_load;
       ck_data := getvalues w params |};;
  mret PNone.

(** [list(checkpoint.keys())] and [bool(checkpoint)] *)
Definition checkpoint_keys (c : checkpoint) : list string :=
  (if ck_epoch c is Some _ then ["epoch"] else [])
  ++ (if ck_keys c is Some _ then ["_keys"] else [])
  ++ (map_to_list (ck_data c)).*1.

Definition checkpoint_nonempty (c : checkpoint) : bool :=
  match checkpoint_keys c with
  | [] => false
  | _ :: _ => true
  end.

(** The [repr] of a list of plain keys. *)
Definition repr_keys (keys : list string) : string :=
  "[" +:+ String.concat ", " (map (λ k, "'" +:+ k +:+ "'") keys) +:+ "]".

Definition invalid_checkpoint (keys : list string) : pyexc :=
  ValueError
    ("Invalid checkpoint. Ensure the checkpoint was created with "
     +:+ "train-sklearn. Expected 'epoch' and '_keys' keys, got "
     +:+ repr_keys keys +:+ ".").

(** [checkpoint.pop("epoch")] and [checkpoint.pop("_keys")] leave the
    dictionary without the entry. *)
Definition without_epoch (c : checkpoint) : checkpoint :=
  {| ck_epoch := None; ck_keys := ck_keys c; ck_data := ck_data c |}.

Definition without_keys (c : checkpoint) : checkpoint :=
  {| ck_epoch := ck_epoch c; ck_keys := None; ck_data := ck_data c |}.

(** One item of the comprehension at lines 257-260: an entry whose key is
    in [keys] is wrapped in an io object. *)
Definition wrap_item (keys : list string) (params : dict nat)
    (item : string * string) : M (state t) (dict nat) :=
  let '(k, v) := item in
  if bool_decide (k ∈ keys)
  then f ← _get_io k (Some v); mret (dict_set k f params)
  else mret params.

(** [on_train_begin(self, net, X=None, y=None, **kwargs)], lines 241-265.
    The [try] block pops 'epoch', then '_keys', from the dictionary of
    the session; the [KeyError] of either becomes the [ValueError], whose
    message lists the keys still there. *)
Definition on_train_begin : M (state t) pyval :=
  self ← gets self;
  if negb (load_checkpoint self) then mret PNone else
  checkpoint ← train.load_checkpoint;
  match checkpoint with
  | None => mret PNone
  | Some checkpoint =>
      if negb (checkpoint_nonempty checkpoint) then mret PNone else
      v ← gets (λ st, verbose (net st));
      skorch._sink CheckpointFound v;;
      match ck_epoch checkpoint with
      | None => raise (invalid_checkpoint (checkpoint_keys checkpoint))
      | Some epoch =>
          let checkpoint := without_epoch checkpoint in
          train.popped checkpoint;;
          match ck_keys checkpoint with
          | None => raise (invalid_checkpoint (checkpoint_keys checkpoint))
          | Some keys =>
              let checkpoint := without_keys checkpoint in
              train.popped checkpoint;;
              checkpoint_params ←
                for_each (map_to_list (ck_data checkpoint)) (wrap_item keys) [];
              modify_net (λ n,
                with_load_params_calls
                  (load_params_calls n ++ [list_to_map checkpoint_params]) n);;
              v ← gets (λ st, verbose (net st));
              skorch._sink
                (LoadedCheckpoint (dict_keys checkpoint_params) epoch) v;;
              mret PNone
          end
      end
  end.

End TrainCheckpoint.

(** ** [examples/benchmark/train_linear.py]: [AggregateLogCallback] *)

Module train_linear.

(** The functions of numpy the module calls, each on a Python list; a
    call returns a value or raises. *)
Class Numpy : Type :=
  { np_mean : list pyval → result pyval;
    np_median : list pyval → result pyval;
    np_std : list pyval → result pyval;
    np_max : list pyval → result pyval;
    np_argmax : list pyval → result pyval;
    np_min : list pyval → result pyval;
    np_argmin : list pyval → result pyval }.

(** An entry of the 'aggregated' dictionary: a value copied from worker
    0, or the dictionary of statistics of a key. *)
Inductive agg_entry : Type :=
| Copied (value : pyval)
| Aggregate (aggregate : gmap string pyval).

(** [final_results], lines 65-67. *)
Record final_results : Type :=
  { raw : gmap nat (gmap string pyval);
    aggregated : gmap string agg_entry }.

(** The file at [self._log_path] as lines 69-73 find it: missing, so
    that [open(self._log_path, "r+")] raises; not JSON, so that
    [json.load] raises; JSON that is not a list, so that
    [loaded_results + [final_results]] raises; or holding a list of
    records. A list of records stands for the file that holds it. *)
Inductive log_file : Type :=
| Missing
| NotJSON
| NotAList
| Holds (loaded_results : list final_results).

#[warning="-uniform-inheritance"]
Coercion Holds : list >-> log_file.

Definition DEFAULT_KEYS_TO_IGNORE : gset string :=
  {[ "epoch"; "_timestamp"; "_training_iteration"; "train_batch_size";
     "valid_batch_size"; "lr" ]}.

Section WithNumpy.
Context {numpy : Numpy}.

Definition max_and_argmax (val : list pyval) : result pyval :=
  a ← np_max val; b ← np_argmax val; mret (PTuple [a; b]).

Definition min_and_argmin (val : list pyval) : result pyval :=
  a ← np_min val; b ← np_argmin val; mret (PTuple [a; b]).

Definition DEFAULT_AGGREGATE_FUNC : dict (list pyval → result pyval) :=
  [("mean", np_mean);
   ("median", np_median);
   ("std", np_std);
   ("max", max_and_argmax);
   ("min", min_and_argmin)].

(** [[result[key] for result in results if key in result]], lines 55-57. *)
Definition aggregate_key (key : string) (results : list (gmap string pyval))
    : list pyval :=
  omap (λ result : gmap string pyval, result !! key) results.

(** The inner loop, lines 59-61. *)
Definition aggregate_of (aggregate_key : list pyval)
    : result (gmap string pyval) :=
  fold_left
    (λ (acc : result (gmap string pyval)) '(func_key, func),
       aggregate ← acc;
       v ← func aggregate_key;
       mret (<[func_key := v]> aggregate))
    DEFAULT_AGGREGATE_FUNC (Ok ∅).

(** One turn of the outer loop, lines 51-62. *)
Definition aggregate_step (results : list (gmap string pyval))
    (key : string) (value : pyval)
    (acc : result (gmap string agg_entry)) : result (gmap string agg_entry) :=
  aggregate_results ← acc;
  if bool_decide (key ∈ DEFAULT_KEYS_TO_IGNORE)
  then mret (<[key := Copied value]> aggregate_results)
  else if is_number value
  then
    aggregate ← aggregate_of (aggregate_key key results);
    mret (<[key := Aggregate aggregate]> aggregate_results)
  else mret aggregate_results.

(** [with open(self._log_path, "r+") as f: loaded_results = json.load(f)],
    lines 69-70. *)
Definition load_log (log : log_file) : result (list final_results) :=
  match log with
  | Missing =>
      Raise (Exc "FileNotFoundError" ["OSError"] "No such file or directory")
  | NotJSON => Raise (Exc "JSONDecodeError" ["ValueError"] "Expecting value")
  | NotAList => Raise (TypeError "unsupported operand type(s) for +")
  | Holds loaded_results => Ok loaded_results
  end.

(** [AggregateLogCallback.handle_result(self, results, **info)], lines
    47-73. [log] is the JSON file at [self._log_path]; the result is the
    list the [json.dump] of the last line writes from the start of the
    file, the only write of the call. The dump uses Ray's
    [SafeFallbackEncoder], which also encodes numpy's scalars and turns
    what it cannot encode into a string, so it is taken to return. The
    outer loop visits the items of [results_dict[0]] in the order of the
    map. *)
Definition handle_result (results : list (gmap string pyval))
    (log : log_file) : result (list final_results) :=
  let results_dict : gmap nat (gmap string pyval) := map_seq 0 results in
  first ←
    match results_dict !! 0%nat with
    | Some first => Ok first
    | None => Raise (KeyError "0")
    end;
  aggregate_results ← map_fold (aggregate_step results) (Ok ∅) first;
  let final_results :=
    {| raw := results_dict; aggregated := aggregate_results |} in
  loaded_results ← load_log log;
  mret (loaded_results ++ [final_results]).

End WithNumpy.

End train_linear.

(** * Vocabulary of the properties, and sample inputs *)

Section Vocabulary_train_linear.
Import train_linear.
Context {numpy : Numpy}.

(** The entry a key of worker 0 gets in the 'aggregated' dictionary, if
    any. *)
Definition entry_of (results : list (gmap string pyval)) (key : string)
    (value : pyval) : result (option agg_entry) :=
  if bool_decide (key ∈ DEFAULT_KEYS_TO_IGNORE) then Ok (Some (Copied value))
  else if is_number value then
    match aggregate_of (aggregate_key key results) with
    | Ok aggregate => Ok (Some (Aggregate aggregate))
    | Raise e => Raise e
    end
  else Ok None.

(** The outer loop: its result holds, for each key of worker 0, the entry
    of that key; it raises only if the entry of some key does. *)
Definition loop_invariant (results : list (gmap string pyval))
    (r : result (gmap string agg_entry)) (m : gmap string pyval) : Prop :=
  match r with
  | Ok aggregate_results =>
      ∀ key,
        match m !! key with
        | Some value =>
            entry_of results key value = Ok (aggregate_results !! key)
        | None => aggregate_results !! key = None
        end
  | Raise _ =>
      ∃ key value,
        m !! key = Some value ∧ is_ok (entry_of results key value) = false
  end.

End Vocabulary_train_linear.

Section Vocabulary_TrainCheckpoint.
Import TrainCheckpoint.

(** A state with the io objects and the sink calls replaced. *)
Definition with_buffers (h : list io_object) (s : list (sink_text * bool))
    (st : state t) : state t :=
  {| self := self st; net := net st;
     world := with_heap h (with_sink_calls s (world st)) |}.

(** What saving one target does to the io objects, the sink calls and
    [params]: a new object of class [kind] holds what the net wrote, or
    stays empty while the failure goes to the sink and [params] gets
    [None]. *)
Definition save_target (n : NeuralNet)
    (acc : list io_object * list (sink_text * bool) * dict (option nat))
    (target : io_kind * string * string)
    : list io_object * list (sink_text * bool) * dict (option nat) :=
  let '(h, s, params) := acc in
  let '(kind, f_name, log_name) := target in
  match save_params n f_name with
  | Ok content =>
      (h ++ [{| io_class := kind; getvalue := content |}], s,
       dict_set f_name (Some (length h)) params)
  | Raise e =>
      (h ++ [{| io_class := kind; getvalue := "" |}],
       s ++ [(UnableToSave log_name (Some (length h)) e, verbose n)],
       dict_set f_name None params)
  end.

(** The target of an item of [kwargs_module], as the loop names it. *)
Definition module_target (item : string * flag)
    : option (io_kind * string * string) :=
  match item.2 with
  | None => None
  | Some _ =>
      Some (BytesIO, "f_" +:+ drop_last_char item.1,
            drop_last_char item.1 +:+ " state")
  end.

(** What [_check_f_arguments] makes of the five targets of a callback. *)
Definition kwargs_module_of (self : t) : dict flag :=
  (if f_criterion self is Some b then [("criterion_", Some b)] else [])
  ++ (if f_optimizer self is Some b then [("optimizer_", Some b)] else [])
  ++ (if f_params self is Some b then [("module_", Some b)] else []).

Definition kwargs_other_of (self : t) : dict flag :=
  (if f_history self is Some b then [("f_history", Some b)] else [])
  ++ (if f_pickle self is Some b then [("f_pickle", Some b)] else []).

(** The targets [save_model] saves through [_save_params], in its order:
    the class of the io object, the keyword of [net.save_params] (the key
    in [params]), and the name in the log. *)
Definition targets (self : t) : list (io_kind * string * string) :=
  (if f_criterion self is Some _
   then [(BytesIO, "f_criterion", "criterion state")] else [])
  ++ (if f_optimizer self is Some _
      then [(BytesIO, "f_optimizer", "optimizer state")] else [])
  ++ (if f_params self is Some _
      then [(BytesIO, "f_module", "module state")] else [])
  ++ (if truthy (f_history self)
      then [(StringIO, "f_history", "history")] else []).

(** The checkpoint [save_model] hands to [train.save_checkpoint]. *)
Definition checkpoint_of (w : env) (epoch : pyval)
    (params : dict (option nat)) : checkpoint :=
  {| ck_epoch := Some epoch;
     ck_keys :=
       Some (List.filter (λ key, negb (String.eqb key "f_pickle"))
               (dict_keys params));
     ck_data := getvalues w params |}.

(** The keys of [params] a list of targets accounts for. *)
Definition names (ts : list (io_kind * string * string)) : list string :=
  map (λ target, target.1.2) ts.

(** The io object an entry of the checkpoint is wrapped in. *)
Definition wrapped (k v : string) : io_object :=
  {| io_class := if String.eqb k "f_history" then StringIO else BytesIO;
     getvalue := v |}.

End Vocabulary_TrainCheckpoint.

(** A batch in which the copy of X happens inside the forward pass. *)
Definition sample_hooks : list PerformanceLogger.hook :=
  [PerformanceLogger.forward_pass_begin; PerformanceLogger.X_to_device_begin;
   PerformanceLogger.X_to_device_end; PerformanceLogger.forward_pass_end;
   PerformanceLogger.y_to_device_begin; PerformanceLogger.y_to_device_end;
   PerformanceLogger.backward_pass_begin; PerformanceLogger.backward_pass_end].

(** A batch without a backward pass, as a validation batch is. *)
Definition validation_hooks : list PerformanceLogger.hook :=
  [PerformanceLogger.X_to_device_begin; PerformanceLogger.X_to_device_end;
   PerformanceLogger.y_to_device_begin; PerformanceLogger.y_to_device_end;
   PerformanceLogger.forward_pass_begin; PerformanceLogger.forward_pass_end].

Definition sample_env : env :=
  {| heap := []; sink_calls := []; loaded_checkpoint := None;
     saved_checkpoints := []; world_rank := 0; dirs := ∅; files := ∅;
     makedirs_fails := false;
     clock := λ n, S754_finite false (Pos.of_succ_nat n) 0; ticks := 0 |}.

Definition sample_net : NeuralNet :=
  {| history := [{| row := {["epoch" := PInt 1]}; batches := [∅] |}];
     verbose := false;
     save_params := λ f_name, Ok ("<" +:+ f_name +:+ ">");
     load_params_calls := []; pickled := "<net>" |}.

(** The world once the handler has made sure its directory exists. *)
Definition with_trace_dir (w : env) : env :=
  if bool_decide (PytorchProfilerLogger.dir_name ∈ dirs w) then w
  else with_dirs ({[PytorchProfilerLogger.dir_name]} ∪ dirs w) w.

Definition trace_path (w : env) (epoch : Z) : string :=
  "pytorch_profiler_trace/"
  +:+ PytorchProfilerLogger.trace_filename (world_rank w) epoch.

(** A handler run in a directory that is missing and cannot be made: the
    export succeeds when asked, and both attributes are set. *)
Definition unwritable_state : state PytorchProfilerLogger.t :=
  {| self :=
       {| PytorchProfilerLogger.epoch_ := Some 2%Z;
          PytorchProfilerLogger.profiler_traces_ := Some [] |};
     net := sample_net;
     world :=
       {| heap := []; sink_calls := []; loaded_checkpoint := None;
          saved_checkpoints := []; world_rank := 0; dirs := ∅; files := ∅;
          makedirs_fails := true;
          clock := λ n, S754_zero false; ticks := 0 |} |}.

Definition sample_profile : PytorchProfilerLogger.profile :=
  {| PytorchProfilerLogger.export_chrome_trace := Ok "{}";
     PytorchProfilerLogger.events := ["aten::addmm"] |}.

(** numpy kept symbolic: each function returns the call it stands for. *)
Definition numpy_calls : train_linear.Numpy :=
  {| train_linear.np_mean := λ l, Ok (PTuple [PStr "np.mean"; PList l]);
     train_linear.np_median := λ l, Ok (PTuple [PStr "np.median"; PList l]);
     train_linear.np_std := λ l, Ok (PTuple [PStr "np.std"; PList l]);
     train_linear.np_max := λ l, Ok (PTuple [PStr "np.max"; PList l]);
     train_linear.np_argmax := λ l, Ok (PTuple [PStr "np.argmax"; PList l]);
     train_linear.np_min := λ l, Ok (PTuple [PStr "np.min"; PList l]);
     train_linear.np_argmin := λ l, Ok (PTuple [PStr "np.argmin"; PList l]) |}.

(** Two workers: a loss on both, an ignored key and a string on worker 0,
    and a key worker 1 has alone. *)
Definition sample_worker0 : gmap string pyval :=
  {[ "loss" := PFloat (S754_finite false 3 (-2));
     "epoch" := PInt 1;
     "note" := PStr "warmup" ]}.

Definition sample_worker1 : gmap string pyval :=
  {[ "loss" := PFloat (S754_finite false 5 (-3));
     "extra" := PInt 7 ]}.

(** A net whose optimizer state cannot be saved. *)
Definition failing_net : NeuralNet :=
  {| history := [{| row := {["epoch" := PInt 3]}; batches := [] |}];
     verbose := false;
     save_params := λ f_name,
       if String.eqb f_name "f_optimizer"
       then Raise (RuntimeError "disk full")
       else Ok ("<" +:+ f_name +:+ ">");
     load_params_calls := []; pickled := "<net>" |}.

Definition failing_state : state TrainCheckpoint.t :=
  {| self := TrainCheckpoint.__init__; net := failing_net;
     world := sample_env |}.

(** The default callback, with 'f_pickle' switched on. *)
Definition pickle_state : state TrainCheckpoint.t :=
  {| self :=
       {| TrainCheckpoint.f_params := Some true;
          TrainCheckpoint.f_optimizer := Some true;
          TrainCheckpoint.f_criterion := Some true;
          TrainCheckpoint.f_history := Some true;
          TrainCheckpoint.f_pickle := Some true;
          TrainCheckpoint.save_checkpoints := true;
          TrainCheckpoint.load_checkpoint := true |};
     net := sample_net; world := sample_env |}.

(** A worker that finds a checkpoint with one entry beyond its '_keys'. *)
Definition sample_checkpoint : checkpoint :=
  {| ck_epoch := Some (PInt 3);
     ck_keys := Some ["f_module"; "f_history"];
     ck_data := {[ "f_module" := "<weights>"; "f_history" := "[]";
                   "f_other" := "x" ]} |}.

Definition loading_state : state TrainCheckpoint.t :=
  {| self := TrainCheckpoint.__init__; net := sample_net;
     world :=
       {| heap := []; sink_calls := [];
          loaded_checkpoint := Some sample_checkpoint;
          saved_checkpoints := []; world_rank := 0; dirs := ∅; files := ∅;
          makedirs_fails := false;
          clock := λ n, S754_zero false; ticks := 0 |} |}.

(** A report callback told to ignore 'lr', before [initialize], in a
    session of Ray Train. *)
Definition sample_report_state : state TrainReportCallback.object :=
  {| self := TrainReportCallback.__init__ (TrainReportCallback.KeysStr "lr");
     net := sample_net; world := sample_env |}.

Definition sample_session : session.t :=
  {| session.active := true; session.reports := [] |}.

(** The same callback once [initialize] has run. *)
Definition reporting_state : state TrainReportCallback.object :=
  {| self :=
       {| TrainReportCallback.keys_ignored := TrainReportCallback.KeysStr "lr";
          TrainReportCallback.first_iteration_ := Some true;
          TrainReportCallback.initialized :=
            Some {| TrainReportCallback.keys_ignored_ := {[ "lr" ]} |} |};
     net := sample_net; world := sample_env |}.

(** The same callback on a net whose last epoch row also holds the
    batch count skorch keeps and a loss. *)
Definition counting_state : state TrainReportCallback.object :=
  {| self := self reporting_state;
     net :=
       with_history
         [{| row :=
               {["epoch" := PInt 1; "train_batch_count" := PInt 4;
                 "train_loss" := PInt 0]};
             batches := [∅] |}]
         sample_net;
     world := sample_env |}.

(** A string of decimal digits and minus signs, as an integer is
    printed. *)
Fixpoint numeral (s : string) : bool :=
  match s with
  | EmptyString => true
  | String a s =>
      bool_decide (a ∈ String.list_ascii_of_string "-0123456789") && numeral s
  end.

(** A callback whose module targets are [False], and whose history
    target is [False]. *)
Definition switched_off_state : state TrainCheckpoint.t :=
  {| self :=
       {| TrainCheckpoint.f_params := Some false;
          TrainCheckpoint.f_optimizer := Some false;
          TrainCheckpoint.f_criterion := None;
          TrainCheckpoint.f_history := Some false;
          TrainCheckpoint.f_pickle := Some false;
          TrainCheckpoint.save_checkpoints := true;
          TrainCheckpoint.load_checkpoint := true |};
     net := sample_net; world := sample_env |}.

(** A profiler logger after [on_train_begin]: no range stored yet. *)
Definition sample_logger : state PytorchProfilerLogger.logger :=
  {| self :=
       {| PytorchProfilerLogger.handler_attrs :=
            {| PytorchProfilerLogger.epoch_ := Some 0%Z;
               PytorchProfilerLogger.profiler_traces_ := None |};
          PytorchProfilerLogger.record_functions_ := Some ∅ |};
     net := sample_net; world := sample_env |}.

(** * Properties *)

Section Monad_facts.
Context {S : Type}.

Lemma bind_ok {A B} (m : M S A) (k : A → M S B) st a st' :
  m st = (Ok a, st') → (m ≫= k) st = k a st'.
Proof. intros H. unfold mbind, M_bind. by rewrite H. Qed.

End Monad_facts.

Lemma current_batch_record_batch attr value h b :
  skorch.current_batch h = Some b →
  skorch.record_batch attr value h = Ok (skorch.set_current_batch (<[attr := value]> b) h).
Proof.
  unfold skorch.current_batch, skorch.record_batch, skorch.set_current_batch.
  destruct (last h) as [e|]; simpl; [|done].
  intros ->. done.
Qed.

Lemma current_batch_set b b' h :
  skorch.current_batch h = Some b →
  skorch.current_batch (skorch.set_current_batch b' h) = Some b'.
Proof.
  unfold skorch.current_batch, skorch.set_current_batch.
  destruct (last h) as [e|] eqn:He; simpl; [|done].
  intros Hb.
  assert (length h ≠ 0) by (destruct h; [done | simpl; lia]).
  assert (length (batches e) ≠ 0) by (destruct (batches e); [done | simpl; lia]).
  rewrite !last_lookup, length_insert, list_lookup_insert_eq by lia. simpl.
  rewrite last_lookup, length_insert, list_lookup_insert_eq by lia. done.
Qed.

Lemma set_current_batch_twice b1 b2 h :
  skorch.set_current_batch b2 (skorch.set_current_batch b1 h)
  = skorch.set_current_batch b2 h.
Proof.
  unfold skorch.set_current_batch.
  destruct (last h) as [e|] eqn:He; simpl; [|by rewrite He].
  assert (length h ≠ 0) by (destruct h; [done | simpl; lia]).
  rewrite last_lookup, length_insert, list_lookup_insert_eq by lia. simpl.
  by rewrite length_insert, !list_insert_insert_eq.
Qed.

Section PerformanceLogger_facts.
Import PerformanceLogger.

Lemma notify_all hooks : ∀ (st : state t) (r : pyval) vF vB vX vy,
  field_after forward_pass_begin forward_pass_end (clock (world st)) hooks
    (ticks (world st)) (forward_pass_time_ (self st)) = Some vF →
  field_after backward_pass_begin backward_pass_end (clock (world st)) hooks
    (ticks (world st)) (backward_pass_time_ (self st)) = Some vB →
  field_after X_to_device_begin X_to_device_end (clock (world st)) hooks
    (ticks (world st)) (X_to_device_time_ (self st)) = Some vX →
  field_after y_to_device_begin y_to_device_end (clock (world st)) hooks
    (ticks (world st)) (y_to_device_time_ (self st)) = Some vy →
  ∃ r',
    for_each hooks (λ _ h, notify h) r st
    = (Ok r',
       {| self := {| forward_pass_time_ := vF; backward_pass_time_ := vB;
                     X_to_device_time_ := vX; y_to_device_time_ := vy |};
          net := net st;
          world := with_ticks (ticks (world st) + length hooks) (world st) |}).
Proof.
  induction hooks as [|h hooks IH]; intros [[sF sB sX sy] nt w] r vF vB vX vy;
    simpl.
  - intros [= <-] [= <-] [= <-] [= <-]. exists r.
    unfold mret, M_ret. do 2 f_equal. destruct w; unfold with_ticks; simpl.
    f_equal; lia.
  - destruct h; simpl; intros HF HB HX Hy.
    all: try (destruct sF as [sF|]; [|done]).
    all: try (destruct sB as [sB|]; [|done]).
    all: try (destruct sX as [sX|]; [|done]).
    all: try (destruct sy as [sy|]; [|done]).
    all: unfold mbind, M_bind at 1; simpl.
    all: match goal with
         | |- ∃ r', for_each _ _ _ ?st' = _ =>
             destruct (IH st' PNone vF vB vX vy) as [r' Hr']; try assumption;
             exists r'; rewrite Hr'; simpl; do 2 f_equal;
             destruct w; unfold with_ticks; simpl; f_equal; lia
         end.
Qed.

End PerformanceLogger_facts.

Section PerformanceLogger_pairs.
Import PerformanceLogger.

Lemma field_after_none b e c hooks : ∀ n v,
  b ∉ hooks → e ∉ hooks → field_after b e c hooks n v = Some v.
Proof.
  induction hooks as [|h hooks IH]; intros n v Hb He; simpl; [done|].
  apply not_elem_of_cons in Hb as [? ?], He as [? ?].
  rewrite !decide_False by done. by apply IH.
Qed.

Lemma field_after_end b e c hooks : ∀ n start j,
  b ∉ hooks → NoDup hooks → hooks !! j = Some e →
  field_after b e c hooks n (Some start)
  = Some (Some (float_sub (c (n + j)) start)).
Proof.
  induction hooks as [|h hooks IH]; intros n start j Hb Hnd Hj; [done|].
  apply not_elem_of_cons in Hb as [Hhb Hb].
  apply NoDup_cons in Hnd as [Hh Hnd]. simpl.
  rewrite decide_False by done.
  destruct j as [|j]; simpl in Hj.
  - injection Hj as ->. rewrite decide_True by done.
    rewrite field_after_none by done. by rewrite Nat.add_0_r.
  - rewrite decide_False.
    + rewrite (IH _ _ j) by done. by rewrite Nat.add_succ_r.
    + intros ->. apply Hh. by eapply list_elem_of_lookup_2.
Qed.

Lemma field_after_pair b e c hooks : ∀ n v i j,
  b ≠ e → NoDup hooks → hooks !! i = Some b → hooks !! j = Some e → i < j →
  field_after b e c hooks n v
  = Some (Some (float_sub (c (n + j)) (c (n + i)))).
Proof.
  induction hooks as [|h hooks IH]; intros n v i j Hbe Hnd Hi Hj Hij; [done|].
  apply NoDup_cons in Hnd as [Hh Hnd]. simpl.
  destruct j as [|j]; [lia|]. simpl in Hj.
  destruct i as [|i]; simpl in Hi.
  - injection Hi as ->. rewrite decide_True by done.
    rewrite (field_after_end _ _ _ _ _ _ j) by done.
    by rewrite Nat.add_0_r, Nat.add_succ_r.
  - rewrite !decide_False.
    + rewrite (IH _ _ i j) by (done || lia). by rewrite !Nat.add_succ_r.
    + intros ->. apply Hh. by eapply list_elem_of_lookup_2.
    + intros ->. apply Hh. by eapply list_elem_of_lookup_2.
Qed.

Lemma on_batch_end_records (st : state t) x y f b batch :
  X_to_device_time_ (self st) = Some x →
  y_to_device_time_ (self st) = Some y →
  forward_pass_time_ (self st) = Some f →
  backward_pass_time_ (self st) = Some b →
  skorch.current_batch (history (net st)) = Some batch →
  on_batch_end st
  = (Ok PNone,
     {| self := self st;
        net :=
          with_history
            (skorch.set_current_batch
               (<["backward_pass_dur_s" := PFloat b]>
                  (<["forward_pass_dur_s" := PFloat f]>
                     (<["to_device_dur_s" := PFloat (float_add x y)]> batch)))
               (history (net st)))
            (net st);
        world := world st |}).
Proof.
  intros Hx Hy Hf Hb Hbatch.
  unfold on_batch_end, getattr, skorch.net_record_batch, gets, lift,
    modify_net, mbind, M_bind, mret, M_ret. simpl.
  rewrite Hx, Hy. simpl.
  rewrite (current_batch_record_batch _ _ _ _ Hbatch). simpl.
  rewrite Hf.
  erewrite current_batch_record_batch by (by eapply current_batch_set).
  simpl. rewrite Hb.
  erewrite current_batch_record_batch
    by (rewrite set_current_batch_twice; by eapply current_batch_set).
  simpl. by rewrite !set_current_batch_twice.
Qed.

(** [on_batch_end] on a callback whose [backward_pass_time_] is unset:
    the [AttributeError] comes after two entries were written. *)
Lemma on_batch_end_without_backward (st : state t) x y f batch :
  X_to_device_time_ (self st) = Some x →
  y_to_device_time_ (self st) = Some y →
  forward_pass_time_ (self st) = Some f →
  backward_pass_time_ (self st) = None →
  skorch.current_batch (history (net st)) = Some batch →
  on_batch_end st
  = (Raise (AttributeError "backward_pass_time_"),
     {| self := self st;
        net :=
          with_history
            (skorch.set_current_batch
               (<["forward_pass_dur_s" := PFloat f]>
                  (<["to_device_dur_s" := PFloat (float_add x y)]> batch))
               (history (net st)))
            (net st);
        world := world st |}).
Proof.
  intros Hx Hy Hf Hb Hbatch.
  unfold on_batch_end, getattr, skorch.net_record_batch, gets, lift,
    modify_net, raise, mbind, M_bind, mret, M_ret. simpl.
  rewrite Hx, Hy. simpl.
  rewrite (current_batch_record_batch _ _ _ _ Hbatch). simpl.
  rewrite Hf.
  erewrite current_batch_record_batch by (by eapply current_batch_set).
  simpl. rewrite Hb. by rewrite !set_current_batch_twice.
Qed.

End PerformanceLogger_pairs.

(** ** [RayTrainCallback]: the added hooks do nothing *)

(** C5. On the base class each of the eight hooks [RayTrainCallback] adds
    (forward pass, backward pass, copy of X, copy of y; begin and end)
    returns [None] and leaves the callback object, the net and everything
    else as they were, whatever the class [C] of the callback. *)
Theorem base_hooks_do_nothing {C : Type} (st : state C) :
  RayTrainCallback.on_forward_pass_begin st = (Ok PNone, st)
  ∧ RayTrainCallback.on_forward_pass_end st = (Ok PNone, st)
  ∧ RayTrainCallback.on_backward_pass_begin st = (Ok PNone, st)
  ∧ RayTrainCallback.on_backward_pass_end st = (Ok PNone, st)
  ∧ RayTrainCallback.on_X_to_device_begin st = (Ok PNone, st)
  ∧ RayTrainCallback.on_X_to_device_end st = (Ok PNone, st)
  ∧ RayTrainCallback.on_y_to_device_begin st = (Ok PNone, st)
  ∧ RayTrainCallback.on_y_to_device_end st = (Ok PNone, st).
Proof. repeat split; reflexivity. Qed.

(** ** [PerformanceLogger]: the three durations of a batch *)

(** C6, as stated, fails: not every batch has a backward pass. On a
    callback that has seen none, a batch in which the two copies and the
    forward pass are measured makes [on_batch_end] raise
    [AttributeError] once 'to_device_dur_s' and 'forward_pass_dur_s' are
    in the batch row: two entries are recorded, not three, and
    'backward_pass_dur_s' is not among them. *)
Lemma performance_logger_batch_without_backward :
  PerformanceLogger.run_batch validation_hooks
    {| self := PerformanceLogger.__init__; net := sample_net;
       world := sample_env |}
  = (Raise (AttributeError "backward_pass_time_"),
     {| self :=
          {| PerformanceLogger.forward_pass_time_ :=
               Some (float_sub (clock sample_env 5) (clock sample_env 4));
             PerformanceLogger.backward_pass_time_ := None;
             PerformanceLogger.X_to_device_time_ :=
               Some (float_sub (clock sample_env 1) (clock sample_env 0));
             PerformanceLogger.y_to_device_time_ :=
               Some (float_sub (clock sample_env 3) (clock sample_env 2)) |};
        net :=
          with_history
            [{| row := {["epoch" := PInt 1]};
                batches :=
                  [{["to_device_dur_s" :=
                       PFloat
                         (float_add
                            (float_sub (clock sample_env 1)
                               (clock sample_env 0))
                            (float_sub (clock sample_env 3)
                               (clock sample_env 2)));
                     "forward_pass_dur_s" :=
                       PFloat
                         (float_sub (clock sample_env 5)
                            (clock sample_env 4))]}] |}]
            sample_net;
        world := with_ticks 6 sample_env |}).
Proof. vm_compute. reflexivity. Qed.

(** C6, amended. Let the net notify the hooks of a batch in any order in
    which no hook is notified twice and the hooks of the copy of X, of
    the copy of y and of the forward pass are each notified, begin
    before end, and then call [on_batch_end] with a batch row in the
    history. With [c k] the reading of [time.time()] made by the hook at
    position [k]:
    - if the two hooks of the backward pass are notified too, begin
      before end, the call returns [None] and the batch row gets exactly
      three entries: 'to_device_dur_s', the sum of the two copy
      durations, 'forward_pass_dur_s' and 'backward_pass_dur_s'; the
      callback holds the four durations, and nothing else changes but
      the clock;
    - if neither hook of the backward pass is notified, the three
      entries are recorded as well whenever [backward_pass_time_] is
      set, but 'backward_pass_dur_s' is then the value it held before
      the batch, not a duration of this batch; and when
      [backward_pass_time_] is unset the call raises [AttributeError]
      after 'to_device_dur_s' and 'forward_pass_dur_s', and only they,
      were recorded. *)
Theorem performance_logger_records_batch
    (hooks : list PerformanceLogger.hook) (st : state PerformanceLogger.t)
    (iX jX iy jy iF jF : nat) (batch : gmap string pyval) :
  NoDup hooks →
  hooks !! iX = Some PerformanceLogger.X_to_device_begin →
  hooks !! jX = Some PerformanceLogger.X_to_device_end → iX < jX →
  hooks !! iy = Some PerformanceLogger.y_to_device_begin →
  hooks !! jy = Some PerformanceLogger.y_to_device_end → iy < jy →
  hooks !! iF = Some PerformanceLogger.forward_pass_begin →
  hooks !! jF = Some PerformanceLogger.forward_pass_end → iF < jF →
  skorch.current_batch (history (net st)) = Some batch →
  let c := λ k, clock (world st) (ticks (world st) + k) in
  let X_dur := float_sub (c jX) (c iX) in
  let y_dur := float_sub (c jy) (c iy) in
  let forward_dur := float_sub (c jF) (c iF) in
  (∀ iB jB : nat,
     hooks !! iB = Some PerformanceLogger.backward_pass_begin →
     hooks !! jB = Some PerformanceLogger.backward_pass_end → iB < jB →
     let backward_dur := float_sub (c jB) (c iB) in
     PerformanceLogger.run_batch hooks st
     = (Ok PNone,
        {| self :=
             {| PerformanceLogger.forward_pass_time_ := Some forward_dur;
                PerformanceLogger.backward_pass_time_ := Some backward_dur;
                PerformanceLogger.X_to_device_time_ := Some X_dur;
                PerformanceLogger.y_to_device_time_ := Some y_dur |};
           net :=
             with_history
               (skorch.set_current_batch
                  (<["backward_pass_dur_s" := PFloat backward_dur]>
                     (<["forward_pass_dur_s" := PFloat forward_dur]>
                        (<["to_device_dur_s" :=
                             PFloat (float_add X_dur y_dur)]> batch)))
                  (history (net st)))
               (net st);
           world :=
             with_ticks (ticks (world st) + length hooks) (world st) |}))
  ∧ (PerformanceLogger.backward_pass_begin ∉ hooks →
     PerformanceLogger.backward_pass_end ∉ hooks →
     match PerformanceLogger.backward_pass_time_ (self st) with
     | Some stale =>
         PerformanceLogger.run_batch hooks st
         = (Ok PNone,
            {| self :=
                 {| PerformanceLogger.forward_pass_time_ := Some forward_dur;
                    PerformanceLogger.backward_pass_time_ := Some stale;
                    PerformanceLogger.X_to_device_time_ := Some X_dur;
                    PerformanceLogger.y_to_device_time_ := Some y_dur |};
               net :=
                 with_history
                   (skorch.set_current_batch
                      (<["backward_pass_dur_s" := PFloat stale]>
                         (<["forward_pass_dur_s" := PFloat forward_dur]>
                            (<["to_device_dur_s" :=
                                 PFloat (float_add X_dur y_dur)]> batch)))
                      (history (net st)))
                   (net st);
               world :=
                 with_ticks (ticks (world st) + length hooks) (world st) |})
     | None =>
         PerformanceLogger.run_batch hooks st
         = (Raise (AttributeError "backward_pass_time_"),
            {| self :=
                 {| PerformanceLogger.forward_pass_time_ := Some forward_dur;
                    PerformanceLogger.backward_pass_time_ := None;
                    PerformanceLogger.X_to_device_time_ := Some X_dur;
                    PerformanceLogger.y_to_device_time_ := Some y_dur |};
               net :=
                 with_history
                   (skorch.set_current_batch
                      (<["forward_pass_dur_s" := PFloat forward_dur]>
                         (<["to_device_dur_s" :=
                              PFloat (float_add X_dur y_dur)]> batch))
                      (history (net st)))
                   (net st);
               world :=
                 with_ticks (ticks (world st) + length hooks) (world st) |})
     end).
Proof.
  intros Hnd HiX HjX HX Hiy Hjy Hy HiF HjF HF Hbatch c Xd yd Fd.
  split.
  - intros iB jB HiB HjB HB Bd. unfold PerformanceLogger.run_batch.
    destruct (notify_all hooks st PNone (Some Fd) (Some Bd) (Some Xd)
                (Some yd)) as [r Hr]; try (by apply field_after_pair).
    rewrite (bind_ok _ _ _ _ _ Hr).
    by erewrite on_batch_end_records.
  - intros Hb He. unfold PerformanceLogger.run_batch.
    destruct (notify_all hooks st PNone (Some Fd)
                (PerformanceLogger.backward_pass_time_ (self st)) (Some Xd)
                (Some yd)) as [r Hr]; try (by apply field_after_pair).
    { by apply field_after_none. }
    rewrite (bind_ok _ _ _ _ _ Hr).
    destruct (PerformanceLogger.backward_pass_time_ (self st)) as [stale|].
    + by erewrite on_batch_end_records.
    + by erewrite on_batch_end_without_backward.
Qed.

Lemma performance_logger_records_batch_sample :
  PerformanceLogger.run_batch sample_hooks
    {| self := PerformanceLogger.__init__; net := sample_net;
       world := sample_env |}
  = (Ok PNone,
     {| self :=
          {| PerformanceLogger.forward_pass_time_ :=
               Some (float_sub (clock sample_env 3) (clock sample_env 0));
             PerformanceLogger.backward_pass_time_ :=
               Some (float_sub (clock sample_env 7) (clock sample_env 6));
             PerformanceLogger.X_to_device_time_ :=
               Some (float_sub (clock sample_env 2) (clock sample_env 1));
             PerformanceLogger.y_to_device_time_ :=
               Some (float_sub (clock sample_env 5) (clock sample_env 4)) |};
        net :=
          with_history
            [{| row := {["epoch" := PInt 1]};
                batches :=
                  [{["to_device_dur_s" :=
                       PFloat
                         (float_add
                            (float_sub (clock sample_env 2)
                               (clock sample_env 1))
                            (float_sub (clock sample_env 5)
                               (clock sample_env 4)));
                     "forward_pass_dur_s" :=
                       PFloat
                         (float_sub (clock sample_env 3)
                            (clock sample_env 0));
                     "backward_pass_dur_s" :=
                       PFloat
                         (float_sub (clock sample_env 7)
                            (clock sample_env 6))]}] |}]
            sample_net;
        world := with_ticks 8 sample_env |}).
Proof.
  destruct (performance_logger_records_batch sample_hooks
              {| self := PerformanceLogger.__init__; net := sample_net;
                 world := sample_env |} 1 2 4 5 0 3 ∅)
    as [Hfull _];
    [| reflexivity | reflexivity | lia | reflexivity | reflexivity | lia
     | reflexivity | reflexivity | lia | reflexivity |].
  - apply (bool_decide_unpack _). vm_compute. exact I.
  - rewrite (Hfull 6 7) by (reflexivity || lia).
    vm_compute. reflexivity.
Defined.

(** ** [PytorchProfilerLogger._trace_handler] *)

(** C4, as stated, fails: when the directory is missing and cannot be
    created, the handler raises [RuntimeError] before the export, and no
    file is written and no triple appended although the export would
    have succeeded. *)
Lemma trace_handler_unwritable_directory :
  PytorchProfilerLogger.export_chrome_trace sample_profile = Ok "{}"
  ∧ PytorchProfilerLogger._trace_handler sample_profile unwritable_state
    = (Raise (RuntimeError "Can't create directory: pytorch_profiler_trace"),
       unwritable_state).
Proof. split; reflexivity. Qed.

(** C4, amended. Let the handler run on a callback whose [epoch_] is set,
    with the directory 'pytorch_profiler_trace' present or creatable.
    If [export_chrome_trace] succeeds and [profiler_traces_] is set, the
    trace is at 'pytorch_profiler_trace/worker_{rank}_{epoch}.pt.trace.json',
    and the triple of the file name, the contents read back and the
    profiler's events is appended to [profiler_traces_]. If the export
    raises a [RuntimeError], the handler returns [None] all the same and
    the callback, [profiler_traces_] included, is unchanged. If the
    directory is missing and cannot be created, the handler raises
    [RuntimeError] before exporting, whatever the callback and the
    profiler: nothing is written and nothing appended. *)
Theorem trace_handler_exports_and_appends
    (p : PytorchProfilerLogger.profile) (st : state PytorchProfilerLogger.t)
    (epoch : Z) :
  (PytorchProfilerLogger.dir_name ∈ dirs (world st)
     ∨ makedirs_fails (world st) = false →
   PytorchProfilerLogger.epoch_ (self st) = Some epoch →
   let filename :=
     PytorchProfilerLogger.trace_filename (world_rank (world st)) epoch in
   let path := trace_path (world st) epoch in
   (∀ data traces,
      PytorchProfilerLogger.export_chrome_trace p = Ok data →
      PytorchProfilerLogger.profiler_traces_ (self st) = Some traces →
      PytorchProfilerLogger._trace_handler p st
      = (Ok PNone,
         {| self :=
              PytorchProfilerLogger.set_profiler_traces_
                (traces ++ [(filename, data, PytorchProfilerLogger.events p)])
                (self st);
            net := net st;
            world :=
              with_files (<[path := data]> (files (world st)))
                (with_trace_dir (world st)) |}))
   ∧ (∀ e,
        PytorchProfilerLogger.export_chrome_trace p = Raise e →
        isinstance e "RuntimeError" = true →
        PytorchProfilerLogger._trace_handler p st
        = (Ok PNone,
           {| self := self st; net := net st;
              world := with_trace_dir (world st) |})))
  ∧ (PytorchProfilerLogger.dir_name ∉ dirs (world st) →
     makedirs_fails (world st) = true →
     PytorchProfilerLogger._trace_handler p st
     = (Raise (RuntimeError "Can't create directory: pytorch_profiler_trace"),
        st)).
Proof.
  split.
  - intros Hdir Hepoch filename path.
    destruct st as [s n w]; simpl in *.
    unfold PytorchProfilerLogger._trace_handler, with_trace_dir.
    unfold os.path_isdir, os.makedirs, train.world_rank, os.read_file,
      PytorchProfilerLogger.getattr,
      PytorchProfilerLogger.p_export_chrome_trace,
      try_except, gets, lift, raise, modify_world, modify_self,
      mbind, M_bind, mret, M_ret; simpl.
    split.
    + intros data traces Hexp Htr.
      case_bool_decide as Hin; simpl.
      * rewrite Hepoch, Hexp; simpl.
        fold filename. change (os.path_join _ filename) with path.
        rewrite lookup_insert_eq; simpl. by rewrite Htr.
      * destruct Hdir as [?| ->]; [done|]. simpl.
        rewrite Hepoch, Hexp; simpl.
        fold filename. change (os.path_join _ filename) with path.
        rewrite lookup_insert_eq; simpl. by rewrite Htr.
    + intros e Hexp He.
      case_bool_decide as Hin; simpl.
      * rewrite Hepoch, Hexp; simpl. by rewrite He.
      * destruct Hdir as [?| ->]; [done|]. simpl.
        rewrite Hepoch, Hexp; simpl. by rewrite He.
  - intros Hdir Hfails.
    destruct st as [s n w]; simpl in *.
    unfold PytorchProfilerLogger._trace_handler.
    unfold os.path_isdir, os.makedirs, try_except, gets, raise,
      modify_world, mbind, M_bind, mret, M_ret; simpl.
    rewrite bool_decide_eq_false_2 by done. simpl.
    by rewrite Hfails.
Qed.

Lemma trace_handler_exports_and_appends_sample :
  PytorchProfilerLogger._trace_handler sample_profile
    {| self := self unwritable_state; net := sample_net;
       world := sample_env |}
  = (Ok PNone,
     {| self :=
          {| PytorchProfilerLogger.epoch_ := Some 2%Z;
             PytorchProfilerLogger.profiler_traces_ :=
               Some [("worker_0_2.pt.trace.json", "{}", ["aten::addmm"])] |};
        net := sample_net;
        world :=
          with_files
            {["pytorch_profiler_trace/worker_0_2.pt.trace.json" := "{}"]}
            (with_dirs {["pytorch_profiler_trace"]} sample_env) |})
  ∧ PytorchProfilerLogger._trace_handler sample_profile unwritable_state
    = (Raise (RuntimeError "Can't create directory: pytorch_profiler_trace"),
       unwritable_state).
Proof.
  split.
  - destruct (trace_handler_exports_and_appends sample_profile
      {| self := self unwritable_state; net := sample_net;
         world := sample_env |}
      2%Z) as [Hexport _].
    destruct Hexport as [Hexport _]; [by right | reflexivity |].
    rewrite (Hexport "{}" []) by reflexivity.
    vm_compute. reflexivity.
  - apply (trace_handler_exports_and_appends sample_profile unwritable_state
             0%Z); [|reflexivity].
    cbn. apply not_elem_of_empty.
Defined.

(** ** [TrainReportCallback._sorted_keys] *)

Lemma ascii_compare_trans a b c :
  Ascii.compare a b ≠ Gt → Ascii.compare b c ≠ Gt → Ascii.compare a c ≠ Gt.
Proof.
  unfold Ascii.compare. rewrite !N.compare_le_iff. lia.
Qed.

Lemma string_compare_trans s1 : ∀ s2 s3,
  String.compare s1 s2 ≠ Gt → String.compare s2 s3 ≠ Gt →
  String.compare s1 s3 ≠ Gt.
Proof.
  induction s1 as [|a s1 IH]; intros [|b s2] [|c s3]; simpl; try done.
  destruct (Ascii.compare a b) eqn:Hab; [| |done].
  - apply Ascii.compare_eq_iff in Hab as ->. intros H12.
    destruct (Ascii.compare b c); [|done..]. by apply IH.
  - intros _. destruct (Ascii.compare b c) eqn:Hbc; [| |done].
    + apply Ascii.compare_eq_iff in Hbc as <-. by rewrite Hab.
    + intros _.
      assert (Ascii.compare a c ≠ Gt) as Hac
        by (apply (ascii_compare_trans a b c); congruence).
      destruct (Ascii.compare a c) eqn:Hac'; [|done..].
      apply Ascii.compare_eq_iff in Hac' as ->.
      rewrite Ascii.compare_antisym, Hbc in Hab. done.
Qed.

Lemma string_leb_trans s1 s2 s3 :
  String.leb s1 s2 = true → String.leb s2 s3 = true → String.leb s1 s3 = true.
Proof.
  unfold String.leb. intros H12 H23.
  pose proof (string_compare_trans s1 s2 s3) as H.
  destruct (String.compare s1 s2), (String.compare s2 s3),
    (String.compare s1 s3); try done; exfalso; by apply H.
Qed.

Lemma sorted_alphabetical keys : TrainReportCallback.alphabetical (sorted keys).
Proof.
  apply StringSort.StronglySorted_sort.
  intros s1 s2 s3. unfold is_true. apply string_leb_trans.
Qed.

Lemma sorted_permutation keys : Permutation (sorted keys) keys.
Proof. symmetry. apply StringSort.Permuted_sort. Qed.

Lemma alphabetical_filter P l :
  TrainReportCallback.alphabetical l →
  TrainReportCallback.alphabetical (List.filter P l).
Proof.
  unfold TrainReportCallback.alphabetical.
  induction 1 as [|x l Hl IH Hx]; simpl; [constructor|].
  destruct (P x); [|done]. constructor; [done|].
  rewrite Forall_forall in Hx |- *. intros y Hy.
  apply Hx. apply list_elem_of_In. apply list_elem_of_In in Hy.
  by apply filter_In in Hy as [? _].
Qed.

Lemma filter_permutation {A} (P : A → bool) l1 l2 :
  Permutation l1 l2 → Permutation (List.filter P l1) (List.filter P l2).
Proof.
  induction 1 as [|x l1 l2 _ IH|x y l|l1 l2 l3 _ IH1 _ IH2]; simpl.
  - done.
  - destruct (P x); [by constructor | done].
  - destruct (P x), (P y); try done. constructor.
  - by etrans.
Qed.

(** A loop that appends the items passing a test is a [filter]. *)
Lemma fold_left_append_filter {A} (P : A → bool) l : ∀ acc,
  fold_left (λ acc x, if P x then acc ++ [x] else acc) l acc
  = acc ++ List.filter P l.
Proof.
  induction l as [|x l IH]; intros acc; simpl.
  - by rewrite app_nil_r.
  - rewrite IH. destruct (P x); [|done]. by rewrite <- app_assoc.
Qed.

Lemma filter_filter {A} (P Q : A → bool) l :
  List.filter P (List.filter Q l) = List.filter (λ x, Q x && P x) l.
Proof.
  induction l as [|x l IH]; simpl; [done|].
  destruct (Q x); simpl; [|done]. destruct (P x); by rewrite IH.
Qed.

Lemma sorted_keys_equation self keys :
  TrainReportCallback._sorted_keys self keys
  = TrainReportCallback.epoch_first self keys
    ++ List.filter (TrainReportCallback.middle_key self) (sorted keys)
    ++ List.filter (TrainReportCallback.event_key self) (sorted keys)
    ++ TrainReportCallback.dur_s_last self keys.
Proof.
  unfold TrainReportCallback._sorted_keys, skorch.filter_log_keys.
  rewrite (fold_left_append_filter (λ key, negb (String.eqb key "dur_s"))).
  rewrite (fold_left_append_filter
    (λ key, startswith key "event_"
            && bool_decide (key ∉ TrainReportCallback.keys_ignored_ self))).
  rewrite filter_filter.
  rewrite (filter_ext _ (TrainReportCallback.middle_key self)).
  - unfold TrainReportCallback.epoch_first, TrainReportCallback.dur_s_last,
      TrainReportCallback.event_key.
    repeat case_match; simpl; by rewrite <- ?app_assoc, ?app_nil_r.
  - intros key.
    unfold TrainReportCallback.middle_key, TrainReportCallback.plain_key.
    rewrite bool_decide_not.
    destruct (String.eqb key "epoch"), (bool_decide _),
      (endswith key "_best"), (endswith key "_batch_count"),
      (startswith _ _), (String.eqb key "dur_s"); done.
Qed.

(** C7, as stated, fails: with no key ignored, the keys of a history row
    that holds 'epoch' alone are sorted to ['epoch'], while the
    description lists 'epoch' first and then once more among the keys
    that are not ignored, do not end in '_best', do not start with
    'event_' and are not 'dur_s'. The description also lists
    'train_batch_count', which skorch's [filter_log_keys] drops. *)
Lemma sorted_keys_epoch_once :
  TrainReportCallback._sorted_keys
    {| TrainReportCallback.keys_ignored_ := ∅ |} ["epoch"] = ["epoch"]
  ∧ TrainReportCallback.sorted_keys_described
      {| TrainReportCallback.keys_ignored_ := ∅ |} ["epoch"]
    = ["epoch"; "epoch"]
  ∧ TrainReportCallback._sorted_keys
      {| TrainReportCallback.keys_ignored_ := ∅ |}
      ["epoch"; "train_batch_count"; "train_loss"]
    = ["epoch"; "train_loss"]
  ∧ TrainReportCallback.sorted_keys_described
      {| TrainReportCallback.keys_ignored_ := ∅ |}
      ["epoch"; "train_batch_count"; "train_loss"]
    = ["epoch"; "epoch"; "train_batch_count"; "train_loss"].
Proof. repeat split; vm_compute; reflexivity. Qed.

(** C7, amended. [_sorted_keys] returns 'epoch' first if present and not
    ignored; then, in alphabetical order, every key other than 'epoch'
    that is not ignored, ends neither in '_best' nor in '_batch_count',
    does not start with 'event_' and is not 'dur_s'; then every key that
    starts with 'event_' and is not ignored, in alphabetical order; and
    'dur_s' last if present and not ignored. Each of the two middle
    segments is sorted and holds exactly the keys of its kind, as often
    as [keys] holds them. *)
Theorem sorted_keys_segments (self : TrainReportCallback.t)
    (keys : list string) :
  ∃ middle events : list string,
    TrainReportCallback._sorted_keys self keys
    = TrainReportCallback.epoch_first self keys
      ++ middle ++ events
      ++ TrainReportCallback.dur_s_last self keys
    ∧ TrainReportCallback.alphabetical middle
    ∧ Permutation middle
        (List.filter (TrainReportCallback.middle_key self) keys)
    ∧ TrainReportCallback.alphabetical events
    ∧ Permutation events
        (List.filter (TrainReportCallback.event_key self) keys).
Proof.
  exists (List.filter (TrainReportCallback.middle_key self) (sorted keys)),
    (List.filter (TrainReportCallback.event_key self) (sorted keys)).
  split; [apply sorted_keys_equation|].
  repeat split.
  - apply alphabetical_filter, sorted_alphabetical.
  - apply filter_permutation, sorted_permutation.
  - apply alphabetical_filter, sorted_alphabetical.
  - apply filter_permutation, sorted_permutation.
Qed.

(** ** [AggregateLogCallback.handle_result] *)

Section Aggregate_facts.
Import train_linear.
Context {numpy : Numpy}.

Lemma aggregate_of_unfold col :
  aggregate_of col
  = (m ← np_mean col; md ← np_median col; s ← np_std col;
     mx ← max_and_argmax col; mn ← min_and_argmin col;
     Ok (<["min" := mn]> (<["max" := mx]> (<["std" := s]>
          (<["median" := md]> (<["mean" := m]> ∅)))))).
Proof.
  unfold aggregate_of, DEFAULT_AGGREGATE_FUNC. cbn [fold_left].
  unfold mbind, result_bind, mret, result_ret.
  destruct (np_mean col); [|reflexivity].
  destruct (np_median col); [|reflexivity].
  destruct (np_std col); [|reflexivity].
  destruct (max_and_argmax col); [|reflexivity].
  destruct (min_and_argmin col); reflexivity.
Qed.

Local Ltac stat_found :=
  intros [= <-]; eexists; split; [eassumption|];
  repeat (rewrite lookup_insert_ne by discriminate);
  apply lookup_insert_eq.

Lemma aggregate_of_ok col aggregate :
  aggregate_of col = Ok aggregate →
  dom aggregate = ({[ "mean"; "median"; "std"; "max"; "min" ]} : gset string)
  ∧ ∀ func_key func,
      dict_get func_key DEFAULT_AGGREGATE_FUNC = Some func →
      ∃ v, func col = Ok v ∧ aggregate !! func_key = Some v.
Proof.
  rewrite aggregate_of_unfold.
  unfold mbind, result_bind.
  destruct (np_mean col) as [m|] eqn:Hm; [|discriminate].
  destruct (np_median col) as [md|] eqn:Hmd; [|discriminate].
  destruct (np_std col) as [s|] eqn:Hs; [|discriminate].
  destruct (max_and_argmax col) as [mx|] eqn:Hmx; [|discriminate].
  destruct (min_and_argmin col) as [mn|] eqn:Hmn; [|discriminate].
  intros [= <-]. split.
  - rewrite !dom_insert_L, dom_empty_L. set_solver.
  - intros func_key func. unfold DEFAULT_AGGREGATE_FUNC. cbn [dict_get].
    destruct (String.eqb_spec "mean" func_key) as [<-|_]; [stat_found|].
    destruct (String.eqb_spec "median" func_key) as [<-|_]; [stat_found|].
    destruct (String.eqb_spec "std" func_key) as [<-|_]; [stat_found|].
    destruct (String.eqb_spec "max" func_key) as [<-|_]; [stat_found|].
    destruct (String.eqb_spec "min" func_key) as [<-|_]; [stat_found|].
    intros [=].
Qed.

Lemma aggregate_of_is_ok col :
  (∀ func_key func,
     dict_get func_key DEFAULT_AGGREGATE_FUNC = Some func →
     is_ok (func col) = true) →
  is_ok (aggregate_of col) = true.
Proof.
  intros H. rewrite aggregate_of_unfold.
  pose proof (H "mean" _ eq_refl) as H1.
  pose proof (H "median" _ eq_refl) as H2.
  pose proof (H "std" _ eq_refl) as H3.
  pose proof (H "max" _ eq_refl) as H4.
  pose proof (H "min" _ eq_refl) as H5.
  unfold mbind, result_bind.
  destruct (np_mean col); [|discriminate].
  destruct (np_median col); [|discriminate].
  destruct (np_std col); [|discriminate].
  destruct (max_and_argmax col); [|discriminate].
  destruct (min_and_argmin col); [reflexivity|discriminate].
Qed.

Lemma aggregate_loop results (first : gmap string pyval) :
  loop_invariant results
    (map_fold (aggregate_step results) (Ok ∅) first) first.
Proof.
  apply (map_fold_weak_ind (loop_invariant results)).
  - intros key. by rewrite !lookup_empty.
  - intros i x m r Hi IH. destruct r as [agg|e]; cbn [loop_invariant] in *.
    + unfold aggregate_step, mbind, result_bind, mret, result_ret.
      assert (Hother : ∀ (entry : agg_entry) key, i ≠ key →
        match <[i:=x]> m !! key with
        | Some value =>
            entry_of results key value = Ok (<[i:=entry]> agg !! key)
        | None => <[i:=entry]> agg !! key = None
        end).
      { intros entry key Hne. rewrite !lookup_insert_ne by done. apply IH. }
      destruct (bool_decide (i ∈ DEFAULT_KEYS_TO_IGNORE)) eqn:Hign.
      * intros key. destruct (decide (i = key)) as [<-|Hne]; [|by apply Hother].
        rewrite !lookup_insert_eq. unfold entry_of. by rewrite Hign.
      * destruct (is_number x) eqn:Hnum.
        -- destruct (aggregate_of (aggregate_key i results)) as [a|e] eqn:Ha.
           ++ intros key.
              destruct (decide (i = key)) as [<-|Hne]; [|by apply Hother].
              rewrite !lookup_insert_eq. unfold entry_of.
              by rewrite Hign, Hnum, Ha.
           ++ exists i, x. rewrite lookup_insert_eq. split; [done|].
              unfold entry_of. by rewrite Hign, Hnum, Ha.
        -- intros key. destruct (decide (i = key)) as [<-|Hne].
           ++ rewrite lookup_insert_eq. specialize (IH i). rewrite Hi in IH.
              rewrite IH. unfold entry_of. by rewrite Hign, Hnum.
           ++ rewrite lookup_insert_ne by done. apply IH.
    + destruct IH as (key & value & Hkey & Hbad).
      exists key, value. split; [|done].
      rewrite lookup_insert_ne; [done|]. intros ->. by rewrite Hi in Hkey.
Qed.

End Aggregate_facts.

Section Aggregate_claims.
Import train_linear.
Context {numpy : Numpy}.

(** The call on a log file in any condition: the statistics come first,
    the file is opened and read after them. *)
Lemma handle_result_file first rest (log : log_file) :
  handle_result (first :: rest) log
  = match map_fold (aggregate_step (first :: rest)) (Ok ∅) first with
    | Ok aggregate_results =>
        match load_log log with
        | Ok loaded_results =>
            Ok (loaded_results
                ++ [{| raw := map_seq 0 (first :: rest);
                       aggregated := aggregate_results |}])
        | Raise e => Raise e
        end
    | Raise e => Raise e
    end.
Proof.
  unfold handle_result. rewrite lookup_map_seq_0.
  change ((first :: rest) !! 0%nat) with (Some first).
  unfold mbind, result_bind, mret, result_ret.
  destruct (map_fold _ _ first); [|done]. by destruct (load_log log).
Qed.

Lemma handle_result_cons first rest (log : list final_results) :
  handle_result (first :: rest) log
  = match map_fold (aggregate_step (first :: rest)) (Ok ∅) first with
    | Ok aggregate_results =>
        Ok (log ++ [{| raw := map_seq 0 (first :: rest);
                       aggregated := aggregate_results |}])
    | Raise e => Raise e
    end.
Proof. by rewrite handle_result_file. Qed.

Lemma handle_result_nil (log : log_file) :
  handle_result [] log = Raise (KeyError "0").
Proof. unfold handle_result. by rewrite lookup_map_seq_0. Qed.

(** What [handle_result] makes of the keys it aggregates, by the
    comprehension of lines 55-57. *)
Lemma handle_result_statistics (first : gmap string pyval)
    (rest : list (gmap string pyval)) (log : list final_results) :
  let results := first :: rest in
  ((∀ key value func_key func,
      first !! key = Some value →
      key ∉ DEFAULT_KEYS_TO_IGNORE →
      is_number value = true →
      dict_get func_key DEFAULT_AGGREGATE_FUNC = Some func →
      is_ok (func (aggregate_key key results)) = true) →
   is_ok (handle_result results log) = true)
  ∧ (∀ log',
       handle_result results log = Ok log' →
       ∃ final,
         log' = log ++ [final]
         ∧ ∀ key value,
             first !! key = Some value →
             key ∉ DEFAULT_KEYS_TO_IGNORE →
             is_number value = true →
             ∃ aggregate,
               aggregated final !! key = Some (Aggregate aggregate)
               ∧ dom aggregate
                 = ({[ "mean"; "median"; "std"; "max"; "min" ]} : gset string)
               ∧ ∀ func_key func,
                   dict_get func_key DEFAULT_AGGREGATE_FUNC = Some func →
                   ∃ v,
                     func (aggregate_key key results) = Ok v
                     ∧ aggregate !! func_key = Some v).
Proof.
  intros results. subst results. rewrite handle_result_cons.
  pose proof (aggregate_loop (first :: rest) first) as Hloop.
  destruct (map_fold _ _ first) as [agg|e]; cbn [loop_invariant] in Hloop;
    split.
  - done.
  - intros log' [= <-]. eexists; split; [done|].
    intros key value Hkey Hign Hnum. cbn [aggregated].
    specialize (Hloop key). rewrite Hkey in Hloop.
    unfold entry_of in Hloop.
    rewrite bool_decide_eq_false_2, Hnum in Hloop by done.
    destruct (aggregate_of (aggregate_key key (first :: rest)))
      as [aggregate|e] eqn:Hagg; [|discriminate].
    injection Hloop as Hloop.
    exists aggregate. split; [done|]. by apply aggregate_of_ok.
  - intros Htotal. destruct Hloop as (key & value & Hkey & Hbad).
    unfold entry_of in Hbad.
    case_bool_decide as Hign; [done|].
    destruct (is_number value) eqn:Hnum; [|done].
    assert (is_ok (aggregate_of (aggregate_key key (first :: rest))) = true)
      as Hok.
    { apply aggregate_of_is_ok. intros func_key func Hf. by eapply Htotal. }
    destruct (aggregate_of (aggregate_key key (first :: rest)));
      discriminate.
  - done.
Qed.

(** C1. For a non-empty list of per-worker result dictionaries, and a
    log file that holds a list of records: the column of a key is the
    list of the values the workers have under the key, in the order of
    the workers, a worker without the key being left out.
    [handle_result] returns whenever the numpy functions do on the
    columns of the keys it aggregates; and whenever it returns, it has
    appended one record to the log, in whose 'aggregated' dictionary
    each key of the first worker that is not in
    [DEFAULT_KEYS_TO_IGNORE] and whose value is a number is mapped to a
    dictionary with exactly the five keys 'mean', 'median', 'std', 'max'
    and 'min', each holding what the function of that name in
    [DEFAULT_AGGREGATE_FUNC] returns on the column of the key. *)
Theorem handle_result_aggregates (first : gmap string pyval)
    (rest : list (gmap string pyval)) (log : list final_results) :
  let results := first :: rest in
  let column := λ key : string,
    omap (λ worker : gmap string pyval, worker !! key) results in
  ((∀ key value func_key func,
      first !! key = Some value →
      key ∉ DEFAULT_KEYS_TO_IGNORE →
      is_number value = true →
      dict_get func_key DEFAULT_AGGREGATE_FUNC = Some func →
      is_ok (func (column key)) = true) →
   is_ok (handle_result results log) = true)
  ∧ (∀ log',
       handle_result results log = Ok log' →
       ∃ final,
         log' = log ++ [final]
         ∧ ∀ key value,
             first !! key = Some value →
             key ∉ DEFAULT_KEYS_TO_IGNORE →
             is_number value = true →
             ∃ aggregate,
               aggregated final !! key = Some (Aggregate aggregate)
               ∧ dom aggregate
                 = ({[ "mean"; "median"; "std"; "max"; "min" ]} : gset string)
               ∧ ∀ func_key func,
                   dict_get func_key DEFAULT_AGGREGATE_FUNC = Some func →
                   ∃ v,
                     func (column key) = Ok v
                     ∧ aggregate !! func_key = Some v).
Proof.
  intros results column.
  destruct (handle_result_statistics first rest log) as [Hreturns Hrecord].
  split.
  - intros Hnumpy. apply Hreturns.
    intros key value func_key func. apply Hnumpy.
  - intros log' Hrun.
    destruct (Hrecord log' Hrun) as (final & -> & Hkeys).
    exists final. split; [done|]. intros key value Hkey Hign Hnum.
    destruct (Hkeys key value Hkey Hign Hnum)
      as (aggregate & Hentry & Hdom & Hstats).
    exists aggregate. split; [done|]. split; [done|].
    intros func_key func Hfunc. exact (Hstats func_key func Hfunc).
Qed.

(** C9. Whenever [handle_result] returns, the record it appends keeps
    every worker's dictionary under 'raw', and its 'aggregated'
    dictionary is built from the keys of worker 0 alone: a key worker 0
    does not have is absent, whatever the other workers hold; a key in
    [DEFAULT_KEYS_TO_IGNORE] is mapped to the value worker 0 has for it;
    and a key of worker 0 that is neither ignored nor a number is absent,
    its value being kept under 'raw' only. *)
Theorem handle_result_first_worker_only (results : list (gmap string pyval))
    (log log' : list final_results) :
  handle_result results log = Ok log' →
  ∃ first final,
    results !! 0%nat = Some first
    ∧ log' = log ++ [final]
    ∧ (∀ i, raw final !! i = results !! i)
    ∧ (∀ key, first !! key = None → aggregated final !! key = None)
    ∧ (∀ key value,
         first !! key = Some value →
         key ∈ DEFAULT_KEYS_TO_IGNORE →
         aggregated final !! key = Some (Copied value))
    ∧ (∀ key value,
         first !! key = Some value →
         key ∉ DEFAULT_KEYS_TO_IGNORE →
         is_number value = false →
         aggregated final !! key = None
         ∧ ∃ worker0,
             raw final !! 0%nat = Some worker0 ∧ worker0 !! key = Some value).
Proof.
  destruct results as [|first rest]; [by rewrite handle_result_nil|].
  rewrite handle_result_cons.
  pose proof (aggregate_loop (first :: rest) first) as Hloop.
  destruct (map_fold _ _ first) as [agg|e]; [|done].
  cbn [loop_invariant] in Hloop.
  intros [= <-]. eexists first, _. split; [done|]. split; [done|].
  cbn [raw aggregated].
  split; [intros i; exact (lookup_map_seq_0 (first :: rest) i)|].
  split; [|split].
  - intros key Hkey. specialize (Hloop key). by rewrite Hkey in Hloop.
  - intros key value Hkey Hign. specialize (Hloop key).
    rewrite Hkey in Hloop. unfold entry_of in Hloop.
    rewrite bool_decide_eq_true_2 in Hloop by done. by injection Hloop.
  - intros key value Hkey Hign Hnum. specialize (Hloop key).
    rewrite Hkey in Hloop. unfold entry_of in Hloop.
    rewrite bool_decide_eq_false_2, Hnum in Hloop by done.
    split; [by injection Hloop|].
    exists first. split; [exact (lookup_map_seq_0 (first :: rest) 0)|done].
Qed.

End Aggregate_claims.

Lemma numpy_calls_total func_key func col :
  dict_get func_key (train_linear.DEFAULT_AGGREGATE_FUNC (numpy := numpy_calls))
  = Some func →
  is_ok (func col) = true.
Proof.
  unfold train_linear.DEFAULT_AGGREGATE_FUNC. cbn [dict_get].
  destruct (String.eqb_spec "mean" func_key); [by intros [= <-]|].
  destruct (String.eqb_spec "median" func_key); [by intros [= <-]|].
  destruct (String.eqb_spec "std" func_key); [by intros [= <-]|].
  destruct (String.eqb_spec "max" func_key); [by intros [= <-]|].
  destruct (String.eqb_spec "min" func_key); [by intros [= <-]|].
  intros [=].
Qed.

Lemma handle_result_aggregates_sample_ok :
  is_ok (train_linear.handle_result (numpy := numpy_calls)
           [sample_worker0; sample_worker1] (train_linear.Holds []))
  = true.
Proof.
  rewrite handle_result_cons.
  pose proof (aggregate_loop (numpy := numpy_calls)
    [sample_worker0; sample_worker1] sample_worker0) as Hloop.
  destruct (map_fold _ _ sample_worker0) as [agg|e]; [done|].
  destruct Hloop as (key & value & _ & Hbad). unfold entry_of in Hbad.
  case_bool_decide; [done|]. destruct (is_number value); [|done].
  assert (is_ok (train_linear.aggregate_of (numpy := numpy_calls)
    (train_linear.aggregate_key key [sample_worker0; sample_worker1])) = true)
    as Hok by (apply aggregate_of_is_ok; intros; by eapply numpy_calls_total).
  destruct (train_linear.aggregate_of _); discriminate.
Qed.

Lemma handle_result_aggregates_sample :
  ∃ final aggregate,
    train_linear.handle_result (numpy := numpy_calls)
      [sample_worker0; sample_worker1] (train_linear.Holds [])
    = Ok ([] ++ [final])
    ∧ train_linear.aggregated final !! "loss"
      = Some (train_linear.Aggregate aggregate)
    ∧ dom aggregate
      = ({[ "mean"; "median"; "std"; "max"; "min" ]} : gset string)
    ∧ aggregate !! "mean"
      = Some (PTuple [PStr "np.mean";
                      PList [PFloat (S754_finite false 3 (-2));
                             PFloat (S754_finite false 5 (-3))]]).
Proof.
  pose proof (handle_result_aggregates (numpy := numpy_calls)
                sample_worker0 [sample_worker1] []) as Hclaim.
  cbn zeta in Hclaim. destruct Hclaim as [Hreturns Hrecord].
  assert (is_ok (train_linear.handle_result (numpy := numpy_calls)
                   [sample_worker0; sample_worker1] (train_linear.Holds []))
          = true) as Hok.
  { apply Hreturns. intros key value func_key func _ _ _.
    apply numpy_calls_total. }
  destruct (train_linear.handle_result (numpy := numpy_calls)
              [sample_worker0; sample_worker1] (train_linear.Holds []))
    as [log'|e]; [|discriminate].
  destruct (Hrecord log' eq_refl) as (final & -> & Hkeys).
  destruct (Hkeys "loss" (PFloat (S754_finite false 3 (-2))))
    as (aggregate & Hentry & Hdom & Hstats);
    [vm_compute; reflexivity
    | apply (bool_decide_unpack _); vm_compute; exact I
    | reflexivity |].
  destruct (Hstats "mean" train_linear.np_mean eq_refl) as (v & Hv & Hmean).
  exists final, aggregate. split; [reflexivity|]. split; [exact Hentry|].
  split; [exact Hdom|]. rewrite Hmean. vm_compute in Hv.
  by injection Hv as <-.
Defined.

Lemma handle_result_first_worker_only_sample :
  ∃ log' first final,
    train_linear.handle_result (numpy := numpy_calls)
      [sample_worker0; sample_worker1] (train_linear.Holds []) = Ok log'
    ∧ [sample_worker0; sample_worker1] !! 0%nat = Some first
    ∧ log' = [] ++ [final]
    ∧ train_linear.aggregated final !! "extra" = None.
Proof.
  destruct (train_linear.handle_result (numpy := numpy_calls)
              [sample_worker0; sample_worker1] (train_linear.Holds [])) as [log'|e] eqn:Hcall.
  - destruct (handle_result_first_worker_only _ _ _ Hcall)
      as (first & final & Hfirst & Hlog & _ & Habsent & _).
    exists log', first, final.
    split; [reflexivity|]. split; [exact Hfirst|]. split; [exact Hlog|].
    apply Habsent.
    assert (first = sample_worker0) as -> by (by injection Hfirst).
    vm_compute. reflexivity.
  - pose proof handle_result_aggregates_sample_ok as Hok.
    rewrite Hcall in Hok. discriminate.
Defined.

(** ** [TrainCheckpoint]: saving *)

Section TrainCheckpoint_saving.
Import TrainCheckpoint.

Lemma string_app_nil_r (s : string) : s +:+ "" = s.
Proof.
  induction s as [|a s IH]; [done|].
  change (String a (s +:+ "") = String a s). by f_equal.
Qed.

Lemma substring_empty n m : String.substring n m "" = "".
Proof. by destruct n, m. Qed.

Lemma write_at_start_empty content kind :
  io.write_at_start content {| io_class := kind; getvalue := "" |}
  = {| io_class := kind; getvalue := content |}.
Proof.
  unfold io.write_at_start; cbn [getvalue io_class].
  by rewrite substring_empty, string_app_nil_r.
Qed.

Lemma with_buffers_same (st : state t) :
  with_buffers (heap (world st)) (sink_calls (world st)) st = st.
Proof. by destruct st as [s n []]. Qed.

Lemma get_io_run f_key value (st : state t) :
  _get_io f_key value st
  = (Ok (length (heap (world st))),
     with_buffers
       (heap (world st)
        ++ [{| io_class :=
                 if String.eqb f_key "f_history" then StringIO else BytesIO;
               getvalue := default "" value |}])
       (sink_calls (world st)) st).
Proof.
  unfold _get_io. destruct st as [s n []].
  by destruct (String.eqb f_key "f_history").
Qed.

(** [_save_params] never raises: it returns the target, written by the
    net, or it returns [None] after one call of the sink. *)
Lemma save_params_run addr f_name log_name (st : state t) :
  _save_params (Some addr) f_name log_name st
  = match save_params (net st) f_name with
    | Ok content =>
        (Ok (Some addr),
         with_buffers
           (alter (io.write_at_start content) addr (heap (world st)))
           (sink_calls (world st)) st)
    | Raise e =>
        (Ok None,
         with_buffers (heap (world st))
           (sink_calls (world st)
            ++ [(UnableToSave log_name (Some addr) e, verbose (net st))])
           st)
    end.
Proof.
  unfold _save_params, net_save_params, try_except, skorch._sink,
    gets, lift, modify_world, mbind, M_bind, mret, M_ret; simpl.
  destruct st as [s n []]; simpl.
  by destruct (save_params n f_name).
Qed.

Lemma save_new_target f_key f_name log_name params (st : state t) :
  (f ← _get_io f_key None;
   r ← _save_params (Some f) f_name log_name;
   mret (dict_set f_name r params)) st
  = let '(h, s, params') :=
      save_target (net st)
        (heap (world st), sink_calls (world st), params)
        (if String.eqb f_key "f_history" then StringIO else BytesIO,
         f_name, log_name) in
    (Ok params', with_buffers h s st).
Proof.
  unfold mbind at 1, M_bind at 1. rewrite get_io_run.
  unfold mbind, M_bind. rewrite save_params_run.
  unfold save_target. destruct st as [s n [h sk ? ? ? ? ? ? ? ?]]; simpl.
  destruct (save_params n f_name); simpl; [|done].
  rewrite alter_app_r_alt, Nat.sub_diag by lia. simpl.
  by rewrite write_at_start_empty.
Qed.

Lemma with_buffers_twice h s h' s' (st : state t) :
  with_buffers h' s' (with_buffers h s st) = with_buffers h' s' st.
Proof. done. Qed.

Lemma save_modules_run items : ∀ params (st : state t),
  Forall (λ item, String.eqb ("f_" +:+ item.1) "f_history" = false) items →
  for_each items save_module params st
  = let '(h, s, params') :=
      fold_left (save_target (net st)) (omap module_target items)
        (heap (world st), sink_calls (world st), params) in
    (Ok params', with_buffers h s st).
Proof.
  induction items as [|[key [b|]] items IH]; intros params st Hitems.
  - simpl. by rewrite with_buffers_same.
  - apply Forall_cons in Hitems as [Hkey Hitems]. cbn [fst] in Hkey.
    cbn [for_each omap list_omap fold_left module_target snd fst].
    unfold mbind at 1, M_bind at 1. unfold save_module.
    rewrite save_new_target, Hkey.
    destruct (save_target (net st) _ _) as [[h s] params'] eqn:Hone.
    rewrite IH by done. cbn [net with_buffers world].
    unfold with_heap at 1 2, with_sink_calls at 1 2. cbn [heap sink_calls].
    destruct (fold_left _ _ _) as [[h' s'] params''].
    by rewrite with_buffers_twice.
  - apply Forall_cons in Hitems as [_ Hitems].
    cbn [for_each omap list_omap module_target snd].
    unfold mbind at 1, M_bind at 1. unfold save_module.
    unfold mret at 1, M_ret at 1. by apply IH.
Qed.

Lemma check_f_arguments_run self :
  skorch._check_f_arguments "TrainCheckpoint" (_f_kwargs self)
  = Ok (kwargs_module_of self, kwargs_other_of self).
Proof.
  destruct self as [[[]|] [[]|] [[]|] [[]|] [[]|] ? ?]; reflexivity.
Qed.

Lemma module_targets_of self :
  omap module_target (kwargs_module_of self)
  ++ (if truthy (f_history self)
      then [(StringIO, "f_history", "history")] else [])
  = targets self.
Proof.
  destruct self as [[?|] [?|] [?|] ? ? ? ?]; reflexivity.
Qed.

Lemma kwargs_module_keys self :
  Forall (λ item, String.eqb ("f_" +:+ item.1) "f_history" = false)
    (kwargs_module_of self).
Proof.
  destruct self as [[?|] [?|] [?|] ? ? ? ?];
    repeat (constructor; try reflexivity).
Qed.

Lemma kwargs_other_flags self :
  flag_get "f_history" (kwargs_other_of self) = f_history self
  ∧ flag_get "f_pickle" (kwargs_other_of self) = f_pickle self.
Proof. destruct self as [? ? ? [?|] [?|] ? ?]; split; reflexivity. Qed.

(** [save_model] when 'f_pickle' is not asked for: the targets are saved
    one by one, then the epoch is read, then the checkpoint handed over. *)
Lemma save_model_run (st : state t) :
  truthy (f_pickle (self st)) = false →
  save_model st
  = let '(h, s, params) :=
      fold_left (save_target (net st)) (targets (self st))
        (heap (world st), sink_calls (world st), []) in
    let st1 := with_buffers h s st in
    match last (history (net st)) with
    | None => (Raise (IndexError "list index out of range"), st1)
    | Some r =>
        match row r !! "epoch" with
        | None => (Raise (KeyError "epoch"), st1)
        | Some epoch =>
            (Ok PNone,
             {| self := self st; net := net st;
                world :=
                  with_loaded_checkpoint
                    (Some (checkpoint_of (world st1) epoch params))
                    (with_saved_checkpoints
                       (saved_checkpoints (world st)
                        ++ [checkpoint_of (world st1) epoch params])
                       (world st1)) |})
        end
    end.
Proof.
  intros Hpickle. unfold save_model.
  unfold mbind at 1, M_bind at 1, gets at 1.
  unfold mbind at 1, M_bind at 1, lift at 1.
  rewrite check_f_arguments_run.
  unfold mbind at 1, M_bind at 1.
  rewrite save_modules_run by apply kwargs_module_keys.
  rewrite <- module_targets_of, fold_left_app.
  destruct (fold_left _ (omap _ _) _) as [[h s] params] eqn:Hmod.
  destruct (kwargs_other_flags (self st)) as [-> ->]. rewrite Hpickle.
  unfold mbind at 1, M_bind at 1.
  destruct (truthy (f_history (self st))) eqn:Hhist.
  - assert (f_history (self st) = Some true) as Hh
      by (by destruct (f_history (self st)) as [[]|]).
    assert ((f ← f_history_;
             r ← _save_params f "f_history" "history";
             mret (dict_set "f_history" r params)) (with_buffers h s st)
            = (f ← _get_io "f_history" None;
               r ← _save_params (Some f) "f_history" "history";
               mret (dict_set "f_history" r params)) (with_buffers h s st))
      as ->.
    { unfold f_history_, gets, mbind, M_bind. cbn [self with_buffers].
      rewrite Hh. by destruct (_get_io _ _ _) as [[]]. }
    rewrite save_new_target. cbn [fold_left net with_buffers world].
    unfold with_heap at 1 2, with_sink_calls at 1 2. cbn [heap sink_calls].
    change (String.eqb "f_history" "f_history") with true. cbn iota.
    destruct (save_target _ _ _) as [[h' s'] params'].
    rewrite with_buffers_twice.
    cbv [mret M_ret mbind M_bind last_epoch gets train.save_checkpoint
         modify_world raise].
    cbn [net with_buffers world self].
    destruct (last (history (net st))) as [r|]; [|done].
    by destruct (row r !! "epoch").
  - cbn [fold_left].
    cbv [mret M_ret mbind M_bind last_epoch gets train.save_checkpoint
         modify_world raise].
    cbn [net with_buffers world self].
    destruct (last (history (net st))) as [r|]; [|done].
    by destruct (row r !! "epoch").
Qed.

End TrainCheckpoint_saving.

Section TrainCheckpoint_targets.
Import TrainCheckpoint.

(** [save_model] when 'f_pickle' is asked for: after the other targets,
    [open] is given the io object made for the pickle and raises; nothing
    is handed to [train.save_checkpoint]. *)
Lemma save_model_pickle (st : state t) :
  truthy (f_pickle (self st)) = true →
  save_model st
  = let '(h, s, params) :=
      fold_left (save_target (net st)) (targets (self st))
        (heap (world st), sink_calls (world st), []) in
    (Raise (TypeError "expected str, bytes or os.PathLike object, not BytesIO"),
     with_buffers (h ++ [{| io_class := BytesIO; getvalue := "" |}]) s st).
Proof.
  intros Hpickle. unfold save_model.
  unfold mbind at 1, M_bind at 1, gets at 1.
  unfold mbind at 1, M_bind at 1, lift at 1.
  rewrite check_f_arguments_run.
  unfold mbind at 1, M_bind at 1.
  rewrite save_modules_run by apply kwargs_module_keys.
  rewrite <- module_targets_of, fold_left_app.
  destruct (fold_left _ (omap _ _) _) as [[h s] params] eqn:Hmod.
  destruct (kwargs_other_flags (self st)) as [-> ->]. rewrite Hpickle.
  unfold mbind at 1, M_bind at 1.
  destruct (truthy (f_history (self st))) eqn:Hhist.
  - assert (f_history (self st) = Some true) as Hh
      by (by destruct (f_history (self st)) as [[]|]).
    assert ((f ← f_history_;
             r ← _save_params f "f_history" "history";
             mret (dict_set "f_history" r params)) (with_buffers h s st)
            = (f ← _get_io "f_history" None;
               r ← _save_params (Some f) "f_history" "history";
               mret (dict_set "f_history" r params)) (with_buffers h s st))
      as ->.
    { unfold f_history_, gets, mbind, M_bind. cbn [self with_buffers].
      rewrite Hh. by destruct (_get_io _ _ _) as [[]]. }
    rewrite save_new_target. cbn [fold_left net with_buffers world].
    unfold with_heap at 1 2, with_sink_calls at 1 2. cbn [heap sink_calls].
    change (String.eqb "f_history" "f_history") with true. cbn iota.
    destruct (save_target _ _ _) as [[h' s'] params'].
    rewrite with_buffers_twice.
    unfold mbind at 1, M_bind at 1. unfold mbind at 1, M_bind at 1.
    rewrite get_io_run. by destruct st as [? ? []].
  - cbn [fold_left].
    unfold mbind at 1, M_bind at 1. unfold mbind at 1, M_bind at 1.
    unfold mret at 1, M_ret at 1.
    unfold mbind at 1, M_bind at 1. 
    rewrite get_io_run. by destruct st as [? ? []].
Qed.

Lemma dict_get_set_eq {V} key (v : V) d : dict_get key (dict_set key v d) = Some v.
Proof.
  induction d as [|[k v'] d IH]; simpl.
  - by rewrite String.eqb_refl.
  - destruct (String.eqb k key) eqn:Hk; simpl; by rewrite Hk.
Qed.

Lemma dict_get_set_ne {V} key key' (v : V) d :
  key ≠ key' → dict_get key' (dict_set key v d) = dict_get key' d.
Proof.
  intros Hne. induction d as [|[k v'] d IH]; simpl.
  - by apply String.eqb_neq in Hne as ->.
  - destruct (String.eqb_spec k key) as [->|Hk]; simpl.
    + by apply String.eqb_neq in Hne as ->.
    + by rewrite IH.
Qed.

Lemma dict_keys_set_new {V} key (v : V) d :
  key ∉ dict_keys d → dict_keys (dict_set key v d) = dict_keys d ++ [key].
Proof.
  induction d as [|[k v'] d IH]; simpl; [done|].
  intros [Hk Hd]%not_elem_of_cons.
  destruct (String.eqb_spec k key) as [->|_]; [done|].
  simpl. f_equal. by apply IH.
Qed.

Lemma save_targets_spec n ts : ∀ h s params h' s' params',
  NoDup (dict_keys params ++ names ts) →
  fold_left (save_target n) ts (h, s, params) = (h', s', params') →
  dict_keys params' = dict_keys params ++ names ts
  ∧ (∃ new, h' = h ++ new)
  ∧ (∃ extra, s' = s ++ extra)
  ∧ (∀ k, k ∉ names ts → dict_get k params' = dict_get k params)
  ∧ ∀ kind f_name log_name,
      (kind, f_name, log_name) ∈ ts →
      match save_params n f_name with
      | Ok content =>
          ∃ addr,
            dict_get f_name params' = Some (Some addr)
            ∧ (length h ≤ addr)%nat
            ∧ h' !! addr = Some {| io_class := kind; getvalue := content |}
      | Raise e =>
          dict_get f_name params' = Some None
          ∧ ∃ addr,
              (length h ≤ addr)%nat
              ∧ (UnableToSave log_name (Some addr) e, verbose n) ∈ s'
      end.
Proof.
  induction ts as [|[[kind f_name] log_name] ts IH];
    intros h s params h' s' params' Hnd Hfold.
  - simpl in Hfold. injection Hfold as <- <- <-.
    split; [by rewrite app_nil_r|].
    split; [exists []; by rewrite app_nil_r|].
    split; [exists []; by rewrite app_nil_r|].
    split; [done|]. intros ? ? ? []%elem_of_nil.
  - cbn [fold_left] in Hfold. cbn [names map fst snd] in Hnd.
    assert ((f_name ∉ dict_keys params) ∧ (f_name ∉ names ts))
      as [Hnew Hlater].
    { apply NoDup_app in Hnd as (_ & Hdis & Hnd').
      apply NoDup_cons in Hnd' as [? ?].
      split; [|done]. intros Hin. apply (Hdis _ Hin). left. }
    destruct (save_target n (h, s, params) (kind, f_name, log_name))
      as [[h1 s1] params1] eqn:Hone.
    assert (∃ v o extra,
      h1 = h ++ [o] ∧ s1 = s ++ extra ∧ params1 = dict_set f_name v params
      ∧ match save_params n f_name with
        | Ok content =>
            v = Some (length h) ∧ o = {| io_class := kind; getvalue := content |}
        | Raise e =>
            v = None
            ∧ (UnableToSave log_name (Some (length h)) e, verbose n) ∈ s1
        end) as (v & o & extra & -> & -> & -> & Hv).
    { unfold save_target in Hone.
      destruct (save_params n f_name) as [content|e];
        injection Hone as <- <- <-.
      - eexists _, _, []. by rewrite app_nil_r.
      - eexists _, _, [_]. repeat split; try done.
        apply elem_of_app. right. left. }
    destruct (IH _ _ _ _ _ _ ltac:(rewrite dict_keys_set_new by done;
      rewrite <- app_assoc; exact Hnd) Hfold)
      as (Hkeys & [new ->] & [extra' ->] & Hother & Htargets).
    split.
    { rewrite Hkeys, dict_keys_set_new by done. by rewrite <- app_assoc. }
    split; [exists ([o] ++ new); by rewrite app_assoc|].
    split; [exists (extra ++ extra'); by rewrite app_assoc|].
    split.
    { intros k [Hk Hks]%not_elem_of_cons. rewrite Hother by done.
      by apply dict_get_set_ne. }
    intros kind' f_name' log_name' [[= -> -> ->]|Hin]%elem_of_cons.
    + rewrite Hother, dict_get_set_eq by done.
      destruct (save_params n f_name) as [content|e].
      * destruct Hv as [-> ->]. exists (length h). split; [done|].
        split; [done|].
        rewrite lookup_app_l by (rewrite length_app; simpl; lia).
        by rewrite lookup_app_r, Nat.sub_diag by lia.
      * destruct Hv as [-> Hs]. split; [done|].
        exists (length h). split; [done|].
        apply elem_of_app. by left.
    + specialize (Htargets _ _ _ Hin).
      rewrite length_app in Htargets. simpl in Htargets.
      destruct (save_params n f_name') as [content|e].
      * destruct Htargets as (addr & ? & ? & ?). exists addr.
        repeat split; try done. lia.
      * destruct Htargets as (? & addr & ? & ?). split; [done|].
        exists addr. split; [lia|done].
Qed.

Lemma getvalues_lookup w (params : dict (option nat)) k :
  NoDup (dict_keys params) →
  getvalues w params !! k
  = match dict_get k params with
    | Some (Some f) => Some (io.value_of w f)
    | _ => None
    end.
Proof.
  unfold getvalues.
  assert (∀ data,
    NoDup (dict_keys params) →
    fold_left
      (λ (data : gmap string string) '(k, v),
         match v with
         | Some f => <[k := io.value_of w f]> data
         | None => data
         end) params data !! k
    = match dict_get k params with
      | Some (Some f) => Some (io.value_of w f)
      | _ => data !! k
      end) as H.
  { induction params as [|[k' v] params IH]; intros data Hnd; [done|].
    apply NoDup_cons in Hnd as [Hk' Hnd]. cbn [fold_left dict_get].
    rewrite IH by done.
    destruct (String.eqb_spec k' k) as [->|Hne].
    - assert (dict_get k params = None) as ->.
      { clear -Hk'. induction params as [|[k2 v2] params IH]; [done|].
        simpl in *. apply not_elem_of_cons in Hk' as [? ?].
        destruct (String.eqb_spec k2 k); [congruence|]. by apply IH. }
      destruct v; [by rewrite lookup_insert_eq | done].
    - destruct (dict_get k params) as [[f|]|]; try done;
        destruct v; by rewrite ?lookup_insert_ne. }
  intros Hnd. rewrite H, lookup_empty by done.
  by destruct (dict_get k params) as [[?|]|].
Qed.

Lemma targets_names self :
  NoDup (names (targets self))
  ∧ List.filter (λ key, negb (String.eqb key "f_pickle")) (names (targets self))
    = names (targets self).
Proof.
  destruct self as [[?|] [?|] [?|] [[]|] ? ? ?]; split; try reflexivity;
    apply (bool_decide_unpack _); vm_compute; exact I.
Qed.

(** What a successful [save_model] leaves: one more checkpoint, made of
    the epoch of the last history row, the keys of all targets, and the
    contents of the io objects of the targets the net could write. *)
Lemma save_model_ok (st st' : state t) :
  save_model st = (Ok PNone, st') →
  ∃ h' s' params r epoch,
    fold_left (save_target (net st)) (targets (self st))
      (heap (world st), sink_calls (world st), []) = (h', s', params)
    ∧ last (history (net st)) = Some r
    ∧ row r !! "epoch" = Some epoch
    ∧ st'
      = {| self := self st; net := net st;
           world :=
             with_loaded_checkpoint
               (Some (checkpoint_of (world (with_buffers h' s' st)) epoch
                        params))
               (with_saved_checkpoints
                  (saved_checkpoints (world st)
                   ++ [checkpoint_of (world (with_buffers h' s' st)) epoch
                         params])
                  (world (with_buffers h' s' st))) |}.
Proof.
  destruct (truthy (f_pickle (self st))) eqn:Hpickle.
  - rewrite save_model_pickle by done.
    by destruct (fold_left _ _ _) as [[? ?] ?].
  - rewrite save_model_run by done.
    destruct (fold_left _ _ _) as [[h' s'] params].
    destruct (last (history (net st))) as [r|]; [|done].
    destruct (row r !! "epoch") as [epoch|] eqn:Hepoch; [|done].
    intros [= <-]. by exists h', s', params, r, epoch.
Qed.

End TrainCheckpoint_targets.

(** C2. Saving is best effort. [_save_params] never lets an exception of
    [net.save_params] out: it returns [None] after handing the failure to
    the sink, and changes nothing else. Whether [save_model] returns
    depends on 'f_pickle' and on the history only, never on what
    [net.save_params] raises. And when [save_model] returns, the
    checkpoint handed to [train.save_checkpoint] holds, for every target
    (criterion, optimizer, module parameters, history) the net could
    save, what the net wrote, and lacks every target whose save raised,
    the failure being in the sink calls. *)
Theorem save_model_best_effort (st : state TrainCheckpoint.t) :
  (∀ f f_name log_name e,
     save_params (net st) f_name = Raise e →
     TrainCheckpoint._save_params (Some f) f_name log_name st
     = (Ok None,
        with_buffers (heap (world st))
          (sink_calls (world st)
           ++ [(UnableToSave log_name (Some f) e, verbose (net st))])
          st))
  ∧ (fst (TrainCheckpoint.save_model st) = Ok PNone
     ↔ truthy (TrainCheckpoint.f_pickle (self st)) = false
       ∧ ∃ r, last (history (net st)) = Some r ∧ is_Some (row r !! "epoch"))
  ∧ (∀ st',
       TrainCheckpoint.save_model st = (Ok PNone, st') →
       ∃ ck,
         saved_checkpoints (world st') = saved_checkpoints (world st) ++ [ck]
         ∧ ∀ kind f_name log_name,
             (kind, f_name, log_name) ∈ targets (self st) →
             match save_params (net st) f_name with
             | Ok content => ck_data ck !! f_name = Some content
             | Raise e =>
                 ck_data ck !! f_name = None
                 ∧ ∃ f,
                     (UnableToSave log_name (Some f) e, verbose (net st))
                     ∈ sink_calls (world st')
             end).
Proof.
  split; [|split].
  - intros f f_name log_name e He. by rewrite save_params_run, He.
  - destruct (truthy (TrainCheckpoint.f_pickle (self st))) eqn:Hpickle.
    + rewrite save_model_pickle by done.
      destruct (fold_left _ _ _) as [[? ?] ?]. cbn [fst]. split; [done|].
      by intros [? _].
    + rewrite save_model_run by done.
      destruct (fold_left _ _ _) as [[h' s'] params].
      destruct (last (history (net st))) as [r|].
      * destruct (row r !! "epoch") as [epoch|] eqn:Hepoch; cbn [fst].
        -- split; [|done]. intros _. split; [done|]. exists r.
           by rewrite Hepoch.
        -- split; [done|]. intros [_ (r' & [= <-] & Hsome)].
           rewrite Hepoch in Hsome. by destruct Hsome.
      * cbn [fst]. split; [done|]. by intros [_ (r' & ? & _)].
  - intros st' Hrun.
    destruct (save_model_ok st st' Hrun)
      as (h' & s' & params & r & epoch & Hfold & _ & _ & ->).
    eexists. split; [done|].
    destruct (targets_names (self st)) as [Hnd _].
    destruct (save_targets_spec (net st) (targets (self st)) _ _ [] _ _ _
                Hnd Hfold)
      as (Hkeys & _ & _ & _ & Htargets).
    intros kind f_name log_name Hin. specialize (Htargets _ _ _ Hin).
    cbn [checkpoint_of ck_data world with_buffers].
    rewrite getvalues_lookup by (by rewrite Hkeys).
    destruct (save_params (net st) f_name) as [content|e].
    + destruct Htargets as (addr & -> & _ & Haddr).
      unfold io.value_of. cbn [heap with_heap]. by rewrite Haddr.
    + destruct Htargets as (-> & addr & _ & Hsink). split; [done|].
      by exists addr.
Qed.

Lemma save_model_best_effort_sample :
  ∃ ck,
    saved_checkpoints (world (TrainCheckpoint.save_model failing_state).2)
    = [] ++ [ck]
    ∧ ck_data ck !! "f_module" = Some "<f_module>"
    ∧ ck_data ck !! "f_optimizer" = None.
Proof.
  destruct (save_model_best_effort failing_state) as (_ & _ & Hsaved).
  destruct (Hsaved (TrainCheckpoint.save_model failing_state).2)
    as (ck & Hck & Htargets).
  { rewrite (surjective_pairing (TrainCheckpoint.save_model failing_state))
      at 1.
    assert ((TrainCheckpoint.save_model failing_state).1 = Ok PNone) as ->
      by (vm_compute; reflexivity).
    reflexivity. }
  exists ck. split; [exact Hck|]. split.
  - apply (Htargets BytesIO "f_module" "module state").
    cbn. rewrite !elem_of_cons. tauto.
  - apply (Htargets BytesIO "f_optimizer" "optimizer state").
    cbn. rewrite !elem_of_cons. tauto.
Defined.

(** C3 at [f_pickle=True]: the four other targets are saved into io
    objects, then [open] is called on the io object made for the pickle
    and raises [TypeError]; [train.save_checkpoint] is never reached and
    no file is written. *)
Lemma save_model_with_pickle_raises :
  (TrainCheckpoint.save_model pickle_state).1
  = Raise (TypeError "expected str, bytes or os.PathLike object, not BytesIO")
  ∧ saved_checkpoints (world (TrainCheckpoint.save_model pickle_state).2) = []
  ∧ files (world (TrainCheckpoint.save_model pickle_state).2) = ∅
  ∧ map getvalue (heap (world (TrainCheckpoint.save_model pickle_state).2))
    = ["<f_criterion>"; "<f_optimizer>"; "<f_module>"; "<f_history>"; ""].
Proof. repeat split; vm_compute; reflexivity. Qed.

(** ** [TrainCheckpoint]: loading *)

Section TrainCheckpoint_loading.
Import TrainCheckpoint.

Lemma list_to_map_dict_get {V} (d : dict V) k :
  (list_to_map d : gmap string V) !! k = dict_get k d.
Proof.
  induction d as [|[k' v] d IH]; [done|]. cbn [list_to_map foldr dict_get].
  destruct (String.eqb_spec k' k) as [->|Hne].
  - apply lookup_insert_eq.
  - by rewrite lookup_insert_ne.
Qed.

Lemma wrap_items_run keys items : ∀ params (st : state t),
  NoDup items.*1 →
  ∃ params' new,
    for_each items (wrap_item keys) params st
    = (Ok params',
       with_buffers (heap (world st) ++ new) (sink_calls (world st)) st)
    ∧ (∀ k, (k ∉ items.*1 ∨ k ∉ keys) →
            dict_get k params' = dict_get k params)
    ∧ (∀ k v, (k, v) ∈ items → k ∈ keys →
              ∃ f, dict_get k params' = Some f
                   ∧ (heap (world st) ++ new) !! f = Some (wrapped k v)).
Proof.
  induction items as [|[k v] items IH]; intros params st Hnd.
  - exists params, []. rewrite app_nil_r, with_buffers_same.
    split; [done|]. split; [done|]. intros ? ? []%elem_of_nil.
  - cbn [fmap list_fmap fst] in Hnd. apply NoDup_cons in Hnd as [Hk Hnd].
    cbn [for_each]. unfold mbind at 1, M_bind at 1. unfold wrap_item at 1.
    case_bool_decide as Hkeys.
    + unfold mbind at 1, M_bind at 1. rewrite get_io_run.
      unfold mret at 1, M_ret at 1.
      change {| io_class :=
                  if String.eqb k "f_history" then StringIO else BytesIO;
                getvalue := default "" (Some v) |} with (wrapped k v).
      destruct (IH (dict_set k (length (heap (world st))) params)
                  (with_buffers
                     (heap (world st) ++ [wrapped k v])
                     (sink_calls (world st)) st) Hnd)
        as (params' & new & Hrun & Hother & Hitems).
      exists params', ([wrapped k v] ++ new).
      rewrite Hrun.
      cbn [world with_buffers]. unfold with_heap at 1 2.
      unfold with_sink_calls at 1 2. cbn [heap sink_calls].
      rewrite with_buffers_twice, <- app_assoc.
      split; [done|]. split.
      * intros k' Hk'. rewrite Hother.
        -- apply dict_get_set_ne. intros <-. destruct Hk' as [Hk'|Hk']; [|done].
           apply Hk'. left.
        -- destruct Hk' as [Hk'|Hk']; [left|by right].
           intros Hin. apply Hk'. by right.
      * intros k' v' [[= -> ->]|Hin]%elem_of_cons Hk'.
        -- exists (length (heap (world st))). split.
           ++ rewrite Hother by (by left). apply dict_get_set_eq.
           ++ rewrite lookup_app_r, Nat.sub_diag by lia. done.
        -- destruct (Hitems k' v' Hin Hk') as (f & Hf & Hheap).
           exists f. split; [done|].
           cbn [world with_buffers] in Hheap. unfold with_heap in Hheap.
           cbn [heap] in Hheap. by rewrite <- app_assoc in Hheap.
    + unfold mret at 1, M_ret at 1.
      destruct (IH params st Hnd) as (params' & new & Hrun & Hother & Hitems).
      exists params', new. split; [done|]. split.
      * intros k' Hk'. apply Hother.
        destruct Hk' as [Hk'|Hk']; [left|by right].
        intros Hin. apply Hk'. by right.
      * intros k' v' [[= -> ->]|Hin]%elem_of_cons Hk'; [done|].
        by apply Hitems.
Qed.

End TrainCheckpoint_loading.

(** C8. [on_train_begin] returns at once, leaving the net and everything
    else as they were, when [load_checkpoint] is false or
    [train.load_checkpoint()] gives nothing or an empty dictionary.
    Otherwise it raises [ValueError] exactly when the dictionary lacks
    'epoch' or '_keys', and then the net is untouched; with both present
    it calls [net.load_params] once, and the keyword arguments of that
    call are exactly the remaining entries whose key is in '_keys', each
    wrapped in an io object ([StringIO] for 'f_history', [BytesIO] for
    the others) that holds the entry's value. *)
Theorem on_train_begin_loads (st : state TrainCheckpoint.t) :
  (TrainCheckpoint.load_checkpoint (self st) = false
   ∨ loaded_checkpoint (world st) = None
   ∨ (∃ c, loaded_checkpoint (world st) = Some c
           ∧ TrainCheckpoint.checkpoint_nonempty c = false) →
   TrainCheckpoint.on_train_begin st = (Ok PNone, st))
  ∧ ∀ c,
      TrainCheckpoint.load_checkpoint (self st) = true →
      loaded_checkpoint (world st) = Some c →
      TrainCheckpoint.checkpoint_nonempty c = true →
      ((∃ msg, (TrainCheckpoint.on_train_begin st).1 = Raise (ValueError msg))
       ↔ ck_epoch c = None ∨ ck_keys c = None)
      ∧ (ck_epoch c = None ∨ ck_keys c = None →
         net (TrainCheckpoint.on_train_begin st).2 = net st)
      ∧ ∀ epoch keys,
          ck_epoch c = Some epoch →
          ck_keys c = Some keys →
          ∃ args st',
            TrainCheckpoint.on_train_begin st = (Ok PNone, st')
            ∧ load_params_calls (net st') = load_params_calls (net st) ++ [args]
            ∧ ∀ k,
                (args !! k ≫= λ f, heap (world st') !! f)
                = if bool_decide (k ∈ keys)
                  then wrapped k <$> ck_data c !! k
                  else None.
Proof.
  split.
  - intros Hskip. unfold TrainCheckpoint.on_train_begin.
    unfold mbind at 1, M_bind at 1, gets at 1.
    destruct (TrainCheckpoint.load_checkpoint (self st)); [|done].
    cbn [negb]. unfold mbind at 1, M_bind at 1, train.load_checkpoint, gets.
    destruct Hskip as [?|[->|(c & -> & ->)]]; done.
  - intros c Hload Hc Hnonempty.
    destruct (TrainCheckpoint.on_train_begin st) as [r st'] eqn:Hrun.
    cbn [fst snd]. revert Hrun. unfold TrainCheckpoint.on_train_begin.
    unfold mbind at 1, M_bind at 1, gets at 1. rewrite Hload. cbn [negb].
    unfold mbind at 1, M_bind at 1, train.load_checkpoint at 1, gets at 1.
    rewrite Hc, Hnonempty. cbn [negb].
    unfold mbind at 1, M_bind at 1, gets at 1.
    unfold mbind at 1, M_bind at 1, skorch._sink at 1, modify_world at 1.
    destruct (ck_epoch c) as [epoch|] eqn:Hepoch.
    2:{ intros [= <- <-]. split; [|split]; [|done|done].
        split; [by left|]. intros _. by eexists. }
    unfold mbind at 1, M_bind at 1, train.popped at 1, modify_world at 1.
    cbn [TrainCheckpoint.without_epoch ck_keys ck_data].
    destruct (ck_keys c) as [keys|] eqn:Hkeys.
    2:{ intros [= <- <-]. split; [|split]; [|done|done].
        split; [by right|]. intros _. by eexists. }
    unfold mbind at 1, M_bind at 1, train.popped at 1, modify_world at 1.
    cbn [TrainCheckpoint.without_keys TrainCheckpoint.without_epoch ck_data].
    unfold mbind at 1, M_bind at 1.
    match goal with
    | |- context [for_each _ _ _ ?st1] =>
        destruct (wrap_items_run keys (map_to_list (ck_data c)) [] st1
                    (NoDup_fst_map_to_list _))
          as (params & new & Hrun & Hother & Hitems);
        rewrite Hrun
    end.
    cbv [mbind M_bind modify_net gets skorch._sink modify_world mret M_ret].
    cbn [fst snd net world self with_buffers].
    intros [= <- <-].
    split; [|split].
    + split; [by intros [? [=]]|]. by intros [[=]|[=]].
    + by intros [[=]|[=]].
    + intros ? ? [= <-] [= <-].
      eexists _, _. split; [done|]. cbn [net load_params_calls world].
      unfold with_load_params_calls; cbn [load_params_calls].
      split; [done|]. intros k.
      unfold with_sink_calls, with_heap, with_loaded_checkpoint;
        cbn [heap sink_calls].
      unfold with_sink_calls, with_heap, with_loaded_checkpoint in Hitems;
        cbn [heap sink_calls world] in Hitems.
      rewrite list_to_map_dict_get.
      case_bool_decide as Hk.
      * destruct (ck_data c !! k) as [v|] eqn:Hv;
          cbn [fmap option_fmap option_map].
        -- apply elem_of_map_to_list in Hv.
           destruct (Hitems k v Hv Hk) as (f & -> & Hf). exact Hf.
        -- rewrite Hother; [done|]. left. intros Hin.
           apply list_elem_of_fmap in Hin as ([k' v] & -> & Hin).
           apply elem_of_map_to_list in Hin. cbn [fst] in Hv. congruence.
      * rewrite Hother by (by right). done.
Qed.

Lemma on_train_begin_loads_sample :
  ∃ args st',
    TrainCheckpoint.on_train_begin loading_state = (Ok PNone, st')
    ∧ load_params_calls (net st') = [] ++ [args]
    ∧ (args !! "f_history" ≫= λ f, heap (world st') !! f)
      = Some {| io_class := StringIO; getvalue := "[]" |}
    ∧ (args !! "f_other" ≫= λ f, heap (world st') !! f) = None.
Proof.
  destruct (proj2 (on_train_begin_loads loading_state) sample_checkpoint)
    as (_ & _ & Hload); [reflexivity | reflexivity | vm_compute; reflexivity |].
  destruct (Hload (PInt 3) ["f_module"; "f_history"])
    as (args & st' & Hrun & Hcalls & Hargs); [reflexivity | reflexivity |].
  exists args, st'. split; [exact Hrun|]. split; [exact Hcalls|]. split.
  - rewrite Hargs. vm_compute. reflexivity.
  - rewrite Hargs. vm_compute. reflexivity.
Defined.

(** * Further properties of the code *)

(** ** [TrainCheckpoint.save_model]: the checkpoint handed over *)

Lemma dict_get_keys {V} k (v : V) d : dict_get k d = Some v → k ∈ dict_keys d.
Proof.
  induction d as [|[k' v'] d IH]; [done|]. simpl.
  destruct (String.eqb_spec k' k) as [->|_]; [left|].
  intros Hget. right. by apply IH.
Qed.

(** X1. When [save_model] returns, it has handed one checkpoint to
    [train.save_checkpoint]: its epoch is the 'epoch' of the last history
    row, its '_keys' are the keys of all targets in the order they were
    saved, and its other entries are keys of targets; each target the net
    could save was written to an io object that did not exist before the
    call, a [StringIO] for the history and a [BytesIO] otherwise, and the
    contents of that object are the entry of the target. The objects
    that existed before and the files are as they were. *)
Theorem save_model_hands_over_buffers (st st' : state TrainCheckpoint.t) :
  TrainCheckpoint.save_model st = (Ok PNone, st') →
  ∃ r epoch ck,
    last (history (net st)) = Some r
    ∧ row r !! "epoch" = Some epoch
    ∧ saved_checkpoints (world st') = saved_checkpoints (world st) ++ [ck]
    ∧ ck_epoch ck = Some epoch
    ∧ ck_keys ck = Some (names (targets (self st)))
    ∧ files (world st') = files (world st)
    ∧ (∃ new, heap (world st') = heap (world st) ++ new)
    ∧ (∀ kind f_name log_name content,
         (kind, f_name, log_name) ∈ targets (self st) →
         save_params (net st) f_name = Ok content →
         ∃ f,
           (length (heap (world st)) ≤ f)%nat
           ∧ heap (world st') !! f
             = Some {| io_class := kind; getvalue := content |}
           ∧ ck_data ck !! f_name = Some content)
    ∧ (∀ k v, ck_data ck !! k = Some v → k ∈ names (targets (self st))).
Proof.
  intros Hrun.
  destruct (save_model_ok st st' Hrun)
    as (h' & s' & params & r & epoch & Hfold & Hlast & Hepoch & ->).
  destruct (targets_names (self st)) as [Hnd Hfilter].
  destruct (save_targets_spec (net st) (targets (self st)) _ _ [] _ _ _
              Hnd Hfold) as (Hkeys & Hheap & _ & _ & Htargets).
  cbn [dict_keys map app] in Hkeys.
  exists r, epoch, (checkpoint_of (world (with_buffers h' s' st)) epoch params).
  split; [done|]. split; [done|]. split; [done|]. split; [done|].
  split; [cbn [checkpoint_of ck_keys]; by rewrite Hkeys, Hfilter|].
  split; [done|]. split; [done|]. split.
  - intros kind f_name log_name content Hin Hok.
    specialize (Htargets _ _ _ Hin). rewrite Hok in Htargets.
    destruct Htargets as (f & Hf & Hfresh & Hobj).
    exists f. split; [done|]. split; [done|].
    cbn [checkpoint_of ck_data world with_buffers].
    rewrite getvalues_lookup, Hf by (by rewrite Hkeys).
    unfold io.value_of. cbn [heap with_heap]. by rewrite Hobj.
  - intros k v. cbn [checkpoint_of ck_data].
    rewrite getvalues_lookup by (by rewrite Hkeys).
    destruct (dict_get k params) as [[f|]|] eqn:Hget; [|done..].
    intros _. rewrite <- Hkeys. by eapply dict_get_keys.
Qed.

Lemma save_model_hands_over_buffers_sample :
  ∃ ck,
    saved_checkpoints (world (TrainCheckpoint.save_model failing_state).2)
    = [] ++ [ck]
    ∧ ck_epoch ck = Some (PInt 3)
    ∧ ck_keys ck
      = Some ["f_criterion"; "f_optimizer"; "f_module"; "f_history"].
Proof.
  destruct (save_model_hands_over_buffers failing_state
              (TrainCheckpoint.save_model failing_state).2)
    as (r & epoch & ck & Hlast & Hepoch & Hsaved & Hck_epoch & Hck_keys & _).
  { rewrite (surjective_pairing (TrainCheckpoint.save_model failing_state))
      at 1.
    assert ((TrainCheckpoint.save_model failing_state).1 = Ok PNone) as ->
      by (vm_compute; reflexivity).
    reflexivity. }
  exists ck. split; [exact Hsaved|]. split; [|exact Hck_keys].
  rewrite Hck_epoch. injection Hlast as <-. exact (eq_sym Hepoch).
Defined.


(** ** [TrainReportCallback._sorted_keys]: which keys, how often, in
       which order *)

Section Sorted_keys_facts.
Import TrainReportCallback.

Lemma string_leb_antisym :
  AntiSymm (=) (λ a b : string, String.leb a b = true).
Proof. intros a b. apply String.leb_antisym. Qed.

(** A list of keys has one alphabetical arrangement. *)
Lemma alphabetical_unique l1 l2 :
  alphabetical l1 → alphabetical l2 → Permutation l1 l2 → l1 = l2.
Proof. apply StronglySorted_unique. exact string_leb_antisym. Qed.

Lemma sorted_permuted keys keys' :
  Permutation keys keys' → sorted keys = sorted keys'.
Proof.
  intros Hp. apply alphabetical_unique; try apply sorted_alphabetical.
  rewrite !sorted_permutation. done.
Qed.

Lemma elem_of_filter_bool {A} (P : A → bool) l x :
  x ∈ List.filter P l ↔ x ∈ l ∧ P x = true.
Proof. rewrite !list_elem_of_In. apply filter_In. Qed.

Lemma NoDup_filter_bool {A} (P : A → bool) l :
  NoDup l → NoDup (List.filter P l).
Proof. rewrite !NoDup_ListNoDup. apply List.NoDup_filter. Qed.

Lemma filter_bool_none {A} (P : A → bool) l :
  (∀ x, x ∈ l → P x = false) → List.filter P l = [].
Proof.
  induction l as [|x l IH]; intros H; simpl; [done|].
  rewrite (H x) by left. apply IH. intros y Hy. apply H. by right.
Qed.

Lemma filter_bool_all {A} (P : A → bool) l :
  (∀ x, x ∈ l → P x = true) → List.filter P l = l.
Proof.
  induction l as [|x l IH]; intros H; simpl; [done|].
  rewrite (H x) by left. f_equal. apply IH. intros y Hy. apply H. by right.
Qed.

Lemma elem_of_sorted key keys : key ∈ sorted keys ↔ key ∈ keys.
Proof. by rewrite sorted_permutation. Qed.

Lemma sorted_NoDup keys : NoDup keys → NoDup (sorted keys).
Proof. intros H. by rewrite sorted_permutation. Qed.

(** The keys kept are 'epoch' and 'dur_s' unless ignored, the keys of
    the alphabetical segment, and the keys of the event segment. *)
Lemma kept_key_cases self key :
  kept_key self key
  = (String.eqb key "epoch" || String.eqb key "dur_s")
    && bool_decide (key ∉ keys_ignored_ self)
    || middle_key self key || event_key self key.
Proof.
  unfold kept_key, middle_key, plain_key, event_key.
  destruct (String.eqb_spec key "epoch") as [->|_]; [by case_bool_decide|].
  destruct (String.eqb_spec key "dur_s") as [->|_]; [by case_bool_decide|].
  by destruct (bool_decide _), (endswith key "_best"),
    (endswith key "_batch_count"), (startswith _ _).
Qed.

Lemma middle_key_special self :
  middle_key self "epoch" = false ∧ middle_key self "dur_s" = false.
Proof.
  unfold middle_key, plain_key.
  split; destruct (bool_decide _); reflexivity.
Qed.

Lemma event_key_special self :
  event_key self "epoch" = false ∧ event_key self "dur_s" = false.
Proof. split; reflexivity. Qed.

Lemma middle_key_event_key self key :
  middle_key self key = true → event_key self key = false.
Proof.
  unfold middle_key, plain_key, event_key.
  destruct (startswith key "event_"); [|done].
  by rewrite !andb_false_r.
Qed.

Lemma epoch_first_elem self keys k : k ∈ epoch_first self keys → k = "epoch".
Proof.
  unfold epoch_first. case_match; [|by intros ?%elem_of_nil].
  by intros ->%list_elem_of_singleton.
Qed.

Lemma dur_s_last_elem self keys k : k ∈ dur_s_last self keys → k = "dur_s".
Proof.
  unfold dur_s_last. case_match; [|by intros ?%elem_of_nil].
  by intros ->%list_elem_of_singleton.
Qed.

Lemma sorted_keys_elem_of self keys key :
  key ∈ _sorted_keys self keys ↔ key ∈ keys ∧ kept_key self key = true.
Proof.
  rewrite sorted_keys_equation, !elem_of_app, !elem_of_filter_bool,
    !elem_of_sorted, kept_key_cases.
  unfold epoch_first, dur_s_last.
  split.
  - intros [H|[[? ->]|[[? ->]|H]]].
    + destruct (bool_decide ("epoch" ∈ keys)) eqn:H1;
        [|by apply elem_of_nil in H].
      destruct (bool_decide ("epoch" ∉ keys_ignored_ self)) eqn:H2;
        [|by apply elem_of_nil in H].
      apply list_elem_of_singleton in H as ->.
      apply bool_decide_eq_true in H1. split; [done|]. by rewrite H2.
    + split; [done|]. by rewrite orb_true_r.
    + split; [done|]. by rewrite orb_true_r.
    + destruct (bool_decide ("dur_s" ∈ keys)) eqn:H1;
        [|by apply elem_of_nil in H].
      destruct (bool_decide ("dur_s" ∉ keys_ignored_ self)) eqn:H2;
        [|by apply elem_of_nil in H].
      apply list_elem_of_singleton in H as ->.
      apply bool_decide_eq_true in H1. split; [done|]. by rewrite H2.
  - intros [Hin H].
    apply orb_true_iff in H as [H|H]; [|by right; right; left].
    apply orb_true_iff in H as [H|H]; [|by right; left].
    apply andb_true_iff in H as [H Hign].
    apply orb_true_iff in H as [H|H]; apply String.eqb_eq in H as ->.
    + left. rewrite bool_decide_eq_true_2, Hign by done. simpl. left.
    + do 3 right. rewrite bool_decide_eq_true_2, Hign by done. simpl. left.
Qed.

Lemma sorted_keys_NoDup self keys :
  NoDup keys → NoDup (_sorted_keys self keys).
Proof.
  intros Hnd. rewrite sorted_keys_equation.
  pose proof (sorted_NoDup keys Hnd) as Hs.
  destruct (middle_key_special self) as [Hme Hmd].
  destruct (event_key_special self) as [Hee Hed].
  apply NoDup_app. split; [|split].
  - unfold epoch_first. case_match; [apply NoDup_singleton | apply NoDup_nil_2].
  - intros k Hk. apply epoch_first_elem in Hk as ->.
    rewrite !elem_of_app, !elem_of_filter_bool.
    intros [[_ H]|[[_ H]|H]]; [congruence..|].
    by apply dur_s_last_elem in H.
  - apply NoDup_app. split; [by apply NoDup_filter_bool|]. split.
    + intros k [_ Hm]%elem_of_filter_bool.
      rewrite elem_of_app, elem_of_filter_bool.
      intros [[_ Hev]|H].
      * apply middle_key_event_key in Hm. congruence.
      * apply dur_s_last_elem in H as ->. congruence.
    + apply NoDup_app. split; [by apply NoDup_filter_bool|]. split.
      * intros k [_ Hev]%elem_of_filter_bool H.
        apply dur_s_last_elem in H as ->. congruence.
      * unfold dur_s_last.
        case_match; [apply NoDup_singleton | apply NoDup_nil_2].
Qed.

(** Sorting the result again and keeping the keys of one of the two
    middle segments gives that segment back. *)
Lemma middle_of_sorted_keys self keys :
  List.filter (middle_key self) (sorted (_sorted_keys self keys))
  = List.filter (middle_key self) (sorted keys).
Proof.
  apply alphabetical_unique;
    try (apply alphabetical_filter, sorted_alphabetical).
  rewrite (filter_permutation _ _ _ (sorted_permutation _)).
  rewrite sorted_keys_equation, !List.filter_app.
  destruct (middle_key_special self) as [He Hd].
  rewrite (filter_bool_none _ (epoch_first self keys))
    by (by intros k ->%epoch_first_elem).
  rewrite (filter_bool_none _ (dur_s_last self keys))
    by (by intros k ->%dur_s_last_elem).
  rewrite (filter_bool_all _ (List.filter (middle_key self) _))
    by (by intros k [_ ?]%elem_of_filter_bool).
  rewrite (filter_bool_none _ (List.filter (event_key self) _)).
  - by rewrite app_nil_r.
  - intros k [_ Hev]%elem_of_filter_bool.
    destruct (middle_key self k) eqn:Hm; [|done].
    apply middle_key_event_key in Hm. congruence.
Qed.

Lemma events_of_sorted_keys self keys :
  List.filter (event_key self) (sorted (_sorted_keys self keys))
  = List.filter (event_key self) (sorted keys).
Proof.
  apply alphabetical_unique;
    try (apply alphabetical_filter, sorted_alphabetical).
  rewrite (filter_permutation _ _ _ (sorted_permutation _)).
  rewrite sorted_keys_equation, !List.filter_app.
  destruct (event_key_special self) as [He Hd].
  rewrite (filter_bool_none _ (epoch_first self keys))
    by (by intros k ->%epoch_first_elem).
  rewrite (filter_bool_none _ (dur_s_last self keys))
    by (by intros k ->%dur_s_last_elem).
  rewrite (filter_bool_all _ (List.filter (event_key self) _))
    by (by intros k [_ ?]%elem_of_filter_bool).
  rewrite (filter_bool_none _ (List.filter (middle_key self) _)).
  - by rewrite app_nil_r.
  - intros k [_ Hm]%elem_of_filter_bool. by apply middle_key_event_key.
Qed.

Lemma epoch_first_of_sorted_keys self keys :
  epoch_first self (_sorted_keys self keys) = epoch_first self keys.
Proof.
  unfold epoch_first.
  destruct (bool_decide ("epoch" ∉ keys_ignored_ self)) eqn:Hign;
    [|by rewrite !andb_false_r].
  rewrite !andb_true_r.
  rewrite (bool_decide_ext _ ("epoch" ∈ keys)); [done|].
  rewrite sorted_keys_elem_of. unfold kept_key. rewrite Hign.
  split; [by intros [? _] | done].
Qed.

Lemma dur_s_last_of_sorted_keys self keys :
  dur_s_last self (_sorted_keys self keys) = dur_s_last self keys.
Proof.
  unfold dur_s_last.
  destruct (bool_decide ("dur_s" ∉ keys_ignored_ self)) eqn:Hign;
    [|by rewrite !andb_false_r].
  rewrite !andb_true_r.
  rewrite (bool_decide_ext _ ("dur_s" ∈ keys)); [done|].
  rewrite sorted_keys_elem_of. unfold kept_key. rewrite Hign.
  split; [by intros [? _] | done].
Qed.

End Sorted_keys_facts.

(** X2. A key is in the result of [_sorted_keys] exactly when it is among
    the keys given, is not ignored, and ends neither in '_best' nor in
    '_batch_count' unless it starts with 'event_': 'train_batch_count'
    is dropped, and a key such as 'event_lr_best' is kept. *)
Theorem sorted_keys_membership (self : TrainReportCallback.t)
    (keys : list string) (key : string) :
  key ∈ TrainReportCallback._sorted_keys self keys
  ↔ key ∈ keys
    ∧ (key ∉ TrainReportCallback.keys_ignored_ self)
    ∧ (endswith key "_best" = false ∧ endswith key "_batch_count" = false
       ∨ startswith key "event_" = true).
Proof.
  rewrite sorted_keys_elem_of. unfold TrainReportCallback.kept_key.
  rewrite andb_true_iff, orb_true_iff, andb_true_iff, !negb_true_iff,
    bool_decide_eq_true.
  tauto.
Qed.

(** X3. Given keys without duplicates, as the keys of a history row are,
    [_sorted_keys] returns no key twice: its result is a rearrangement of
    the keys it keeps (those not ignored that end neither in '_best' nor
    in '_batch_count' unless they start with 'event_'), and no longer
    than the keys given. *)
Theorem sorted_keys_no_duplicates (self : TrainReportCallback.t)
    (keys : list string) :
  NoDup keys →
  NoDup (TrainReportCallback._sorted_keys self keys)
  ∧ Permutation (TrainReportCallback._sorted_keys self keys)
      (List.filter (TrainReportCallback.kept_key self) keys)
  ∧ (length (TrainReportCallback._sorted_keys self keys) ≤ length keys)%nat.
Proof.
  intros Hnd.
  assert (Permutation (TrainReportCallback._sorted_keys self keys)
            (List.filter (TrainReportCallback.kept_key self) keys)) as Hp.
  { apply NoDup_Permutation.
    - by apply sorted_keys_NoDup.
    - by apply NoDup_filter_bool.
    - intros k. by rewrite sorted_keys_elem_of, elem_of_filter_bool. }
  split; [by apply sorted_keys_NoDup|]. split; [done|].
  rewrite Hp. apply List.filter_length_le.
Qed.

Lemma sorted_keys_no_duplicates_sample :
  TrainReportCallback._sorted_keys
    {| TrainReportCallback.keys_ignored_ := {["lr"]} |}
    ["dur_s"; "event_cp"; "lr"; "valid_loss_best"; "train_batch_count";
     "train_loss"; "epoch"]
  = ["epoch"; "train_loss"; "event_cp"; "dur_s"]
  ∧ Permutation
      (TrainReportCallback._sorted_keys
         {| TrainReportCallback.keys_ignored_ := {["lr"]} |}
         ["dur_s"; "event_cp"; "lr"; "valid_loss_best"; "train_batch_count";
          "train_loss"; "epoch"])
      ["dur_s"; "event_cp"; "train_loss"; "epoch"].
Proof.
  split; [vm_compute; reflexivity|].
  destruct (sorted_keys_no_duplicates
              {| TrainReportCallback.keys_ignored_ := {["lr"]} |}
              ["dur_s"; "event_cp"; "lr"; "valid_loss_best";
               "train_batch_count"; "train_loss"; "epoch"])
    as (_ & Hkept & _).
  - apply (bool_decide_unpack _). vm_compute. exact I.
  - rewrite Hkept.
    assert (List.filter
              (TrainReportCallback.kept_key
                 {| TrainReportCallback.keys_ignored_ := {["lr"]} |})
              ["dur_s"; "event_cp"; "lr"; "valid_loss_best";
               "train_batch_count"; "train_loss"; "epoch"]
            = ["dur_s"; "event_cp"; "train_loss"; "epoch"]) as ->
      by (vm_compute; reflexivity).
    reflexivity.
Defined.

(** X4. The result of [_sorted_keys] does not depend on the order in
    which the keys are given: two rearrangements of the same keys are
    sorted to the same list. *)
Theorem sorted_keys_order_independent (self : TrainReportCallback.t)
    (keys keys' : list string) :
  Permutation keys keys' →
  TrainReportCallback._sorted_keys self keys
  = TrainReportCallback._sorted_keys self keys'.
Proof.
  intros Hp. rewrite !sorted_keys_equation.
  rewrite (sorted_permuted keys keys') by done.
  unfold TrainReportCallback.epoch_first, TrainReportCallback.dur_s_last.
  rewrite (bool_decide_ext _ ("epoch" ∈ keys')) by (by rewrite Hp).
  by rewrite (bool_decide_ext ("dur_s" ∈ keys) ("dur_s" ∈ keys'))
    by (by rewrite Hp).
Qed.

Lemma sorted_keys_order_independent_sample :
  TrainReportCallback._sorted_keys
    {| TrainReportCallback.keys_ignored_ := ∅ |} ["dur_s"; "epoch"; "loss"]
  = TrainReportCallback._sorted_keys
      {| TrainReportCallback.keys_ignored_ := ∅ |} ["epoch"; "dur_s"; "loss"].
Proof.
  apply sorted_keys_order_independent. apply perm_swap.
Defined.

(** X5. [_sorted_keys] is idempotent: sorting its result again, with the
    same ignored keys, changes nothing. *)
Theorem sorted_keys_idempotent (self : TrainReportCallback.t)
    (keys : list string) :
  TrainReportCallback._sorted_keys self
    (TrainReportCallback._sorted_keys self keys)
  = TrainReportCallback._sorted_keys self keys.
Proof.
  rewrite (sorted_keys_equation self
             (TrainReportCallback._sorted_keys self keys)).
  rewrite middle_of_sorted_keys, events_of_sorted_keys,
    epoch_first_of_sorted_keys, dur_s_last_of_sorted_keys.
  symmetry. apply sorted_keys_equation.
Qed.

(** ** [TrainReportCallback]: [initialize] and [on_epoch_end] *)

Section TrainReportCallback_facts.
Import TrainReportCallback.

Lemma sorted_keys_of_self_run keys (st : state object) (s : session.t) :
  sorted_keys_of_self keys (st, s)
  = match initialized (self st) with
    | Some attrs => (Ok (_sorted_keys attrs keys), (st, s))
    | None => (Raise (AttributeError "keys_ignored_"), (st, s))
    end.
Proof.
  unfold sorted_keys_of_self, mbind, M_bind, on_fst, gets. cbn beta iota.
  by destruct (initialized (self st)).
Qed.

(** The comprehension of [on_epoch_end] on an initialised callback: every
    call of [_sorted_keys] returns, and the state stays as it is. *)
Lemma report_items_run attrs keys items : ∀ kwargs (st : state object) s,
  initialized (self st) = Some attrs →
  for_in items
    (λ (kwargs : gmap string skorch.row_value) '(k, v),
       sorted_keys ← sorted_keys_of_self keys;
       if bool_decide (k ∈ sorted_keys)
       then mret (<[k := v]> kwargs) else mret kwargs)
    kwargs (st, s)
  = (Ok (fold_left
           (λ (kwargs : gmap string skorch.row_value) '(k, v),
              if bool_decide (k ∈ _sorted_keys attrs keys)
              then <[k := v]> kwargs else kwargs)
           items kwargs),
     (st, s)).
Proof.
  induction items as [|[k v] items IH]; intros kwargs st s Hinit; [done|].
  cbn [for_in fold_left]. unfold mbind at 1, M_bind at 1.
  unfold mbind at 1, M_bind at 1.
  rewrite sorted_keys_of_self_run, Hinit.
  destruct (bool_decide (k ∈ _sorted_keys attrs keys));
    unfold mret at 1, M_ret at 1; by apply IH.
Qed.

Lemma report_items_lookup (P : string → bool)
    (items : list (string * skorch.row_value)) k : ∀ kwargs,
  NoDup items.*1 →
  fold_left
    (λ (kwargs : gmap string skorch.row_value) '(k, v),
       if P k then <[k := v]> kwargs else kwargs)
    items kwargs !! k
  = match (list_to_map items : gmap string skorch.row_value) !! k with
    | Some v => if P k then Some v else kwargs !! k
    | None => kwargs !! k
    end.
Proof.
  induction items as [|[k' v] items IH]; intros kwargs Hnd; [done|].
  cbn [fmap list_fmap fst] in Hnd. apply NoDup_cons in Hnd as [Hk' Hnd].
  cbn [fold_left list_to_map foldr]. rewrite IH by done.
  destruct (decide (k' = k)) as [->|Hne].
  - rewrite lookup_insert_eq.
    rewrite (not_elem_of_list_to_map_1 _ k) by done.
    destruct (P k); [by rewrite lookup_insert_eq | done].
  - rewrite lookup_insert_ne by done.
    assert ((if P k' then <[k' := v]> kwargs else kwargs) !! k = kwargs !! k)
      as -> by (destruct (P k'); [by rewrite lookup_insert_ne | done]).
    done.
Qed.

End TrainReportCallback_facts.

(** X6. [initialize] outside a session of Ray Train returns [None] and
    sets nothing. Inside a session it returns the callback, with
    [first_iteration_] set to [True] and [keys_ignored_] to the set of
    the keys to ignore: empty for [None], the keys of a list, and for a
    string the one key it names, not its characters. *)
Theorem report_callback_initialize (st : state TrainReportCallback.object)
    (s : session.t) :
  (session.active s = false →
   TrainReportCallback.initialize (st, s) = (Ok None, (st, s)))
  ∧ (session.active s = true →
     let keys : gset string :=
       match TrainReportCallback.keys_ignored (self st) with
       | TrainReportCallback.KeysNone => ∅
       | TrainReportCallback.KeysStr key => {[ key ]}
       | TrainReportCallback.KeysList keys => list_to_set keys
       end in
     let self' :=
       {| TrainReportCallback.keys_ignored :=
            TrainReportCallback.keys_ignored (self st);
          TrainReportCallback.first_iteration_ := Some true;
          TrainReportCallback.initialized :=
            Some {| TrainReportCallback.keys_ignored_ := keys |} |} in
     TrainReportCallback.initialize (st, s)
     = (Ok (Some self'),
        ({| self := self'; net := net st; world := world st |}, s))).
Proof.
  unfold TrainReportCallback.initialize, session.is_in_train_session.
  split; intros Hactive.
  - unfold mbind, M_bind. by rewrite Hactive.
  - unfold mbind at 1, M_bind at 1. rewrite Hactive. cbn [negb].
    destruct st as [[arg first attrs] n w].
    cbv [mbind M_bind on_fst modify_self gets mret M_ret self net world
         TrainReportCallback.set_first_iteration_
         TrainReportCallback.set_keys_ignored_
         TrainReportCallback.keys_ignored TrainReportCallback.first_iteration_
         TrainReportCallback.initialized].
    destruct arg as [|key|keys]; cbn [list_to_set]; try done.
    by rewrite (right_id_L ∅ (∪)).
Qed.

Lemma report_callback_initialize_sample :
  (TrainReportCallback.initialize (sample_report_state, sample_session)).1
  = Ok (Some
      {| TrainReportCallback.keys_ignored := TrainReportCallback.KeysStr "lr";
         TrainReportCallback.first_iteration_ := Some true;
         TrainReportCallback.initialized :=
           Some {| TrainReportCallback.keys_ignored_ := {[ "lr" ]} |} |}).
Proof.
  rewrite (proj2 (report_callback_initialize sample_report_state
                    sample_session) eq_refl).
  reflexivity.
Defined.

(** X7. Inside a session, on an initialised callback and a history with
    an epoch, [on_epoch_end] returns [None] after one call of
    [train.report], and changes nothing else. The report holds exactly
    the entries of the last epoch row whose key [_sorted_keys] keeps: not
    ignored, and ending neither in '_best' nor in '_batch_count' unless
    starting with 'event_'. So skorch's 'train_batch_count' is not
    reported, while the batch rows of the epoch are, under 'batches',
    unless 'batches' is among the ignored keys. *)
Theorem report_callback_reports_kept_entries
    (st : state TrainReportCallback.object) (s : session.t)
    (attrs : TrainReportCallback.t) (hist : epoch_row) :
  session.active s = true →
  TrainReportCallback.initialized (self st) = Some attrs →
  last (history (net st)) = Some hist →
  ∃ kwargs,
    TrainReportCallback.on_epoch_end (st, s)
    = (Ok PNone,
       (st, {| session.active := true;
               session.reports := session.reports s ++ [kwargs] |}))
    ∧ (∀ k,
         kwargs !! k
         = if TrainReportCallback.kept_key attrs k
           then skorch.items hist !! k else None)
    ∧ (("batches" ∉ TrainReportCallback.keys_ignored_ attrs) →
       kwargs !! "batches" = Some (skorch.BatchRows (batches hist))).
Proof.
  intros Hactive Hinit Hlast.
  unfold TrainReportCallback.on_epoch_end, session.is_in_train_session.
  unfold mbind at 1, M_bind at 1. rewrite Hactive. cbn [negb].
  unfold mbind at 1, M_bind at 1, on_fst at 1, gets at 1. cbn beta iota.
  rewrite Hlast.
  unfold mbind at 1, M_bind at 1.
  rewrite (report_items_run attrs) by done.
  eexists. split; [unfold session.report, mbind, M_bind; by rewrite Hactive|].
  assert (∀ k,
    fold_left
      (λ (kwargs : gmap string skorch.row_value) '(k, v),
         if bool_decide
              (k ∈ TrainReportCallback._sorted_keys attrs
                     (map_to_list (skorch.items hist)).*1)
         then <[k := v]> kwargs else kwargs)
      (map_to_list (skorch.items hist)) ∅ !! k
    = if TrainReportCallback.kept_key attrs k
      then skorch.items hist !! k else None) as Hlookup.
  { intros k.
    rewrite (report_items_lookup
      (λ k, bool_decide
              (k ∈ TrainReportCallback._sorted_keys attrs
                     (map_to_list (skorch.items hist)).*1)))
      by apply NoDup_fst_map_to_list.
    rewrite list_to_map_to_list, lookup_empty.
    destruct (skorch.items hist !! k) as [v|] eqn:Hk;
      [|by destruct (TrainReportCallback.kept_key attrs k)].
    destruct (TrainReportCallback.kept_key attrs k) eqn:Hkept.
    - rewrite bool_decide_eq_true_2; [done|].
      apply sorted_keys_elem_of. split; [|done].
      apply list_elem_of_fmap. exists (k, v). split; [done|].
      by apply elem_of_map_to_list.
    - rewrite bool_decide_eq_false_2; [done|].
      rewrite sorted_keys_elem_of. intros [_ ?]. congruence. }
  split; [exact Hlookup|].
  intros Hbatches. rewrite Hlookup.
  unfold TrainReportCallback.kept_key.
  rewrite bool_decide_eq_true_2 by done.
  change (negb (endswith "batches" "_best")
          && negb (endswith "batches" "_batch_count")
          || startswith "batches" "event_")
    with true.
  cbn [andb]. unfold skorch.items. apply lookup_insert_eq.
Qed.

Lemma report_callback_reports_kept_entries_sample :
  ∃ kwargs,
    (TrainReportCallback.on_epoch_end (counting_state, sample_session)).1
    = Ok PNone
    ∧ session.reports
        (TrainReportCallback.on_epoch_end (counting_state, sample_session)).2.2
      = [] ++ [kwargs]
    ∧ kwargs !! "epoch" = Some (skorch.Value (PInt 1))
    ∧ kwargs !! "train_loss" = Some (skorch.Value (PInt 0))
    ∧ kwargs !! "train_batch_count" = None
    ∧ kwargs !! "batches" = Some (skorch.BatchRows [∅]).
Proof.
  destruct (report_callback_reports_kept_entries counting_state
              sample_session {| TrainReportCallback.keys_ignored_ := {[ "lr" ]} |}
              {| row :=
                   {["epoch" := PInt 1; "train_batch_count" := PInt 4;
                     "train_loss" := PInt 0]};
                 batches := [∅] |})
    as (kwargs & Hrun & Hlookup & Hbatches); [reflexivity..|].
  exists kwargs. rewrite Hrun. split; [reflexivity|]. split; [reflexivity|].
  split; [|split; [|split]].
  - rewrite Hlookup. vm_compute. reflexivity.
  - rewrite Hlookup. vm_compute. reflexivity.
  - rewrite Hlookup. vm_compute. reflexivity.
  - apply Hbatches. apply (bool_decide_unpack _). vm_compute. exact I.
Defined.

(** X8. When [on_epoch_end] reports nothing: outside a session it returns
    [None] at once; inside a session it raises on a history without an
    epoch, and raises [AttributeError] on a callback whose
    [keys_ignored_] is unset, as it is when [initialize] ran outside a
    session. In each case no call of [train.report] is made and nothing
    changes. *)
Theorem report_callback_reports_nothing
    (st : state TrainReportCallback.object) (s : session.t) :
  (session.active s = false →
   TrainReportCallback.on_epoch_end (st, s) = (Ok PNone, (st, s)))
  ∧ (session.active s = true →
     last (history (net st)) = None →
     ∃ e, TrainReportCallback.on_epoch_end (st, s) = (Raise e, (st, s)))
  ∧ (session.active s = true →
     is_Some (last (history (net st))) →
     TrainReportCallback.initialized (self st) = None →
     ∃ e,
       TrainReportCallback.on_epoch_end (st, s) = (Raise e, (st, s))
       ∧ exc_type e = "AttributeError")
  ∧ (session.active s = false →
     TrainReportCallback.initialized (self st) = None →
     TrainReportCallback.initialized
       (self (TrainReportCallback.initialize (st, s)).2.1) = None).
Proof.
  unfold TrainReportCallback.on_epoch_end, session.is_in_train_session.
  split; [|split; [|split]].
  - intros Hactive. unfold mbind, M_bind. by rewrite Hactive.
  - intros Hactive Hlast. unfold mbind at 1, M_bind at 1.
    rewrite Hactive. cbn [negb].
    unfold mbind at 1, M_bind at 1, on_fst at 1, gets at 1. cbn beta iota.
    rewrite Hlast. by eexists.
  - intros Hactive [hist Hlast] Hinit. unfold mbind at 1, M_bind at 1.
    rewrite Hactive. cbn [negb].
    unfold mbind at 1, M_bind at 1, on_fst at 1, gets at 1. cbn beta iota.
    rewrite Hlast.
    destruct (map_to_list (skorch.items hist)) as [|[k v] items] eqn:Hitems.
    { apply map_to_list_empty_iff in Hitems.
      apply (f_equal (λ m, m !! "batches")) in Hitems.
      unfold skorch.items in Hitems.
      by rewrite lookup_insert_eq, lookup_empty in Hitems. }
    cbn [for_in]. unfold mbind at 1, M_bind at 1.
    unfold mbind at 1, M_bind at 1. unfold mbind at 1, M_bind at 1.
    rewrite sorted_keys_of_self_run, Hinit. by eexists.
  - intros Hactive Hinit.
    unfold TrainReportCallback.initialize, session.is_in_train_session,
      mbind, M_bind.
    by rewrite Hactive.
Qed.

(** ** [EpochTimerS] *)

Lemma sorted_keys_dur_s_last (cb : TrainReportCallback.t) keys :
  "dur_s" ∈ keys →
  "dur_s" ∉ TrainReportCallback.keys_ignored_ cb →
  last (TrainReportCallback._sorted_keys cb keys) = Some "dur_s".
Proof.
  intros Hin Hign. rewrite sorted_keys_equation.
  unfold TrainReportCallback.dur_s_last.
  rewrite !bool_decide_eq_true_2 by done. cbn [andb].
  by rewrite !app_assoc, last_snoc.
Qed.

(** X9. With [epoch_start_time_] holding the reading [on_epoch_begin]
    took, [on_epoch_end] reads the clock once, returns [None], and
    writes the difference of the two readings under 'dur_s' into the last
    epoch row; the other entries of that row, its batch rows and the
    other epochs stay as they are, and 'dur', the key of skorch's own
    timer, is not written. 'dur_s' is then the key that a report
    callback not ignoring it sorts last. *)
Theorem epoch_timer_records_dur_s (st : state EpochTimerS.t)
    (start : float) (r : epoch_row) :
  EpochTimerS.epoch_start_time_ (self st) = Some start →
  last (history (net st)) = Some r →
  let dur := float_sub (clock (world st) (ticks (world st))) start in
  ∃ r',
    EpochTimerS.on_epoch_end st
    = (Ok PNone,
       {| self := self st;
          net :=
            with_history
              (<[pred (length (history (net st))) := r']> (history (net st)))
              (net st);
          world := with_ticks (S (ticks (world st))) (world st) |})
    ∧ row r' = <["dur_s" := PFloat dur]> (row r)
    ∧ batches r' = batches r
    ∧ row r' !! "dur" = row r !! "dur"
    ∧ ∀ cb : TrainReportCallback.t,
        ("dur_s" ∉ TrainReportCallback.keys_ignored_ cb) →
        last (TrainReportCallback._sorted_keys cb
                (map_to_list (skorch.items r')).*1)
        = Some "dur_s".
Proof.
  intros Hstart Hlast dur.
  exists {| row := <["dur_s" := PFloat dur]> (row r); batches := batches r |}.
  split; [|split; [done|split; [done|split]]].
  - unfold EpochTimerS.on_epoch_end, time.time, skorch.net_record,
      skorch.record.
    cbv [mbind M_bind gets modify_world modify_net lift mret M_ret].
    cbn [self net world]. rewrite Hstart.
    cbn [net history with_ticks]. by rewrite Hlast.
  - cbn [row]. by rewrite lookup_insert_ne.
  - intros cb Hign. apply sorted_keys_dur_s_last; [|done].
    apply list_elem_of_fmap. exists ("dur_s", skorch.Value (PFloat dur)).
    split; [done|]. apply elem_of_map_to_list.
    unfold skorch.items. cbn [row batches].
    rewrite lookup_insert_ne by done.
    by rewrite lookup_fmap, lookup_insert_eq.
Qed.

Lemma epoch_timer_records_dur_s_sample :
  ∃ r',
    (EpochTimerS.on_epoch_end
       (EpochTimerS.on_epoch_begin
          {| self := EpochTimerS.__init__; net := sample_net;
             world := sample_env |}).2).1
    = Ok PNone
    ∧ last (history
              (net (EpochTimerS.on_epoch_end
                      (EpochTimerS.on_epoch_begin
                         {| self := EpochTimerS.__init__; net := sample_net;
                            world := sample_env |}).2).2))
      = Some r'
    ∧ row r' !! "dur_s"
      = Some (PFloat (float_sub (clock sample_env 1) (clock sample_env 0))).
Proof.
  destruct (epoch_timer_records_dur_s
              (EpochTimerS.on_epoch_begin
                 {| self := EpochTimerS.__init__; net := sample_net;
                    world := sample_env |}).2
              (clock sample_env 0)
              {| row := {["epoch" := PInt 1]}; batches := [∅] |})
    as (r' & Hrun & Hrow & _); [reflexivity..|].
  exists r'. rewrite Hrun. split; [reflexivity|]. split; [reflexivity|].
  rewrite Hrow. apply lookup_insert_eq.
Defined.

(** X10. [on_epoch_end] fails without recording anything: when
    [epoch_start_time_] is still the [None] of the constructor, the
    subtraction raises; when the history has no epoch, skorch's [record]
    raises. Either way the clock has been read, and the callback and the
    net are as before. *)
Theorem epoch_timer_failures (st : state EpochTimerS.t) :
  (EpochTimerS.epoch_start_time_ (self st) = None →
   ∃ e,
     EpochTimerS.on_epoch_end st
     = (Raise e,
        {| self := self st; net := net st;
           world := with_ticks (S (ticks (world st))) (world st) |}))
  ∧ (is_Some (EpochTimerS.epoch_start_time_ (self st)) →
     history (net st) = [] →
     ∃ e,
       EpochTimerS.on_epoch_end st
       = (Raise e,
          {| self := self st; net := net st;
             world := with_ticks (S (ticks (world st))) (world st) |})).
Proof.
  unfold EpochTimerS.on_epoch_end, time.time, skorch.net_record,
    skorch.record.
  cbv [mbind M_bind gets modify_world modify_net lift mret M_ret raise].
  cbn [self net world]. split.
  - intros ->. by eexists.
  - intros [start ->] Hempty. cbn [net]. rewrite Hempty. by eexists.
Qed.

(** ** [PerformanceLogger]: stale durations and failures *)

Section PerformanceLogger_edges.
Import PerformanceLogger.

(** [on_batch_end] up to its second [record_batch]: the sum of the two
    copy durations is in the batch row when the forward duration is
    read. *)
Lemma on_batch_end_after_first (st : state t) x y batch :
  X_to_device_time_ (self st) = Some x →
  y_to_device_time_ (self st) = Some y →
  skorch.current_batch (history (net st)) = Some batch →
  on_batch_end st
  = (f ← getattr "forward_pass_time_" forward_pass_time_;
     skorch.net_record_batch "forward_pass_dur_s" (PFloat f);;
     b ← getattr "backward_pass_time_" backward_pass_time_;
     skorch.net_record_batch "backward_pass_dur_s" (PFloat b);;
     mret PNone)
      {| self := self st;
         net :=
           with_history
             (skorch.set_current_batch
                (<["to_device_dur_s" := PFloat (float_add x y)]> batch)
                (history (net st)))
             (net st);
         world := world st |}.
Proof.
  intros HX Hy Hbatch. unfold on_batch_end.
  unfold mbind at 1, M_bind at 1, getattr at 1.
  unfold mbind at 1, M_bind at 1, gets at 1. rewrite HX.
  unfold mret at 1, M_ret at 1.
  unfold mbind at 1, M_bind at 1, getattr at 1.
  unfold mbind at 1, M_bind at 1, gets at 1. rewrite Hy.
  unfold mret at 1, M_ret at 1.
  unfold mbind at 1, M_bind at 1, skorch.net_record_batch at 1.
  unfold mbind at 1, M_bind at 1, gets at 1.
  unfold mbind at 1, M_bind at 1, lift at 1.
  rewrite (current_batch_record_batch _ _ _ _ Hbatch).
  reflexivity.
Qed.

End PerformanceLogger_edges.

(** X11. A duration is kept until its pair of hooks runs again. In a
    batch without a backward pass, as a validation batch is, the other
    three pairs of hooks measure as usual, and [on_batch_end] records
    under 'backward_pass_dur_s' the duration [backward_pass_time_] held
    before the batch: that of the last batch that had a backward pass. *)
Theorem performance_logger_stale_backward_duration
    (hooks : list PerformanceLogger.hook) (st : state PerformanceLogger.t)
    (iX jX iy jy iF jF : nat) (stale : float) (batch : gmap string pyval) :
  NoDup hooks →
  hooks !! iX = Some PerformanceLogger.X_to_device_begin →
  hooks !! jX = Some PerformanceLogger.X_to_device_end → iX < jX →
  hooks !! iy = Some PerformanceLogger.y_to_device_begin →
  hooks !! jy = Some PerformanceLogger.y_to_device_end → iy < jy →
  hooks !! iF = Some PerformanceLogger.forward_pass_begin →
  hooks !! jF = Some PerformanceLogger.forward_pass_end → iF < jF →
  PerformanceLogger.backward_pass_begin ∉ hooks →
  PerformanceLogger.backward_pass_end ∉ hooks →
  PerformanceLogger.backward_pass_time_ (self st) = Some stale →
  skorch.current_batch (history (net st)) = Some batch →
  let c := λ k, clock (world st) (ticks (world st) + k) in
  let X_dur := float_sub (c jX) (c iX) in
  let y_dur := float_sub (c jy) (c iy) in
  let forward_dur := float_sub (c jF) (c iF) in
  PerformanceLogger.run_batch hooks st
  = (Ok PNone,
     {| self :=
          {| PerformanceLogger.forward_pass_time_ := Some forward_dur;
             PerformanceLogger.backward_pass_time_ := Some stale;
             PerformanceLogger.X_to_device_time_ := Some X_dur;
             PerformanceLogger.y_to_device_time_ := Some y_dur |};
        net :=
          with_history
            (skorch.set_current_batch
               (<["backward_pass_dur_s" := PFloat stale]>
                  (<["forward_pass_dur_s" := PFloat forward_dur]>
                     (<["to_device_dur_s" := PFloat (float_add X_dur y_dur)]>
                        batch)))
               (history (net st)))
            (net st);
        world := with_ticks (ticks (world st) + length hooks) (world st) |}).
Proof.
  intros Hnd HiX HjX HX Hiy Hjy Hy HiF HjF HF Hb He Hstale Hbatch c Xd yd Fd.
  unfold PerformanceLogger.run_batch.
  destruct (notify_all hooks st PNone (Some Fd) (Some stale) (Some Xd)
              (Some yd)) as [r Hr]; try (by apply field_after_pair).
  { rewrite Hstale. by apply field_after_none. }
  rewrite (bind_ok _ _ _ _ _ Hr).
  by erewrite on_batch_end_records.
Qed.

Lemma performance_logger_stale_backward_duration_sample :
  fst (PerformanceLogger.run_batch
         [PerformanceLogger.X_to_device_begin;
          PerformanceLogger.X_to_device_end;
          PerformanceLogger.y_to_device_begin;
          PerformanceLogger.y_to_device_end;
          PerformanceLogger.forward_pass_begin;
          PerformanceLogger.forward_pass_end]
         {| self :=
              PerformanceLogger.set_backward_pass_time_ (S754_zero false)
                PerformanceLogger.__init__;
            net := sample_net; world := sample_env |})
  = Ok PNone.
Proof.
  rewrite (performance_logger_stale_backward_duration _ _ 0 1 2 3 4 5
             (S754_zero false) ∅);
    [reflexivity | | reflexivity | reflexivity | lia | reflexivity
     | reflexivity | lia | reflexivity | reflexivity | lia | | | reflexivity
     | reflexivity].
  - apply (bool_decide_unpack _). vm_compute. exact I.
  - apply (bool_decide_unpack _). vm_compute. exact I.
  - apply (bool_decide_unpack _). vm_compute. exact I.
Defined.

(** X12. [on_batch_end] is not all or nothing. It raises
    [AttributeError], recording nothing, when a copy duration is unset.
    With both copy durations set but [forward_pass_time_] unset, as on a
    callback that has seen no forward pass yet, it raises
    [AttributeError] after 'to_device_dur_s' has been written to the
    batch row. And it raises, changing nothing, when the history has no
    batch row to write to. *)
Theorem performance_logger_on_batch_end_failures
    (st : state PerformanceLogger.t) :
  (PerformanceLogger.X_to_device_time_ (self st) = None
   ∨ PerformanceLogger.y_to_device_time_ (self st) = None →
   ∃ e,
     PerformanceLogger.on_batch_end st = (Raise e, st)
     ∧ exc_type e = "AttributeError")
  ∧ (∀ x y batch,
       PerformanceLogger.X_to_device_time_ (self st) = Some x →
       PerformanceLogger.y_to_device_time_ (self st) = Some y →
       skorch.current_batch (history (net st)) = Some batch →
       PerformanceLogger.forward_pass_time_ (self st) = None →
       ∃ e,
         PerformanceLogger.on_batch_end st
         = (Raise e,
            {| self := self st;
               net :=
                 with_history
                   (skorch.set_current_batch
                      (<["to_device_dur_s" := PFloat (float_add x y)]> batch)
                      (history (net st)))
                   (net st);
               world := world st |})
         ∧ exc_type e = "AttributeError")
  ∧ (∀ x y,
       PerformanceLogger.X_to_device_time_ (self st) = Some x →
       PerformanceLogger.y_to_device_time_ (self st) = Some y →
       skorch.current_batch (history (net st)) = None →
       ∃ e, PerformanceLogger.on_batch_end st = (Raise e, st)).
Proof.
  split; [|split].
  - intros Hunset. unfold PerformanceLogger.on_batch_end.
    unfold mbind at 1, M_bind at 1, PerformanceLogger.getattr at 1.
    unfold mbind at 1, M_bind at 1, gets at 1.
    destruct (PerformanceLogger.X_to_device_time_ (self st)) as [x|];
      [|by eexists].
    destruct Hunset as [[=]|Hy].
    unfold mret at 1, M_ret at 1.
    unfold mbind at 1, M_bind at 1, PerformanceLogger.getattr at 1.
    unfold mbind at 1, M_bind at 1, gets at 1. rewrite Hy. by eexists.
  - intros x y batch HX Hy Hbatch HF.
    rewrite (on_batch_end_after_first st x y batch) by done.
    unfold mbind at 1, M_bind at 1, PerformanceLogger.getattr at 1.
    unfold mbind at 1, M_bind at 1, gets at 1. cbn [self]. rewrite HF.
    by eexists.
  - intros x y HX Hy Hbatch. unfold PerformanceLogger.on_batch_end.
    unfold mbind at 1, M_bind at 1, PerformanceLogger.getattr at 1.
    unfold mbind at 1, M_bind at 1, gets at 1. rewrite HX.
    unfold mret at 1, M_ret at 1.
    unfold mbind at 1, M_bind at 1, PerformanceLogger.getattr at 1.
    unfold mbind at 1, M_bind at 1, gets at 1. rewrite Hy.
    unfold mret at 1, M_ret at 1.
    unfold mbind at 1, M_bind at 1, skorch.net_record_batch at 1.
    unfold mbind at 1, M_bind at 1, gets at 1.
    unfold mbind at 1, M_bind at 1, lift at 1.
    revert Hbatch. unfold skorch.current_batch, skorch.record_batch.
    destruct (last (history (net st))) as [epoch|]; cbn [mbind option_bind];
      [|by eexists].
    intros ->. by eexists.
Qed.

(** ** [PytorchProfilerLogger._trace_handler]: file names and failures *)

Lemma numeral_pretty_N_go (x : N) : ∀ s,
  numeral s = true → numeral (pretty_N_go x s) = true.
Proof.
  induction (N.lt_wf_0 x) as [x _ IH]; intros s Hs.
  assert (x = 0 ∨ 0 < x)%N as [->|Hx] by lia.
  - by rewrite pretty_N_go_0.
  - rewrite pretty_N_go_step by done. apply IH; [by apply N.div_lt|].
    cbn [numeral]. rewrite Hs, andb_true_r.
    unfold pretty_N_char. by repeat case_match.
Qed.

Lemma numeral_app s1 s2 :
  numeral (s1 +:+ s2) = numeral s1 && numeral s2.
Proof.
  induction s1 as [|a s1 IH]; [done|].
  change (String a s1 +:+ s2) with (String a (s1 +:+ s2)).
  cbn [numeral]. by rewrite IH, andb_assoc.
Qed.

Lemma numeral_pretty_Z (z : Z) : numeral (pretty z) = true.
Proof.
  assert (∀ p : positive, numeral (pretty p) = true) as Hpos.
  { intros p. unfold pretty, pretty_positive, pretty, pretty_N.
    case_decide; [done|]. by apply numeral_pretty_N_go. }
  destruct z as [|p|p]; [done | apply Hpos |].
  change (pretty (Z.neg p)) with ("-" +:+ pretty p).
  by rewrite numeral_app, Hpos.
Qed.

(** Two strings that agree after a numeral and a separator agree on the
    numeral and on the rest. *)
Lemma numeral_split (c : Ascii.ascii) s1 : ∀ s2 t1 t2,
  numeral s1 = true → numeral s2 = true →
  numeral (String c "") = false →
  s1 +:+ String c "" +:+ t1 = s2 +:+ String c "" +:+ t2 → s1 = s2 ∧ t1 = t2.
Proof.
  assert (∀ a s, numeral (String a s) = true →
    numeral (String c "") = false → a ≠ c) as Hne.
  { intros a s Ha Hc ->. cbn [numeral] in Ha, Hc.
    rewrite andb_true_r in Hc. by rewrite Hc in Ha. }
  intros s2 t1 t2.
  change (String c "" +:+ t1) with (String c t1).
  change (String c "" +:+ t2) with (String c t2).
  revert s2 t1 t2.
  induction s1 as [|a s1 IH]; intros [|b s2] t1 t2 H1 H2 Hc.
  - by intros [= ->].
  - change ("" +:+ String c t1) with (String c t1).
    change (String b s2 +:+ String c t2) with (String b (s2 +:+ String c t2)).
    intros [= <- _]. by destruct (Hne c s2 H2 Hc).
  - change ("" +:+ String c t2) with (String c t2).
    change (String a s1 +:+ String c t1) with (String a (s1 +:+ String c t1)).
    intros [= -> _]. by destruct (Hne c s1 H1 Hc).
  - change (String a s1 +:+ String c t1) with (String a (s1 +:+ String c t1)).
    change (String b s2 +:+ String c t2) with (String b (s2 +:+ String c t2)).
    intros [= -> Heq].
    cbn [numeral] in H1, H2.
    apply andb_true_iff in H1 as [_ H1], H2 as [_ H2].
    destruct (IH _ _ _ H1 H2 Hc Heq) as [-> ->]. done.
Qed.

(** X13. The name of the trace file tells the worker and the epoch: two
    traces get the same file name, or the same path, only when they come
    from the same rank and the same epoch, so no worker overwrites the
    trace of another worker or of another epoch. *)
Theorem trace_filename_injective (rank epoch rank' epoch' : Z) :
  (PytorchProfilerLogger.trace_filename rank epoch
   = PytorchProfilerLogger.trace_filename rank' epoch'
   ↔ rank = rank' ∧ epoch = epoch')
  ∧ (os.path_join PytorchProfilerLogger.dir_name
       (PytorchProfilerLogger.trace_filename rank epoch)
     = os.path_join PytorchProfilerLogger.dir_name
         (PytorchProfilerLogger.trace_filename rank' epoch')
     ↔ rank = rank' ∧ epoch = epoch').
Proof.
  assert (PytorchProfilerLogger.trace_filename rank epoch
          = PytorchProfilerLogger.trace_filename rank' epoch'
          → rank = rank' ∧ epoch = epoch') as Hinj.
  { unfold PytorchProfilerLogger.trace_filename. intros Heq.
    apply (inj (String.app "worker_")) in Heq.
    apply numeral_split in Heq as [Hrank Heq];
      [|apply numeral_pretty_Z..|reflexivity].
    change ".pt.trace.json" with ("." +:+ "pt.trace.json") in Heq.
    apply numeral_split in Heq as [Hepoch _];
      [|apply numeral_pretty_Z..|reflexivity].
    split; by apply (inj pretty). }
  split; (split; [|by intros [-> ->]]); [done|].
  unfold os.path_join. intros Heq.
  apply (inj (String.app _)), (inj (String.app _)) in Heq. by apply Hinj.
Qed.

(** X14. How [_trace_handler] fails once its directory is there or can
    be made. Without [epoch_], it raises [AttributeError] before any
    export, the directory having been made. An exception of the export
    that is not a [RuntimeError] is passed on, and nothing is appended.
    When the export succeeds but [profiler_traces_] is unset, as before
    the first epoch begins, it raises [AttributeError] after the trace
    file has been written. The net is never touched. *)
Theorem trace_handler_failures (p : PytorchProfilerLogger.profile)
    (st : state PytorchProfilerLogger.t) :
  PytorchProfilerLogger.dir_name ∈ dirs (world st)
    ∨ makedirs_fails (world st) = false →
  (PytorchProfilerLogger.epoch_ (self st) = None →
   ∃ e,
     PytorchProfilerLogger._trace_handler p st
     = (Raise e,
        {| self := self st; net := net st;
           world := with_trace_dir (world st) |})
     ∧ exc_type e = "AttributeError")
  ∧ (∀ epoch e,
       PytorchProfilerLogger.epoch_ (self st) = Some epoch →
       PytorchProfilerLogger.export_chrome_trace p = Raise e →
       isinstance e "RuntimeError" = false →
       PytorchProfilerLogger._trace_handler p st
       = (Raise e,
          {| self := self st; net := net st;
             world := with_trace_dir (world st) |}))
  ∧ (∀ epoch data,
       PytorchProfilerLogger.epoch_ (self st) = Some epoch →
       PytorchProfilerLogger.export_chrome_trace p = Ok data →
       PytorchProfilerLogger.profiler_traces_ (self st) = None →
       ∃ e,
         PytorchProfilerLogger._trace_handler p st
         = (Raise e,
            {| self := self st; net := net st;
               world :=
                 with_files
                   (<[trace_path (world st) epoch := data]> (files (world st)))
                   (with_trace_dir (world st)) |})
         ∧ exc_type e = "AttributeError").
Proof.
  intros Hdir.
  destruct st as [s n w]; simpl in *.
  unfold PytorchProfilerLogger._trace_handler, with_trace_dir.
  unfold os.path_isdir, os.makedirs, train.world_rank, os.read_file,
    PytorchProfilerLogger.getattr, PytorchProfilerLogger.p_export_chrome_trace,
    try_except, gets, lift, raise, modify_world, modify_self,
    mbind, M_bind, mret, M_ret; simpl.
  split; [|split].
  - intros Hepoch.
    case_bool_decide as Hin; simpl.
    + rewrite Hepoch. by eexists.
    + destruct Hdir as [?| ->]; [done|]. simpl. rewrite Hepoch. by eexists.
  - intros epoch e Hepoch Hexp He.
    case_bool_decide as Hin; simpl.
    + rewrite Hepoch, Hexp; simpl. by rewrite He.
    + destruct Hdir as [?| ->]; [done|]. simpl.
      rewrite Hepoch, Hexp; simpl. by rewrite He.
  - intros epoch data Hepoch Hexp Htr.
    case_bool_decide as Hin; simpl.
    + rewrite Hepoch, Hexp; simpl.
      change (os.path_join _ _) with (trace_path w epoch).
      rewrite lookup_insert_eq; simpl. rewrite Htr. by eexists.
    + destruct Hdir as [?| ->]; [done|]. simpl.
      rewrite Hepoch, Hexp; simpl.
      change (os.path_join _ _) with (trace_path w epoch).
      rewrite lookup_insert_eq; simpl. rewrite Htr. by eexists.
Qed.

Lemma trace_handler_failures_sample :
  ∃ e,
    (PytorchProfilerLogger._trace_handler sample_profile
       {| self :=
            {| PytorchProfilerLogger.epoch_ := Some 0%Z;
               PytorchProfilerLogger.profiler_traces_ := None |};
          net := sample_net; world := sample_env |}).1
    = Raise e
    ∧ exc_type e = "AttributeError".
Proof.
  destruct (trace_handler_failures sample_profile
    {| self :=
         {| PytorchProfilerLogger.epoch_ := Some 0%Z;
            PytorchProfilerLogger.profiler_traces_ := None |};
       net := sample_net; world := sample_env |}) as (_ & _ & Hunset);
    [by right|].
  destruct (Hunset 0%Z "{}") as (e & Hrun & He); [reflexivity..|].
  exists e. by rewrite Hrun.
Defined.

(** ** [TrainCheckpoint]: what a save and a load touch, and the round
       trip *)

Section TrainCheckpoint_round_trip.
Import TrainCheckpoint.

(** [on_train_begin] on a checkpoint that has 'epoch' and '_keys'. *)
Lemma on_train_begin_run (st : state t) c epoch keys :
  load_checkpoint (self st) = true →
  loaded_checkpoint (world st) = Some c →
  ck_epoch c = Some epoch →
  ck_keys c = Some keys →
  ∃ params new,
    on_train_begin st
    = (Ok PNone,
       {| self := self st;
          net :=
            with_load_params_calls
              (load_params_calls (net st) ++ [list_to_map params]) (net st);
          world :=
            with_loaded_checkpoint (Some (without_keys (without_epoch c)))
              (with_sink_calls
                 (sink_calls (world st)
                  ++ [(CheckpointFound, verbose (net st));
                      (LoadedCheckpoint (dict_keys params) epoch,
                       verbose (net st))])
                 (with_heap (heap (world st) ++ new) (world st))) |})
    ∧ (∀ k, (k ∉ keys ∨ ck_data c !! k = None) → dict_get k params = None)
    ∧ (∀ k v, k ∈ keys → ck_data c !! k = Some v →
         ∃ f, dict_get k params = Some f
              ∧ (heap (world st) ++ new) !! f = Some (wrapped k v)).
Proof.
  intros Hload Hc Hepoch Hkeys.
  assert (checkpoint_nonempty c = true) as Hnonempty.
  { unfold checkpoint_nonempty, checkpoint_keys. by rewrite Hepoch. }
  unfold on_train_begin.
  unfold mbind at 1, M_bind at 1, gets at 1. rewrite Hload. cbn [negb].
  unfold mbind at 1, M_bind at 1, train.load_checkpoint at 1, gets at 1.
  rewrite Hc, Hnonempty. cbn [negb].
  unfold mbind at 1, M_bind at 1, gets at 1.
  unfold mbind at 1, M_bind at 1, skorch._sink at 1, modify_world at 1.
  rewrite Hepoch.
  unfold mbind at 1, M_bind at 1, train.popped at 1, modify_world at 1.
  cbn [without_epoch ck_keys ck_data]. rewrite Hkeys.
  unfold mbind at 1, M_bind at 1, train.popped at 1, modify_world at 1.
  cbn [without_keys without_epoch ck_data ck_epoch ck_keys].
  unfold mbind at 1, M_bind at 1.
  match goal with
  | |- context [for_each _ _ _ ?st1] =>
      destruct (wrap_items_run keys (map_to_list (ck_data c)) [] st1
                  (NoDup_fst_map_to_list _))
        as (params & new & Hrun & Hother & Hitems);
      rewrite Hrun
  end.
  cbv [mbind M_bind modify_net gets skorch._sink modify_world mret M_ret].
  cbn [fst snd net world self with_buffers].
  exists params, new. split; [|split].
  - do 2 f_equal. destruct st as [s n []]. cbn.
    unfold with_sink_calls, with_heap, with_loaded_checkpoint. cbn.
    by rewrite <- app_assoc.
  - intros k Hk. rewrite Hother; [done|].
    destruct Hk as [Hk|Hk]; [by right|left].
    intros Hin. apply list_elem_of_fmap in Hin as ([k' v] & -> & Hin).
    apply elem_of_map_to_list in Hin. cbn [fst] in Hk. congruence.
  - intros k v Hk Hv. apply elem_of_map_to_list in Hv.
    destruct (Hitems k v Hv Hk) as (f & Hf & Hheap).
    exists f. split; [done|].
    cbn [world with_buffers heap with_heap with_sink_calls
         with_loaded_checkpoint] in Hheap.
    exact Hheap.
Qed.

Lemma targets_kind self kind f_name log_name :
  (kind, f_name, log_name) ∈ targets self →
  kind = (if String.eqb f_name "f_history" then StringIO else BytesIO).
Proof.
  unfold targets. rewrite !elem_of_app.
  intros [H|[H|[H|H]]]; revert H; case_match;
    rewrite ?elem_of_nil, ?list_elem_of_singleton; try done;
    by intros [= -> -> ->].
Qed.

End TrainCheckpoint_round_trip.

(** X15. Round trip. Let [save_model] return on one worker, and let
    [on_train_begin] run on a worker that loads checkpoints and to which
    [train.load_checkpoint()] gives the checkpoint just saved. Then
    [on_train_begin] returns, never the [ValueError] of an invalid
    checkpoint, and calls [net.load_params] once: for every target the
    net could save, the call gets under the target's key an io object of
    the class the target was saved to, holding what the net wrote; a
    target whose save failed, and any other key, is not passed. *)
Theorem checkpoint_round_trip (st st1 st2 : state TrainCheckpoint.t)
    (ck : checkpoint) :
  TrainCheckpoint.save_model st = (Ok PNone, st1) →
  last (saved_checkpoints (world st1)) = Some ck →
  TrainCheckpoint.load_checkpoint (self st2) = true →
  loaded_checkpoint (world st2) = Some ck →
  ∃ args st2',
    TrainCheckpoint.on_train_begin st2 = (Ok PNone, st2')
    ∧ load_params_calls (net st2') = load_params_calls (net st2) ++ [args]
    ∧ (∀ kind f_name log_name,
         (kind, f_name, log_name) ∈ targets (self st) →
         match save_params (net st) f_name with
         | Ok content =>
             ∃ f,
               args !! f_name = Some f
               ∧ heap (world st2') !! f
                 = Some {| io_class := kind; getvalue := content |}
         | Raise _ => args !! f_name = None
         end)
    ∧ (∀ k, is_Some (args !! k) → k ∈ names (targets (self st))).
Proof.
  intros Hsave Hck Hload Hloaded.
  destruct (save_model_ok st st1 Hsave)
    as (h' & s' & params & r & epoch & Hfold & _ & _ & ->).
  cbn [world saved_checkpoints with_saved_checkpoints
       with_loaded_checkpoint] in Hck.
  rewrite last_snoc in Hck. injection Hck as <-.
  destruct (targets_names (self st)) as [Hnd Hfilter].
  destruct (save_targets_spec (net st) (targets (self st)) _ _ [] _ _ _
              Hnd Hfold) as (Hkeys & _ & _ & _ & Htargets).
  cbn [dict_keys map app] in Hkeys.
  destruct (on_train_begin_run st2 _ epoch (names (targets (self st)))
              Hload Hloaded)
    as (loaded & new & Hrun & Hother & Hitems).
  { done. }
  { cbn [checkpoint_of ck_keys]. by rewrite Hkeys, Hfilter. }
  eexists _, _. split; [exact Hrun|]. split; [done|].
  cbn [world heap with_sink_calls with_heap with_loaded_checkpoint].
  assert (∀ k,
    TrainCheckpoint.getvalues (world (with_buffers h' s' st)) params !! k
    = match dict_get k params with
      | Some (Some f) => Some (io.value_of (world (with_buffers h' s' st)) f)
      | _ => None
      end) as Hdata.
  { intros k. apply getvalues_lookup. by rewrite Hkeys. }
  split.
  - intros kind f_name log_name Hin.
    specialize (Htargets _ _ _ Hin).
    assert (f_name ∈ names (targets (self st))) as Hname.
    { apply list_elem_of_fmap. by exists (kind, f_name, log_name). }
    rewrite list_to_map_dict_get.
    destruct (save_params (net st) f_name) as [content|e].
    + destruct Htargets as (addr & Hget & _ & Haddr).
      destruct (Hitems f_name content Hname) as (f & Hf & Hheap).
      { cbn [checkpoint_of ck_data]. rewrite Hdata, Hget.
        unfold io.value_of. cbn [world with_buffers heap with_heap].
        by rewrite Haddr. }
      exists f. split; [done|]. rewrite Hheap. unfold wrapped.
      by rewrite <- (targets_kind _ _ _ _ Hin).
    + destruct Htargets as (Hget & _).
      apply Hother. right. cbn [checkpoint_of ck_data].
      by rewrite Hdata, Hget.
  - intros k [f Hf]. rewrite list_to_map_dict_get in Hf.
    destruct (decide (k ∈ names (targets (self st)))) as [|Hk]; [done|].
    rewrite Hother in Hf by (by left). done.
Qed.

Lemma checkpoint_round_trip_sample :
  ∃ (args : gmap string nat) st2',
    TrainCheckpoint.on_train_begin
      {| self := TrainCheckpoint.__init__; net := sample_net;
         world :=
           {| heap := []; sink_calls := [];
              loaded_checkpoint :=
                last (saved_checkpoints
                        (world (TrainCheckpoint.save_model failing_state).2));
              saved_checkpoints := []; world_rank := 1; dirs := ∅;
              files := ∅; makedirs_fails := false;
              clock := λ n, S754_zero false; ticks := 0 |} |}
    = (Ok PNone, st2')
    ∧ (∃ f, args !! "f_module" = Some f
            ∧ heap (world st2') !! f
              = Some {| io_class := BytesIO; getvalue := "<f_module>" |})
    ∧ args !! "f_optimizer" = None.
Proof.
  destruct (last (saved_checkpoints
                    (world (TrainCheckpoint.save_model failing_state).2)))
    as [ck|] eqn:Hck; [|by vm_compute in Hck].
  destruct (checkpoint_round_trip failing_state
              (TrainCheckpoint.save_model failing_state).2
              {| self := TrainCheckpoint.__init__; net := sample_net;
                 world :=
                   {| heap := []; sink_calls := [];
                      loaded_checkpoint := Some ck;
                      saved_checkpoints := []; world_rank := 1; dirs := ∅;
                      files := ∅; makedirs_fails := false;
                      clock := λ n, S754_zero false; ticks := 0 |} |}
              ck)
    as (args & st2' & Hrun & _ & Htargets & _); [|done..|].
  { rewrite (surjective_pairing (TrainCheckpoint.save_model failing_state))
      at 1.
    assert ((TrainCheckpoint.save_model failing_state).1 = Ok PNone) as ->
      by (vm_compute; reflexivity).
    reflexivity. }
  exists args, st2'. split; [exact Hrun|]. split.
  - apply (Htargets BytesIO "f_module" "module state").
    cbn. rewrite !elem_of_cons. tauto.
  - apply (Htargets BytesIO "f_optimizer" "optimizer state").
    cbn. rewrite !elem_of_cons. tauto.
Defined.

(** X16. Whatever its outcome, [save_model] leaves the callback, the net
    with its history and the files as they were; the io objects that
    existed keep their place and contents, and the sink calls made before
    stay. It hands a checkpoint to [train.save_checkpoint] exactly when
    it returns, and then exactly one, which is from then on the
    checkpoint [train.load_checkpoint()] gives; a call that raises hands
    over nothing and leaves the checkpoint to load as it was. *)
Theorem save_model_touches_only_buffers (st : state TrainCheckpoint.t) :
  self (TrainCheckpoint.save_model st).2 = self st
  ∧ net (TrainCheckpoint.save_model st).2 = net st
  ∧ files (world (TrainCheckpoint.save_model st).2) = files (world st)
  ∧ (∃ new,
       heap (world (TrainCheckpoint.save_model st).2)
       = heap (world st) ++ new)
  ∧ (∃ extra,
       sink_calls (world (TrainCheckpoint.save_model st).2)
       = sink_calls (world st) ++ extra)
  ∧ (if is_ok (TrainCheckpoint.save_model st).1
     then ∃ ck,
            saved_checkpoints (world (TrainCheckpoint.save_model st).2)
            = saved_checkpoints (world st) ++ [ck]
            ∧ loaded_checkpoint (world (TrainCheckpoint.save_model st).2)
              = Some ck
     else saved_checkpoints (world (TrainCheckpoint.save_model st).2)
          = saved_checkpoints (world st)
          ∧ loaded_checkpoint (world (TrainCheckpoint.save_model st).2)
            = loaded_checkpoint (world st)).
Proof.
  destruct (targets_names (self st)) as [Hnd _].
  destruct (fold_left (save_target (net st)) (targets (self st))
              (heap (world st), sink_calls (world st), []))
    as [[h' s'] params] eqn:Hfold.
  destruct (save_targets_spec (net st) (targets (self st)) _ _ [] _ _ _
              Hnd Hfold) as (_ & [new ->] & [extra ->] & _).
  destruct (truthy (TrainCheckpoint.f_pickle (self st))) eqn:Hpickle.
  - rewrite save_model_pickle, Hfold by done. cbn.
    repeat split; try done.
    + eexists. by rewrite <- app_assoc.
    + by eexists.
  - rewrite save_model_run, Hfold by done.
    destruct (last (history (net st))) as [r|];
      [destruct (row r !! "epoch") as [epoch|]|]; cbn;
      repeat split; try done; by eexists.
Qed.

Lemma names_targets_elem (self : TrainCheckpoint.t) k :
  k ∈ names (targets self)
  ↔ (k = "f_criterion" ∧ is_Some (TrainCheckpoint.f_criterion self))
    ∨ (k = "f_optimizer" ∧ is_Some (TrainCheckpoint.f_optimizer self))
    ∨ (k = "f_module" ∧ is_Some (TrainCheckpoint.f_params self))
    ∨ (k = "f_history" ∧ TrainCheckpoint.f_history self = Some true).
Proof.
  unfold names, targets. rewrite !map_app, !elem_of_app.
  assert (∀ (o : flag) (target : io_kind * string * string),
    k ∈ map (λ target : io_kind * string * string, target.1.2)
          (if o is Some _ then [target] else [])
    ↔ k = target.1.2 ∧ is_Some o) as Hflag.
  { intros [b|] target; cbn [map].
    - rewrite list_elem_of_singleton. split; [by intros ->|by intros [-> _]].
    - rewrite elem_of_nil. split; [done|]. by intros [_ [? [=]]]. }
  rewrite !Hflag. cbn [fst snd].
  assert (k ∈ map (λ target : io_kind * string * string, target.1.2)
                (if truthy (TrainCheckpoint.f_history self)
                 then [(StringIO, "f_history", "history")] else [])
          ↔ k = "f_history" ∧ TrainCheckpoint.f_history self = Some true)
    as ->; [|done].
  destruct (TrainCheckpoint.f_history self) as [[]|]; cbn [truthy map].
  - rewrite list_elem_of_singleton. split; [by intros ->|by intros [-> _]].
  - rewrite elem_of_nil. split; [done|]. by intros [_ [=]].
  - rewrite elem_of_nil. split; [done|]. by intros [_ [=]].
Qed.

(** X17. Which targets a checkpoint lists. A target of a module
    (criterion, optimizer, parameters) is saved unless its argument is
    [None]: [False] does not switch it off. The history is saved only
    when its argument is [True]. The parameters go under 'f_module',
    never under 'f_params', and 'f_pickle' is never listed. *)
Theorem save_model_listed_targets (st st' : state TrainCheckpoint.t) :
  TrainCheckpoint.save_model st = (Ok PNone, st') →
  ∃ ck keys,
    saved_checkpoints (world st') = saved_checkpoints (world st) ++ [ck]
    ∧ ck_keys ck = Some keys
    ∧ ("f_module" ∈ keys ↔ is_Some (TrainCheckpoint.f_params (self st)))
    ∧ ("f_optimizer" ∈ keys
       ↔ is_Some (TrainCheckpoint.f_optimizer (self st)))
    ∧ ("f_criterion" ∈ keys
       ↔ is_Some (TrainCheckpoint.f_criterion (self st)))
    ∧ ("f_history" ∈ keys
       ↔ TrainCheckpoint.f_history (self st) = Some true)
    ∧ (∀ k, k ∈ keys →
         k ∈ ["f_criterion"; "f_optimizer"; "f_module"; "f_history"]).
Proof.
  intros Hrun.
  destruct (save_model_ok st st' Hrun)
    as (h' & s' & params & r & epoch & Hfold & _ & _ & ->).
  destruct (targets_names (self st)) as [Hnd Hfilter].
  destruct (save_targets_spec (net st) (targets (self st)) _ _ [] _ _ _
              Hnd Hfold) as (Hkeys & _).
  cbn [dict_keys map app] in Hkeys.
  eexists _, (names (targets (self st))). split; [done|].
  split; [cbn [checkpoint_of ck_keys]; by rewrite Hkeys, Hfilter|].
  rewrite !names_targets_elem.
  repeat split; try (intros H; intuition congruence).
  intros k Hk. apply names_targets_elem in Hk.
  rewrite !elem_of_cons. intuition.
Qed.

Lemma save_model_listed_targets_sample :
  ∃ ck,
    saved_checkpoints
      (world (TrainCheckpoint.save_model switched_off_state).2)
    = [] ++ [ck]
    ∧ ck_keys ck = Some ["f_optimizer"; "f_module"].
Proof.
  destruct (save_model_listed_targets switched_off_state
              (TrainCheckpoint.save_model switched_off_state).2)
    as (ck & keys & Hsaved & Hkeys & _).
  { rewrite (surjective_pairing
               (TrainCheckpoint.save_model switched_off_state)) at 1.
    assert ((TrainCheckpoint.save_model switched_off_state).1 = Ok PNone)
      as -> by (vm_compute; reflexivity).
    reflexivity. }
  exists ck. split; [exact Hsaved|].
  assert (saved_checkpoints
            (world (TrainCheckpoint.save_model switched_off_state).2)
          = [{| ck_epoch := Some (PInt 1);
                ck_keys := Some ["f_optimizer"; "f_module"];
                ck_data :=
                  TrainCheckpoint.getvalues
                    (world (TrainCheckpoint.save_model switched_off_state).2)
                    [("f_optimizer", Some 0); ("f_module", Some 1)] |}])
    as Hsample by (vm_compute; reflexivity).
  rewrite Hsample in Hsaved. by injection Hsaved as <-.
Defined.




(** ** [AggregateLogCallback.handle_result]: columns and failures *)

Section Aggregate_columns.
Import train_linear.

Lemma aggregate_key_elem key results v :
  v ∈ aggregate_key key results
  ↔ ∃ i worker, results !! i = Some worker ∧ worker !! key = Some v.
Proof.
  unfold aggregate_key. rewrite list_elem_of_omap. split.
  - intros (worker & Hin & Hv). apply list_elem_of_lookup in Hin as [i Hi].
    by exists i, worker.
  - intros (i & worker & Hi & Hv). exists worker. split; [|done].
    by eapply list_elem_of_lookup_2.
Qed.

Lemma aggregate_key_length key results :
  (length (aggregate_key key results) ≤ length results)%nat.
Proof.
  unfold aggregate_key. induction results as [|worker results IH]; [done|].
  cbn [omap list_omap]. destruct (worker !! key); cbn [length]; lia.
Qed.

Lemma aggregate_key_all key results :
  Forall (λ worker : gmap string pyval, is_Some (worker !! key)) results →
  ∀ i, aggregate_key key results !! i = results !! i ≫= (.!! key).
Proof.
  unfold aggregate_key.
  induction 1 as [|worker results [v Hv] _ IH]; intros i; [done|].
  cbn [omap list_omap]. rewrite Hv. destruct i as [|i]; cbn; [done|].
  apply IH.
Qed.

(** X19. The column of a key that worker 0 has is never empty: it starts
    with the value of worker 0, and holds the values of the workers that
    have the key, each once, in the order of the workers; numpy is never
    called on an empty list. When every worker has the key, position [i]
    of the column is the value of worker [i], so that the index 'max'
    and 'min' carry is the index of a worker. *)
Theorem aggregate_key_column (results : list (gmap string pyval))
    (first : gmap string pyval) (key : string) (value : pyval) :
  results !! 0%nat = Some first →
  first !! key = Some value →
  head (aggregate_key key results) = Some value
  ∧ (1 ≤ length (aggregate_key key results) ≤ length results)%nat
  ∧ (∀ v, v ∈ aggregate_key key results
          ↔ ∃ i worker, results !! i = Some worker ∧ worker !! key = Some v)
  ∧ (Forall (λ worker : gmap string pyval, is_Some (worker !! key)) results →
     ∀ i, aggregate_key key results !! i = results !! i ≫= (.!! key)).
Proof.
  intros Hfirst Hvalue. destruct results as [|worker rest]; [done|].
  injection Hfirst as ->.
  split; [|split; [|split]].
  - unfold aggregate_key. cbn [omap list_omap]. by rewrite Hvalue.
  - unfold aggregate_key. cbn [omap list_omap]. rewrite Hvalue.
    cbn [length]. pose proof (aggregate_key_length key rest) as Hle.
    unfold aggregate_key in Hle. lia.
  - apply aggregate_key_elem.
  - apply aggregate_key_all.
Qed.

Lemma aggregate_key_column_sample :
  head (aggregate_key "loss" [sample_worker0; sample_worker1])
  = Some (PFloat (S754_finite false 3 (-2)))
  ∧ (1 ≤ length (aggregate_key "loss" [sample_worker0; sample_worker1]) ≤ 2)%nat.
Proof.
  destruct (aggregate_key_column [sample_worker0; sample_worker1]
              sample_worker0 "loss" (PFloat (S754_finite false 3 (-2))))
    as (Hhead & Hlength & _); [reflexivity | vm_compute; reflexivity |].
  split; [exact Hhead | exact Hlength].
Defined.

End Aggregate_columns.

Section Aggregate_failures.
Import train_linear.
Context {numpy : Numpy}.

(** X20. [handle_result] is all or nothing. On an empty list it raises
    [KeyError]. On a list with a first worker it returns exactly when
    every function of [DEFAULT_AGGREGATE_FUNC] returns on the column of
    every key of worker 0 that is a number and not ignored, and the log
    file is there and holds a JSON list. It then leaves in the file the
    list it found and one more record. One failing statistic makes the
    whole call raise, and so does a log file that is missing or does
    not hold a JSON list. *)
Theorem handle_result_all_or_nothing (results : list (gmap string pyval))
    (log : log_file) :
  (results = [] → handle_result results log = Raise (KeyError "0"))
  ∧ (∀ first,
       results !! 0%nat = Some first →
       (is_ok (handle_result results log) = true
        ↔ (∃ loaded_results, log = Holds loaded_results)
          ∧ ∀ key value func_key func,
              first !! key = Some value →
              key ∉ DEFAULT_KEYS_TO_IGNORE →
              is_number value = true →
              dict_get func_key DEFAULT_AGGREGATE_FUNC = Some func →
              is_ok
                (func (omap (λ worker : gmap string pyval, worker !! key)
                         results))
              = true)
       ∧ (∀ log',
            handle_result results log = Ok log' →
            ∃ loaded_results final,
              log = Holds loaded_results
              ∧ log' = loaded_results ++ [final])).
Proof.
  split; [intros ->; apply handle_result_nil|].
  intros first Hfirst. destruct results as [|worker rest]; [done|].
  injection Hfirst as ->. rewrite handle_result_file.
  pose proof (aggregate_loop (first :: rest) first) as Hloop.
  destruct (map_fold _ _ first) as [agg|e]; cbn [loop_invariant] in Hloop.
  - split.
    + assert (∀ key value func_key func,
        first !! key = Some value →
        key ∉ DEFAULT_KEYS_TO_IGNORE →
        is_number value = true →
        dict_get func_key DEFAULT_AGGREGATE_FUNC = Some func →
        is_ok (func (aggregate_key key (first :: rest))) = true) as Hstats.
      { intros key value func_key func Hkey Hign Hnum Hfunc.
        specialize (Hloop key). rewrite Hkey in Hloop.
        unfold entry_of in Hloop.
        rewrite bool_decide_eq_false_2, Hnum in Hloop by done.
        destruct (aggregate_of (aggregate_key key (first :: rest)))
          as [aggregate|e] eqn:Hagg; [|discriminate].
        destruct (aggregate_of_ok _ _ Hagg) as [_ Hall].
        destruct (Hall func_key func Hfunc) as (v & -> & _). done. }
      destruct log as [| | |loaded_results]; cbn [load_log is_ok].
      * split; [done|]. by intros [[? [=]] _].
      * split; [done|]. by intros [[? [=]] _].
      * split; [done|]. by intros [[? [=]] _].
      * split; [|done]. intros _. split; [by eexists|exact Hstats].
    + intros log'. destruct log as [| | |loaded_results]; cbn [load_log];
        try done.
      intros [= <-]. by eexists _, _.
  - split; [|done]. split; [done|]. intros [_ Htotal].
    destruct Hloop as (key & value & Hkey & Hbad). unfold entry_of in Hbad.
    case_bool_decide as Hign; [done|].
    destruct (is_number value) eqn:Hnum; [|done].
    assert (is_ok (aggregate_of (aggregate_key key (first :: rest))) = true)
      as Hok.
    { apply aggregate_of_is_ok. intros func_key func Hf.
      by apply (Htotal key value func_key func). }
    destruct (aggregate_of (aggregate_key key (first :: rest)));
      discriminate.
Qed.

End Aggregate_failures.

(** ** [PytorchProfilerLogger]: the ranges the hooks open and close *)

Section Profiler_ranges.
Import PytorchProfilerLogger.

Lemma enter_count_snoc log e :
  length (List.filter torch.is_enter (log ++ [e]))
  = (length (List.filter torch.is_enter log)
     + if torch.is_enter e then 1 else 0)%nat.
Proof.
  rewrite List.filter_app, length_app. cbn [List.filter].
  by destruct (torch.is_enter e).
Qed.

Lemma record_name_inj r r' : record_name r = record_name r' → r = r'.
Proof. by destruct r, r'. Qed.

(** A begin hook: the range is entered, then stored under its name. *)
Lemma notify_begin r (st : state logger) log :
  notify (true, r) (st, log)
  = let id := length (List.filter torch.is_enter log) in
    match record_functions_ (self st) with
    | Some d =>
        (Ok PNone,
         ({| self := set_record_functions_ (<[record_name r := id]> d) (self st);
             net := net st; world := world st |},
          log ++ [torch.Enter id (record_name r)]))
    | None =>
        (Raise (AttributeError "record_functions_"),
         (st, log ++ [torch.Enter id (record_name r)]))
    end.
Proof.
  destruct r; cbn [notify];
    cbv [on_forward_pass_begin on_backward_pass_begin on_X_to_device_begin
         on_y_to_device_begin on_batch_begin torch.record_function_enter
         get_record_functions_ mbind M_bind on_fst gets modify_self raise
         mret M_ret record_name];
    by destruct (record_functions_ (self st)).
Qed.

(** An end hook: the range stored under the name is exited. *)
Lemma notify_end r (st : state logger) log :
  notify (false, r) (st, log)
  = match record_functions_ (self st) with
    | Some d =>
        match d !! record_name r with
        | Some f => (Ok PNone, (st, log ++ [torch.Exit f]))
        | None => (Raise (KeyError (record_name r)), (st, log))
        end
    | None => (Raise (AttributeError "record_functions_"), (st, log))
    end.
Proof.
  destruct r; cbn [notify];
    cbv [on_forward_pass_end on_backward_pass_end on_X_to_device_end
         on_y_to_device_end on_batch_end torch.__exit__
         get_record_functions_ mbind M_bind on_fst gets raise
         mret M_ret record_name];
    destruct (record_functions_ (self st)) as [d|]; try done;
    by match goal with |- context [d !! ?n] => destruct (d !! n) end.
Qed.

(** The hooks of the other ranges leave the entry of a range alone, and
    neither exit its object nor make an object of that number. *)
Lemma notify_others r id hs : ∀ v (st : state logger) log d v' st1 log1,
  record_functions_ (self st) = Some d →
  d !! record_name r = Some id →
  (∀ n i, d !! n = Some i →
          (i < length (List.filter torch.is_enter log))%nat) →
  (∀ n i, n ≠ record_name r → d !! n = Some i → i ≠ id) →
  Forall (λ h : bool * range, h.2 ≠ r) hs →
  for_in hs (λ _ h, notify h) v (st, log) = (Ok v', (st1, log1)) →
  ∃ middle d1,
    log1 = log ++ middle
    ∧ Forall (λ e, e ≠ torch.Exit id ∧ ∀ n, e ≠ torch.Enter id n) middle
    ∧ record_functions_ (self st1) = Some d1
    ∧ d1 !! record_name r = Some id
    ∧ net st1 = net st ∧ world st1 = world st
    ∧ handler_attrs (self st1) = handler_attrs (self st).
Proof.
  induction hs as [|[b r'] hs IH];
    intros v st log d v' st1 log1 Hd Hid Hold Hother Hhs Hrun.
  - cbn [for_in] in Hrun. injection Hrun as <- <- <-.
    exists [], d. by rewrite app_nil_r.
  - apply Forall_cons in Hhs as [Hr' Hhs]. cbn [snd] in Hr'.
    assert (record_name r' ≠ record_name r) as Hname
      by (intros ?%record_name_inj; done).
    cbn [for_in] in Hrun. unfold mbind at 1, M_bind at 1 in Hrun.
    destruct b.
    + rewrite notify_begin, Hd in Hrun. cbn zeta in Hrun.
      set (id' := length (List.filter torch.is_enter log)) in *.
      assert (id < id')%nat as Hlt by (by eapply Hold).
      eapply IH in Hrun as (middle & d1 & -> & Hmiddle & Hd1 & Hid1 & ? & ? & ?);
        [| reflexivity | by rewrite lookup_insert_ne | | | done].
      * exists (torch.Enter id' (record_name r') :: middle), d1.
        rewrite <- app_assoc. split; [done|]. split; [|done].
        constructor; [|done]. split; [done|]. intros n [= ? _]. lia.
      * intros n i. rewrite enter_count_snoc. cbn [torch.is_enter].
        destruct (decide (record_name r' = n)) as [<-|Hn].
        -- rewrite lookup_insert_eq. intros [= <-]. fold id'. lia.
        -- rewrite lookup_insert_ne by done. intros Hi%Hold. fold id'. lia.
      * intros n i Hn.
        destruct (decide (record_name r' = n)) as [<-|Hn'].
        -- rewrite lookup_insert_eq. intros [= <-]. lia.
        -- rewrite lookup_insert_ne by done. by apply Hother.
    + rewrite notify_end, Hd in Hrun.
      destruct (d !! record_name r') as [f|] eqn:Hf; [|done].
      eapply IH in Hrun as (middle & d1 & -> & Hmiddle & Hd1 & Hid1 & ? & ? & ?);
        [| exact Hd | done | | done | done].
      * exists (torch.Exit f :: middle), d1.
        rewrite <- app_assoc. split; [done|]. split; [|done].
        constructor; [|done]. split; [|done].
        intros [= ->]. by eapply Hother.
      * intros n i Hi%Hold. rewrite enter_count_snoc. cbn [torch.is_enter].
        lia.
Qed.

End Profiler_ranges.

(** X21. The end hook of a range exits the object its begin hook
    entered, whatever hooks of the other ranges run in between. Let the
    dictionary [record_functions_] hold objects made earlier, let the
    begin hook of a range run, and then, returning, any hooks of the
    other four ranges. Then the begin hook has made a new object and
    entered it under the name of the range; no hook in between has
    exited that object; the end hook of the range returns [None] and
    exits exactly that object; and the net, the world and the attributes
    of the trace handler are untouched throughout. *)
Theorem profiler_range_pairing (r : PytorchProfilerLogger.range)
    (hs : list (bool * PytorchProfilerLogger.range))
    (st st1 : state PytorchProfilerLogger.logger)
    (log log1 : list torch.range_event) (d : gmap string nat) (v : pyval) :
  PytorchProfilerLogger.record_functions_ (self st) = Some d →
  (∀ n i, d !! n = Some i →
          (i < length (List.filter torch.is_enter log))%nat) →
  Forall (λ h : bool * PytorchProfilerLogger.range, h.2 ≠ r) hs →
  (PytorchProfilerLogger.notify (true, r);;
   for_in hs (λ _ h, PytorchProfilerLogger.notify h) PNone) (st, log)
  = (Ok v, (st1, log1)) →
  let id := length (List.filter torch.is_enter log) in
  ∃ middle,
    log1
    = log ++ torch.Enter id (PytorchProfilerLogger.record_name r) :: middle
    ∧ Forall (λ e, e ≠ torch.Exit id ∧ ∀ n, e ≠ torch.Enter id n) middle
    ∧ PytorchProfilerLogger.notify (false, r) (st1, log1)
      = (Ok PNone, (st1, log1 ++ [torch.Exit id]))
    ∧ net st1 = net st
    ∧ world st1 = world st
    ∧ PytorchProfilerLogger.handler_attrs (self st1)
      = PytorchProfilerLogger.handler_attrs (self st).
Proof.
  intros Hd Hold Hhs Hrun id.
  unfold mbind at 1, M_bind at 1 in Hrun.
  rewrite notify_begin, Hd in Hrun. cbn zeta in Hrun. fold id in Hrun.
  eapply (notify_others r id) in Hrun
    as (middle & d1 & -> & Hmiddle & Hd1 & Hid1 & Hnet & Hworld & Hattrs);
    [| reflexivity | apply lookup_insert_eq | | | done].
  - exists middle. rewrite <- app_assoc. split; [done|]. split; [done|].
    split; [|done]. by rewrite notify_end, Hd1, Hid1.
  - intros n i. rewrite enter_count_snoc. cbn [torch.is_enter]. fold id.
    destruct (decide (PytorchProfilerLogger.record_name r = n)) as [<-|Hn].
    + rewrite lookup_insert_eq. intros [= <-]. lia.
    + rewrite lookup_insert_ne by done. intros Hi%Hold. fold id in Hi. lia.
  - intros n i Hn. rewrite lookup_insert_ne by done.
    intros Hi%Hold. fold id in Hi. lia.
Qed.

Lemma profiler_range_pairing_sample :
  ∃ middle,
    ((PytorchProfilerLogger.notify (true, PytorchProfilerLogger.forward_pass);;
      for_in
        [(true, PytorchProfilerLogger.X_to_device);
         (false, PytorchProfilerLogger.X_to_device)]
        (λ _ h, PytorchProfilerLogger.notify h) PNone)
       (sample_logger, [])).2.2
    = [] ++ torch.Enter 0 "forward_pass" :: middle
    ∧ Forall (λ e, e ≠ torch.Exit 0 ∧ ∀ n, e ≠ torch.Enter 0 n) middle.
Proof.
  pose (run :=
    (PytorchProfilerLogger.notify (true, PytorchProfilerLogger.forward_pass);;
     for_in
       [(true, PytorchProfilerLogger.X_to_device);
        (false, PytorchProfilerLogger.X_to_device)]
       (λ _ h, PytorchProfilerLogger.notify h) PNone)
      (sample_logger, [])).
  assert (run = (Ok PNone, (run.2.1, run.2.2))) as Hrun
    by (vm_compute; reflexivity).
  destruct (profiler_range_pairing PytorchProfilerLogger.forward_pass
              [(true, PytorchProfilerLogger.X_to_device);
               (false, PytorchProfilerLogger.X_to_device)]
              sample_logger run.2.1 [] run.2.2 ∅ PNone)
    as (middle & Hlog & Hmiddle & _).
  - reflexivity.
  - intros n i Hi. by rewrite lookup_empty in Hi.
  - repeat constructor; discriminate.
  - exact Hrun.
  - exists middle. split; [exact Hlog | exact Hmiddle].
Defined.

(** X22. How the hooks of a range fail, and what a repeated begin hook
    leaves behind. An end hook whose range was never begun raises
    [KeyError] and exits nothing. While [record_functions_] is unset,
    as before [on_train_begin], an end hook raises [AttributeError] and
    does nothing, but a begin hook raises [AttributeError] only after it
    has entered its range, which no hook will exit. And when a begin
    hook runs twice before the end hook, the dictionary keeps the second
    object only: the end hook exits the second object, again if it runs
    again, and the first one is never exited. *)
Theorem profiler_range_failures (r : PytorchProfilerLogger.range)
    (st : state PytorchProfilerLogger.logger)
    (log : list torch.range_event) :
  let id := length (List.filter torch.is_enter log) in
  let name := PytorchProfilerLogger.record_name r in
  (∀ d,
     PytorchProfilerLogger.record_functions_ (self st) = Some d →
     d !! name = None →
     ∃ e,
       PytorchProfilerLogger.notify (false, r) (st, log) = (Raise e, (st, log))
       ∧ exc_type e = "KeyError")
  ∧ (PytorchProfilerLogger.record_functions_ (self st) = None →
     (∃ e,
        PytorchProfilerLogger.notify (false, r) (st, log)
        = (Raise e, (st, log))
        ∧ exc_type e = "AttributeError")
     ∧ ∃ e,
         PytorchProfilerLogger.notify (true, r) (st, log)
         = (Raise e, (st, log ++ [torch.Enter id name]))
         ∧ exc_type e = "AttributeError")
  ∧ (∀ d,
       PytorchProfilerLogger.record_functions_ (self st) = Some d →
       (PytorchProfilerLogger.notify (true, r);;
        PytorchProfilerLogger.notify (true, r);;
        PytorchProfilerLogger.notify (false, r);;
        PytorchProfilerLogger.notify (false, r)) (st, log)
       = (Ok PNone,
          ({| self :=
                PytorchProfilerLogger.set_record_functions_
                  (<[name := S id]> d) (self st);
              net := net st; world := world st |},
           log ++ [torch.Enter id name; torch.Enter (S id) name;
                   torch.Exit (S id); torch.Exit (S id)]))).
Proof.
  intros id name. split; [|split].
  - intros d Hd Hname. rewrite notify_end, Hd. fold name. rewrite Hname.
    by eexists.
  - intros Hunset. split.
    + rewrite notify_end, Hunset. by eexists.
    + rewrite notify_begin, Hunset. by eexists.
  - intros d Hd.
    unfold mbind at 1, M_bind at 1. rewrite notify_begin, Hd. cbn zeta.
    unfold mbind at 1, M_bind at 1. rewrite notify_begin.
    cbn [self PytorchProfilerLogger.record_functions_
         PytorchProfilerLogger.set_record_functions_]. cbn zeta.
    rewrite enter_count_snoc. cbn [torch.is_enter]. fold id name.
    unfold mbind at 1, M_bind at 1. rewrite notify_end.
    cbn [self PytorchProfilerLogger.record_functions_
         PytorchProfilerLogger.set_record_functions_].
    fold name. rewrite lookup_insert_eq.
    rewrite notify_end.
    cbn [self PytorchProfilerLogger.record_functions_
         PytorchProfilerLogger.set_record_functions_].
    fold name. rewrite lookup_insert_eq.
    rewrite insert_insert_eq, Nat.add_1_r, <- !app_assoc. done.
Qed.

(** X23. [on_epoch_begin] starts the epoch with an empty list of traces:
    whatever [profiler_traces_] held, the traces of the epoch before
    included, it holds the empty list afterwards, and [epoch_] is kept.
    The hook then enters a new range named 'epoch' and stores it; while
    [record_functions_] is unset it raises [AttributeError] instead,
    with the traces already emptied and the range already entered. *)
Theorem profiler_epoch_begin (st : state PytorchProfilerLogger.logger)
    (log : list torch.range_event) :
  let id := length (List.filter torch.is_enter log) in
  let emptied :=
    {| PytorchProfilerLogger.epoch_ :=
         PytorchProfilerLogger.epoch_
           (PytorchProfilerLogger.handler_attrs (self st));
       PytorchProfilerLogger.profiler_traces_ := Some [] |} in
  match PytorchProfilerLogger.record_functions_ (self st) with
  | Some d =>
      PytorchProfilerLogger.on_epoch_begin (st, log)
      = (Ok PNone,
         ({| self :=
               {| PytorchProfilerLogger.handler_attrs := emptied;
                  PytorchProfilerLogger.record_functions_ :=
                    Some (<["epoch" := id]> d) |};
             net := net st; world := world st |},
          log ++ [torch.Enter id "epoch"]))
  | None =>
      ∃ e,
        PytorchProfilerLogger.on_epoch_begin (st, log)
        = (Raise e,
           ({| self :=
                 {| PytorchProfilerLogger.handler_attrs := emptied;
                    PytorchProfilerLogger.record_functions_ := None |};
               net := net st; world := world st |},
            log ++ [torch.Enter id "epoch"]))
        ∧ exc_type e = "AttributeError"
  end.
Proof.
  intros id emptied. subst id emptied.
  destruct st as [[attrs d] n w].
  cbv [PytorchProfilerLogger.on_epoch_begin torch.record_function_enter
       PytorchProfilerLogger.get_record_functions_ mbind M_bind on_fst gets
       modify_self raise mret M_ret self net world
       PytorchProfilerLogger.set_handler_attrs
       PytorchProfilerLogger.set_profiler_traces_
       PytorchProfilerLogger.set_record_functions_
       PytorchProfilerLogger.handler_attrs
       PytorchProfilerLogger.record_functions_].
  destruct d as [d|]; [done|]. by eexists.
Qed.

(** ** [AggregateLogCallback.handle_result]: the five statistics *)

Section Aggregate_extrema.
Import train_linear.
Context {numpy : Numpy}.

(** X24. Under 'max' and 'min' the statistics of a key are pairs: the
    value [np.max] (or [np.min]) returns on the column, and the index
    [np.argmax] (or [np.argmin]) returns on it; under 'mean', 'median'
    and 'std' they are what the numpy function of that name returns. *)
Theorem handle_result_extrema_are_pairs (first : gmap string pyval)
    (rest : list (gmap string pyval)) (log log' : list final_results)
    (key : string) (value : pyval) :
  handle_result (first :: rest) log = Ok log' →
  first !! key = Some value →
  key ∉ DEFAULT_KEYS_TO_IGNORE →
  is_number value = true →
  let column := aggregate_key key (first :: rest) in
  ∃ final aggregate mean median std highest argmax lowest argmin,
    last log' = Some final
    ∧ aggregated final !! key = Some (Aggregate aggregate)
    ∧ np_mean column = Ok mean ∧ aggregate !! "mean" = Some mean
    ∧ np_median column = Ok median ∧ aggregate !! "median" = Some median
    ∧ np_std column = Ok std ∧ aggregate !! "std" = Some std
    ∧ np_max column = Ok highest ∧ np_argmax column = Ok argmax
    ∧ aggregate !! "max" = Some (PTuple [highest; argmax])
    ∧ np_min column = Ok lowest ∧ np_argmin column = Ok argmin
    ∧ aggregate !! "min" = Some (PTuple [lowest; argmin]).
Proof.
  intros Hrun Hkey Hign Hnum column. rewrite handle_result_cons in Hrun.
  pose proof (aggregate_loop (first :: rest) first) as Hloop.
  destruct (map_fold _ _ first) as [agg|e]; [|done].
  cbn [loop_invariant] in Hloop. injection Hrun as <-.
  specialize (Hloop key). rewrite Hkey in Hloop. unfold entry_of in Hloop.
  rewrite bool_decide_eq_false_2, Hnum in Hloop by done. fold column in Hloop.
  destruct (aggregate_of column) as [aggregate|e] eqn:Hagg; [|discriminate].
  injection Hloop as Hloop.
  rewrite aggregate_of_unfold in Hagg.
  unfold mbind, result_bind, max_and_argmax, min_and_argmin in Hagg.
  unfold mbind, result_bind, mret, result_ret in Hagg.
  destruct (np_mean column) as [mean|]; [|discriminate].
  destruct (np_median column) as [median|]; [|discriminate].
  destruct (np_std column) as [std|]; [|discriminate].
  destruct (np_max column) as [highest|]; [|discriminate].
  destruct (np_argmax column) as [argmax|]; [|discriminate].
  destruct (np_min column) as [lowest|]; [|discriminate].
  destruct (np_argmin column) as [argmin|]; [|discriminate].
  injection Hagg as <-.
  eexists _, _, mean, median, std, highest, argmax, lowest, argmin.
  split; [apply last_snoc|]. split; [by rewrite Hloop|].
  repeat split;
    repeat (rewrite lookup_insert_ne by discriminate);
    by rewrite lookup_insert_eq.
Qed.

End Aggregate_extrema.

Lemma handle_result_extrema_are_pairs_sample :
  ∃ final aggregate,
    last (match train_linear.handle_result (numpy := numpy_calls)
                  [sample_worker0; sample_worker1] (train_linear.Holds []) with
          | Ok log' => log'
          | Raise _ => []
          end) = Some final
    ∧ train_linear.aggregated final !! "loss"
      = Some (train_linear.Aggregate aggregate)
    ∧ aggregate !! "max"
      = Some (PTuple
                [PTuple [PStr "np.max";
                         PList [PFloat (S754_finite false 3 (-2));
                                PFloat (S754_finite false 5 (-3))]];
                 PTuple [PStr "np.argmax";
                         PList [PFloat (S754_finite false 3 (-2));
                                PFloat (S754_finite false 5 (-3))]]]).
Proof.
  destruct (train_linear.handle_result (numpy := numpy_calls)
              [sample_worker0; sample_worker1] (train_linear.Holds [])) as [log'|e] eqn:Hcall.
  - destruct (handle_result_extrema_are_pairs (numpy := numpy_calls)
                sample_worker0 [sample_worker1] [] log' "loss"
                (PFloat (S754_finite false 3 (-2))) Hcall)
      as (final & aggregate & mean & median & std & highest & argmax & lowest
          & argmin & Hlast & Hagg & _ & _ & _ & _ & _ & _ & Hmax & Hargmax
          & Hpair & _);
      [vm_compute; reflexivity
      | apply (bool_decide_unpack _); vm_compute; exact I
      | reflexivity |].
    exists final, aggregate. split; [exact Hlast|]. split; [exact Hagg|].
    rewrite Hpair. cbn in Hmax, Hargmax.
    injection Hmax as <-. injection Hargmax as <-.
    do 3 f_equal.
  - pose proof handle_result_aggregates_sample_ok as Hok.
    rewrite Hcall in Hok. discriminate.
Defined.
